(** * Spendify backend: budget aggregate, insight rules and alert generation

    A shallow embedding of the transaction, budget, AI-insight and alert
    controllers of the Spendify backend, and the properties of them that the
    specification states.

    Conventions of the embedding.
    - A JavaScript [Number] is an exact rational ([Q]), and equality of
      amounts is [Qeq] ([==]).  Sums and differences of binary doubles are the
      exact ones on whole numbers ([JS.isSafeInteger]) and rounded otherwise:
      a statement of an exact sum or difference is made for whole amounts,
      and [Double] runs the arithmetic of the aggregate in binary64.
    - A [Date] is its time value, the milliseconds since the epoch, in [Z].
      The local time zone is a fixed offset [tz] (milliseconds east of UTC)
      where the code reads the fields of one date; the bill code, which
      compares two local midnights, takes a zone whose offset changes with
      the date ([JSDate.Zone]).
    - A Mongo collection is a list of documents in insertion order; the Budget
      collection, which has a unique index on (user, month), is a finite map.
    - A JavaScript object used as a dictionary with string keys is a finite map
      or, where the order of its entries is observed, an association list in
      insertion order.  These hold the entries of the object's own; a read
      that can find a member inherited from [Object.prototype] is written out
      ([challengePool], [lastWeekAmountOf]), and a statement that depends on
      the entries of a dictionary keyed by category is made for the
      categories that are no name of such a member ([JS.ownKey]).
    - A handler returns the new store together with what it sent or threw. *)

From Stdlib Require Import ZArith QArith Qround Lia Lqa String List Bool.
From Stdlib Require Import DecimalString Sorted.
From Stdlib Require Floats.
From stdpp Require Import gmap strings list fin_maps.

Open Scope Z_scope.

(** ** The JavaScript runtime the controllers rely on *)

Module JS.

(** [x <= y], [x < y] and [x === y] on numbers. *)
Definition leb (x y : Q) : bool := Qle_bool x y.
Definition ltb (x y : Q) : bool := negb (Qle_bool y x).
Definition eqb (x y : Q) : bool := Qeq_bool x y.

(** [Math.round]: the nearest integer, halves going up. *)
Definition round (x : Q) : Z := Qfloor (x + (1 # 2)).

(** [Math.floor] and [Math.ceil]. *)
Definition floor (x : Q) : Z := Qfloor x.
Definition ceil (x : Q) : Z := Qceiling x.

(** An integer inside a template literal. *)
Definition showZ (z : Z) : string := NilZero.string_of_int (Z.to_int z).

(** Truthiness of an optional number and of an optional string. *)
Definition truthyNum (o : option Q) : bool :=
  match o with Some x => negb (eqb x 0) | None => false end.
Definition truthyStr (o : option string) : bool :=
  match o with Some x => negb (String.eqb x "") | None => false end.

(** [arr[i]] for an integer index: [None] stands for [undefined]. *)
Definition index {A : Type} (arr : list A) (i : Z) : option A :=
  if i <? 0 then None else nth_error arr (Z.to_nat i).

(** [arr.sort(cmp)]: the sort is stable; [cmp a b > 0] puts [a] after [b]. *)
Fixpoint sortInsert {A : Type} (cmp : A -> A -> Q) (x : A) (l : list A) : list A :=
  match l with
  | [] => [x]
  | y :: l' => if ltb 0 (cmp x y) then y :: sortInsert cmp x l' else x :: l
  end.
Definition sort {A : Type} (cmp : A -> A -> Q) (l : list A) : list A :=
  fold_right (sortInsert cmp) [] l.

(** [arr.reduce((sum, x) => sum + f(x), 0)]. *)
Definition sumOf {A : Type} (f : A -> Q) (l : list A) : Q :=
  fold_left (fun sum x => (sum + f x)%Q) l 0%Q.

(** The names of the members that an object literal inherits from
    [Object.prototype].  A read [obj[k]] at such a name finds the inherited
    member when [obj] has no entry of its own under [k]. *)
Definition inheritedKeys : list string :=
  ["constructor"; "__proto__"; "hasOwnProperty"; "isPrototypeOf";
   "propertyIsEnumerable"; "toLocaleString"; "toString"; "valueOf";
   "__defineGetter__"; "__defineSetter__"; "__lookupGetter__";
   "__lookupSetter__"]%string.

(** The key is none of them: an object literal holds under it what was
    written there and nothing else. *)
Definition ownKey (k : string) : bool :=
  negb (existsb (String.eqb k) inheritedKeys).

(** [Number.isInteger] and [Number.isSafeInteger]: on the safe integers the
    sums and differences of binary floating point are the exact ones, as
    long as the result is a safe integer too. *)
Definition isInteger (x : Q) : bool := Qnum x mod Z.pos (Qden x) =? 0.
Definition isSafeInteger (x : Q) : bool :=
  isInteger x && leb (inject_Z (- (2 ^ 53 - 1))) x && leb x (inject_Z (2 ^ 53 - 1)).

(** *** Dates *)

Definition msPerDay : Z := 86400000.

(** Day number (days since 1970-01-01) of the proleptic Gregorian date
    [y]-[m]-[d], with [m] from 1 to 12. *)
Definition days_from_civil (y m d : Z) : Z :=
  let y' := if m <=? 2 then y - 1 else y in
  let era := y' / 400 in
  let yoe := y' - era * 400 in
  let mp := if m >? 2 then m - 3 else m + 9 in
  let doy := (153 * mp + 2) / 5 + d - 1 in
  let doe := yoe * 365 + yoe / 4 - yoe / 100 + doy in
  era * 146097 + doe - 719468.

(** Year, month (1 to 12) and day of the month of a day number. *)
Definition civil_from_days (z : Z) : Z * Z * Z :=
  let z := z + 719468 in
  let era := z / 146097 in
  let doe := z - era * 146097 in
  let yoe := (doe - doe / 1460 + doe / 36524 - doe / 146096) / 365 in
  let y := yoe + era * 400 in
  let doy := doe - (365 * yoe + yoe / 4 - yoe / 100) in
  let mp := (5 * doy + 2) / 153 in
  let d := doy - (153 * mp + 2) / 5 + 1 in
  let m := if mp <? 10 then mp + 3 else mp - 9 in
  ((if m <=? 2 then y + 1 else y), m, d).

(** [MakeDay(year, month, date)] of the language definition: [month] is
    0-based and may overflow into the next years; [date] may be 0 or
    negative and then counts back from the first of the month. *)
Definition MakeDay (year month date : Z) : Z :=
  days_from_civil (year + month / 12) (month mod 12 + 1) 1 + date - 1.

(** [new Date("YYYY-MM-01")]: a date-only string is read as UTC midnight. *)
Definition parseDateOnly (year month1 : Z) : Z :=
  days_from_civil year month1 1 * msPerDay.

Section Local.
(** Offset of local time from UTC, in milliseconds. *)
Variable tz : Z.

Definition localTime (t : Z) : Z := t + tz.
Definition getFullYear (t : Z) : Z :=
  fst (fst (civil_from_days (localTime t / msPerDay))).
(** 0-based, as in JavaScript. *)
Definition getMonth (t : Z) : Z :=
  snd (fst (civil_from_days (localTime t / msPerDay))) - 1.
Definition getDate (t : Z) : Z :=
  snd (civil_from_days (localTime t / msPerDay)).

(** [new Date(year, month, date, hours, minutes, seconds, ms)]. *)
Definition mkDate (year month date hours minutes seconds ms : Z) : Z :=
  MakeDay year month date * msPerDay
  + (((hours * 60 + minutes) * 60 + seconds) * 1000 + ms) - tz.

(** [d.setDate(date)]: same local year, month and time of day. *)
Definition setDate (t date : Z) : Z :=
  MakeDay (getFullYear t) (getMonth t) date * msPerDay
  + localTime t mod msPerDay - tz.
End Local.

End JS.

(** ** Documents, schemas and collections *)

Module Model.

(** What a handler throws: an [ApiError] of the controllers, the
    [ValidationError] of a schema validator (with the path that failed), or
    the [TypeError] of a property read on [undefined]. *)
Inductive Error : Type :=
| ApiError (statusCode : Z) (message : string)
| ValidationError (path : string) (message : string)
| TypeError (message : string).

(** What a handler does with the request: it answers with an [ApiResponse]
    or it throws. *)
Inductive Result (A : Type) : Type :=
| Respond (statusCode : Z) (data : A) (message : string)
| Throw (e : Error).
Arguments Respond {A} statusCode data message.
Arguments Throw {A} e.

(** The month key [YYYY-MM] of a budget, kept as the year and the month
    (1 to 12) it is printed from. *)
Definition Month : Type := Z * Z.

(** The key as the code prints it:
    [`${year}-${String(month).padStart(2, "0")}`]. *)
Definition monthString (month : Month) : string :=
  let mm := JS.showZ (snd month) in
  JS.showZ (fst month) ++ "-" ++ (if (String.length mm <? 2)%nat then "0" ++ mm else mm).

(** models/Transaction.js *)
Record Transaction : Type := mkTransaction {
  t_id : nat;
  t_user : nat;
  t_type : string;
  t_category : string;
  t_amount : Q;
  t_date : Z;
  t_note : option string;
  t_mood : option string
}.

Definition typeEnum : list string := ["income"; "expense"]%string.
Definition moodEnum : list string :=
  ["happy"; "sad"; "angry"; "stressed"; "bored"; "excited"; "neutral"]%string.
Definition inEnum (v : string) (enum : list string) : bool :=
  existsb (String.eqb v) enum.

(** The validators of the transaction schema, in the order of its paths;
    [None] when the document passes. *)
Definition validateTransaction (t : Transaction) : option Error :=
  if negb (inEnum (t_type t) typeEnum) then
    Some (ValidationError "type" "not a valid enum value")
  else if String.eqb (t_category t) "" then
    Some (ValidationError "category" "Please add a category")
  else if negb (JS.ltb 0 (t_amount t)) then
    Some (ValidationError "amount" "Amount must be greater than 0")
  else match t_mood t with
       | Some m => if inEnum m moodEnum then None
                   else Some (ValidationError "mood" "not a valid enum value")
       | None => None
       end.

(** models/Budget.js; the document of a (user, month) pair. *)
Record Budget : Type := mkBudget {
  monthlyBudget : Q;
  spentSoFar : Q
}.

(** models/Alert.js.  The [metadata] of the schema has the paths
    [budgetUsage], [billId], [billName], [dueDate], [trendPercentage] and
    [category], and no [month]. *)
Record AlertMetadata : Type := mkAlertMetadata {
  budgetUsage : option Z;
  billId : option nat;
  billName : option string;
  dueDate : option Z;
  trendPercentage : option Z;
  md_category : option string
}.

Record Alert : Type := mkAlert {
  a_user : nat;
  a_type : string;
  a_severity : string;
  a_message : string;
  a_metadata : AlertMetadata;
  a_isRead : bool;
  a_createdAt : Z;
  a_expiresAt : Z
}.

(** models/User.js, the AI preferences of the settings. *)
Record AIPreferences : Type := mkAIPreferences {
  enableAI : bool;
  pref_forecast : bool;
  pref_personality : bool;
  pref_suggestions : bool;
  pref_challenges : bool
}.

Record User : Type := mkUser {
  u_id : nat;
  aiPreferences : option AIPreferences
}.

(** The database. [nextId] is the next fresh transaction id. *)
Record Store : Type := mkStore {
  transactions : list Transaction;
  budgets : gmap (nat * Month) Budget;
  alerts : list Alert;
  nextId : nat
}.

Definition setTransactions (s : Store) (l : list Transaction) : Store :=
  mkStore l (budgets s) (alerts s) (nextId s).
Definition setAlerts (s : Store) (l : list Alert) : Store :=
  mkStore (transactions s) (budgets s) l (nextId s).

(** [Transaction.findById(id)] *)
Definition Transaction_findById (s : Store) (id : nat) : option Transaction :=
  List.find (fun t => Nat.eqb (t_id t) id) (transactions s).

(** [Transaction.create(fields)]: validate, then insert under a fresh id. *)
Definition Transaction_create (s : Store) (user : nat) (type category : string)
    (amount : Q) (date : Z) (note mood : option string)
    : Error + Store * Transaction :=
  let doc := mkTransaction (nextId s) user type category amount date note mood in
  match validateTransaction doc with
  | Some e => inl e
  | None =>
      inr (mkStore (transactions s ++ [doc]) (budgets s) (alerts s) (S (nextId s)),
           doc)
  end.

(** [transaction.save()]: validate, then replace the stored document. *)
Definition Transaction_save (s : Store) (doc : Transaction) : Error + Store :=
  match validateTransaction doc with
  | Some e => inl e
  | None =>
      inr (setTransactions s
             (List.map (fun t => if Nat.eqb (t_id t) (t_id doc) then doc else t)
                       (transactions s)))
  end.

(** [transaction.deleteOne()] *)
Definition Transaction_deleteOne (s : Store) (doc : Transaction) : Store :=
  setTransactions s
    (List.filter (fun t => negb (Nat.eqb (t_id t) (t_id doc))) (transactions s)).

(** [Budget.findOne({ user, month })] *)
Definition Budget_findOne (s : Store) (user : nat) (month : Month) : option Budget :=
  budgets s !! (user, month).

(** [budget.save()] and [Budget.create(...)] for the document of
    (user, month). *)
Definition Budget_save (s : Store) (user : nat) (month : Month) (b : Budget) : Store :=
  mkStore (transactions s) (<[(user, month) := b]> (budgets s)) (alerts s) (nextId s).

(** The document of [Alert.create(fields)], with the defaults of the schema. *)
Definition newAlert (now : Z) (user : nat) (type severity message : string)
    (metadata : AlertMetadata) : Alert :=
  mkAlert user type severity message metadata false now
          (now + 30 * 24 * 60 * 60 * 1000).

(** [Alert.create(fields)] *)
Definition Alert_create (now : Z) (s : Store) (user : nat) (type severity message : string)
    (metadata : AlertMetadata) : Store :=
  setAlerts s (alerts s ++ [newAlert now user type severity message metadata]).

(** [Alert.deleteMany(filter)] *)
Definition Alert_deleteMany (s : Store) (filter : Alert -> bool) : Store :=
  setAlerts s (List.filter (fun a => negb (filter a)) (alerts s)).

End Model.

(** ** controllers/transactionController.js *)

Module TransactionController.
Import Model.

(** The fields of [req.body]; [None] is a field that was not sent. *)
Record Body : Type := mkBody {
  b_amount : option Q;
  b_type : option string;
  b_category : option string;
  b_date : option Z;
  b_note : option string;
  b_mood : option string
}.

(** [a || b] on numbers and on strings. *)
Definition orNum (a : option Q) (b : Q) : Q :=
  match a with Some x => if JS.eqb x 0 then b else x | None => b end.
Definition orStr (a : option string) (b : string) : string :=
  match a with Some x => if String.eqb x "" then b else x | None => b end.
Definition orDate (a : option Z) (b : Z) : Z :=
  match a with Some x => x | None => b end.
(** [a !== undefined ? a : b] *)
Definition orDefined (a : option string) (b : option string) : option string :=
  match a with Some x => Some x | None => b end.

Section Handlers.
Variable tz : Z.

(** The month key [`${d.getFullYear()}-${String(d.getMonth() + 1).padStart(2, "0")}`]. *)
Definition monthOf (d : Z) : Month :=
  (JS.getFullYear tz d, JS.getMonth tz d + 1).

(** [budget.spentSoFar += Number(amount); await budget.save()] when a
    budget of the month exists. *)
Definition applyExpense (s : Store) (uid : nat) (d : Z) (amount : Q) : Store :=
  let month := monthOf d in
  match Budget_findOne s uid month with
  | Some budget =>
      Budget_save s uid month
        (mkBudget (monthlyBudget budget) (spentSoFar budget + amount)%Q)
  | None => s
  end.

(** [budget.spentSoFar -= Number(amount); if (budget.spentSoFar < 0)
    budget.spentSoFar = 0; await budget.save()] when a budget of the month
    exists. *)
Definition revertExpense (s : Store) (uid : nat) (d : Z) (amount : Q) : Store :=
  let month := monthOf d in
  match Budget_findOne s uid month with
  | Some budget =>
      let spent := (spentSoFar budget - amount)%Q in
      Budget_save s uid month
        (mkBudget (monthlyBudget budget) (if JS.ltb spent 0 then 0%Q else spent))
  | None => s
  end.

(** POST /api/transactions *)
Definition addTransaction (s : Store) (uid : nat) (body : Body)
    : Store * Result Transaction :=
  if negb (JS.truthyNum (b_amount body)) || negb (JS.truthyStr (b_type body))
     || negb (JS.truthyStr (b_category body)) || negb (bool_decide (is_Some (b_date body)))
  then (s, Throw (ApiError 400 "Amount, type, category, and date are required"))
  else
    match b_amount body, b_type body, b_category body, b_date body with
    | Some amount, Some type, Some category, Some date =>
        if JS.leb amount 0 then
          (s, Throw (ApiError 400 "Amount must be greater than 0"))
        else
          match Transaction_create s uid type category amount date
                                   (b_note body) (b_mood body) with
          | inl e => (s, Throw e)
          | inr (s1, transaction) =>
              let s2 := if String.eqb type "expense"
                        then applyExpense s1 uid date amount
                        else s1 in
              (s2, Respond 201 transaction "Transaction added successfully")
          end
    | _, _, _, _ =>
        (s, Throw (ApiError 400 "Amount, type, category, and date are required"))
    end.

(** DELETE /api/transactions/:id *)
Definition deleteTransaction (s : Store) (uid : nat) (id : nat)
    : Store * Result unit :=
  match Transaction_findById s id with
  | None => (s, Throw (ApiError 404 "Transaction not found"))
  | Some transaction =>
      if negb (Nat.eqb (t_user transaction) uid) then
        (s, Throw (ApiError 401 "Not authorized to delete this transaction"))
      else
        let s1 := if String.eqb (t_type transaction) "expense"
                  then revertExpense s uid (t_date transaction) (t_amount transaction)
                  else s in
        (Transaction_deleteOne s1 transaction,
         Respond 200 tt "Transaction deleted successfully")
  end.

(** The assignments of step 2 of [updateTransaction]. *)
Definition updateFields (transaction : Transaction) (body : Body) : Transaction :=
  mkTransaction (t_id transaction) (t_user transaction)
    (orStr (b_type body) (t_type transaction))
    (orStr (b_category body) (t_category transaction))
    (orNum (b_amount body) (t_amount transaction))
    (orDate (b_date body) (t_date transaction))
    (orDefined (b_note body) (t_note transaction))
    (orDefined (b_mood body) (t_mood transaction)).

(** PUT /api/transactions/:id *)
Definition updateTransaction (s : Store) (uid : nat) (id : nat) (body : Body)
    : Store * Result Transaction :=
  match Transaction_findById s id with
  | None => (s, Throw (ApiError 404 "Transaction not found"))
  | Some transaction =>
      if negb (Nat.eqb (t_user transaction) uid) then
        (s, Throw (ApiError 401 "Not authorized to update this transaction"))
      else
        (* 1. Revert Old Budget Impact (if it was an expense) *)
        let s1 := if String.eqb (t_type transaction) "expense"
                  then revertExpense s uid (t_date transaction) (t_amount transaction)
                  else s in
        (* 2. Update Transaction Fields *)
        let transaction' := updateFields transaction body in
        match Transaction_save s1 transaction' with
        | inl e => (s1, Throw e)
        | inr s2 =>
            (* 3. Apply New Budget Impact (if it is now an expense) *)
            let s3 := if String.eqb (t_type transaction') "expense"
                      then applyExpense s2 uid (t_date transaction') (t_amount transaction')
                      else s2 in
            (s3, Respond 200 transaction' "Transaction updated successfully")
        end
  end.

(** A request to the Consistency Engine and what comes back. *)
Inductive Request : Type :=
| Add (uid : nat) (body : Body)
| Edit (uid : nat) (id : nat) (body : Body)
| Delete (uid : nat) (id : nat).

Inductive Reply : Type :=
| Sent (statusCode : Z) (message : string)
| Thrown (e : Error).

Definition reply {A : Type} (r : Result A) : Reply :=
  match r with
  | Respond c _ m => Sent c m
  | Throw e => Thrown e
  end.

Definition handle (s : Store) (r : Request) : Store * Reply :=
  match r with
  | Add uid body => let (s', res) := addTransaction s uid body in (s', reply res)
  | Edit uid id body => let (s', res) := updateTransaction s uid id body in (s', reply res)
  | Delete uid id => let (s', res) := deleteTransaction s uid id in (s', reply res)
  end.

(** Requests served one after the other. *)
Fixpoint serve (s : Store) (rs : list Request) : Store * list Reply :=
  match rs with
  | [] => (s, [])
  | r :: rs' =>
      let (s1, out) := handle s r in
      let (s2, outs) := serve s1 rs' in
      (s2, out :: outs)
  end.

(** *** What the specification measures *)

(** The transaction counts for the aggregate of (user, month): it is an
    expense of the user dated in the month. *)
Definition countsFor (uid : nat) (month : Month) (t : Transaction) : bool :=
  Nat.eqb (t_user t) uid && String.eqb (t_type t) "expense"
  && bool_decide (monthOf (t_date t) = month).

(** Sum of [amount] over the live expense transactions of the user dated
    in the month. *)
Definition liveSum (s : Store) (uid : nat) (month : Month) : Q :=
  JS.sumOf t_amount (List.filter (countsFor uid month) (transactions s)).

(** What one transaction adds to that sum. *)
Definition share (uid : nat) (month : Month) (t : Transaction) : Q :=
  if countsFor uid month t then t_amount t else 0%Q.

(** [q] clamped at zero. *)
Definition clamp0 (q : Q) : Q := if JS.ltb q 0 then 0%Q else q.

(** The aggregate of (user, month) exists and agrees with the ledger. *)
Definition inSync (s : Store) (uid : nat) (month : Month) : Prop :=
  exists budget, Budget_findOne s uid month = Some budget
                 /\ (spentSoFar budget == clamp0 (liveSum s uid month))%Q.

(** What the schema and the store guarantee of the stored transactions:
    every document passes the validators and ids are unique and were
    issued. *)
Definition wellFormed (s : Store) : Prop :=
  Forall (fun t => validateTransaction t = None) (transactions s)
  /\ NoDup (List.map t_id (transactions s))
  /\ Forall (fun t => (t_id t < nextId s)%nat) (transactions s).

(** The aggregate of (user, month) exists and is at least [lo]. *)
Definition atLeastAt (lo : Q) (s : Store) (uid : nat) (month : Month) : Prop :=
  exists budget, Budget_findOne s uid month = Some budget
                 /\ (lo <= spentSoFar budget)%Q.

(** A body that carries a new amount and nothing else. *)
Definition amountOnly (a : Q) : Body :=
  mkBody (Some a) None None None None None.

(** An edit that the schema validators refuse. *)
Definition refusedEdit (r : Request) (out : Reply) : Prop :=
  match r, out with
  | Edit _ _ _, Thrown (ValidationError _ _) => True
  | _, _ => False
  end.
End Handlers.

End TransactionController.

(** ** The arithmetic of the aggregate in binary64 *)

Module Double.
Import Floats.

(** [oldBudget.spentSoFar -= Number(transaction.amount);
     if (oldBudget.spentSoFar < 0) oldBudget.spentSoFar = 0] *)
Definition revert (spentSoFar amount : float) : float :=
  let spentSoFar := (spentSoFar - amount)%float in
  if (spentSoFar <? 0)%float then 0%float else spentSoFar.

(** [newBudget.spentSoFar += Number(transaction.amount)] *)
Definition apply (spentSoFar amount : float) : float :=
  (spentSoFar + amount)%float.

(** What [updateTransaction] leaves in [spentSoFar] when only the amount
    of an expense changes. *)
Definition editAmount (spentSoFar oldAmount newAmount : float) : float :=
  apply (revert spentSoFar oldAmount) newAmount.

End Double.


(** ** controllers/budgetController.js *)

Module BudgetController.
Import Model.

(** What [calculateBudgetFields] returns. *)
Record BudgetData : Type := mkBudgetData {
  bd_month : Month;
  bd_monthlyBudget : Q;
  bd_spentSoFar : Q;
  bd_remaining : Q;
  bd_percentageUsed : Z;
  bd_statusColor : string
}.

Definition calculateBudgetFields (month : Month) (budget : Budget) : BudgetData :=
  let remaining := (monthlyBudget budget - spentSoFar budget)%Q in
  let percentageUsed :=
    JS.round (spentSoFar budget / monthlyBudget budget * 100)%Q in
  let statusColor :=
    if percentageUsed >? 95 then "red"
    else if percentageUsed >? 80 then "orange"
    else if percentageUsed >? 50 then "yellow"
    else "green" in
  mkBudgetData month (monthlyBudget budget) (spentSoFar budget)
               remaining percentageUsed statusColor.

Section Handlers.
Variable tz : Z.

(** [getCurrentMonth()], at the time [now]. *)
Definition getCurrentMonth (now : Z) : Month :=
  (JS.getFullYear tz now, JS.getMonth tz now + 1).

(** [new Date(month + "-01")] *)
Definition startDate (month : Month) : Z :=
  JS.parseDateOnly (fst month) (snd month).

(** [new Date(startDate.getFullYear(), startDate.getMonth() + 1, 0, 23, 59, 59, 999)] *)
Definition endDate (month : Month) : Z :=
  JS.mkDate tz (JS.getFullYear tz (startDate month))
            (JS.getMonth tz (startDate month) + 1) 0 23 59 59 999.

(** The query of [setBudget]: expenses of the user with
    [startDate <= date <= endDate]. *)
Definition expensesOfMonth (s : Store) (uid : nat) (month : Month) : list Transaction :=
  List.filter
    (fun t => Nat.eqb (t_user t) uid && String.eqb (t_type t) "expense"
              && (startDate month <=? t_date t) && (t_date t <=? endDate month))
    (transactions s).

(** POST /api/budget *)
Definition setBudget (now : Z) (s : Store) (uid : nat) (monthlyBudget : option Q)
    : Store * Result BudgetData :=
  match monthlyBudget with
  | None =>
      (s, Throw (ApiError 400 "Please provide a valid monthly budget greater than 0"))
  | Some limit =>
      if JS.eqb limit 0 || JS.leb limit 0 then
        (s, Throw (ApiError 400 "Please provide a valid monthly budget greater than 0"))
      else
        let month := getCurrentMonth now in
        let expenses := expensesOfMonth s uid month in
        let spent := JS.sumOf t_amount expenses in
        let budget :=
          match Budget_findOne s uid month with
          | Some budget => mkBudget limit spent   (* update the existing budget *)
          | None => mkBudget limit spent          (* create a new budget *)
          end in
        (Budget_save s uid month budget,
         Respond 200 (calculateBudgetFields month budget) "Budget set successfully")
  end.
End Handlers.

(** First day (as a day number) of the month with index [k], where the index
    of month [m] of year [y] is [12 * y + (m - 1)]. *)
Definition monthStart (k : Z) : Z := JS.MakeDay 0 k 1.

End BudgetController.

(** ** controllers/aiController.js *)

Module AIController.
Import Model.

(** What [getForecast] sends. *)
Record Forecast : Type := mkForecast {
  predictedExpenses : Z;
  f_monthlyBudget : Q;
  f_spentSoFar : Q;
  remainingDays : Z;
  dailyAverage : Z;
  difference : Z;
  riskLevel : string;
  f_message : string
}.

(** What [getPersonality] sends. *)
Record Personality : Type := mkPersonality {
  p_type : string;
  p_description : string;
  p_reason : string;
  p_advice : string;
  topCategories : list (string * Z)
}.

(** An entry of a challenge pool and a challenge as it is sent. *)
Record Template : Type := mkTemplate {
  tp_title : string;
  tp_desc : string;
  tp_icon : string;
  tp_duration : string
}.

Record Challenge : Type := mkChallenge {
  c_id : Z;
  c_title : string;
  c_description : string;
  expectedSave : Z;
  c_duration : string;
  difficulty : string;
  c_icon : string;
  c_status : string
}.

(** [user.settings?.aiPreferences?.field] as a condition. *)
Definition prefers (user : User) (field : AIPreferences -> bool) : bool :=
  match aiPreferences user with
  | Some prefs => field prefs
  | None => false
  end.

(** [generateAIMessage(riskLevel, percentage)] *)
Definition generateAIMessage (riskLevel : string) (percentage : Q) : string :=
  let overagePercent := JS.round (percentage - 100) in
  if String.eqb riskLevel "low" then
    "You're on track! Based on your past 30 days, you will comfortably stay within your monthly budget."
  else if String.eqb riskLevel "medium" then
    "You may reach your budget limit by the end of the month. Small reductions in daily expenses can help."
  else
    "Warning! At your current spending pace, you may exceed your monthly budget by "
    ++ JS.showZ overagePercent ++ "%. Consider reducing non-essential expenses.".

(** [categoryTotals[cat] = (categoryTotals[cat] || 0) + amount], the keys kept
    in the order in which they were first written.  This is the assignment
    for a category with [JS.ownKey]; under an inherited name the read finds
    a member of [Object.prototype] and the sum is no number. *)
Fixpoint addTotal (cat : string) (amount : Q) (totals : list (string * Q))
    : list (string * Q) :=
  match totals with
  | [] => [(cat, (0 + amount)%Q)]
  | (c, v) :: rest =>
      if String.eqb c cat then (c, (v + amount)%Q) :: rest
      else (c, v) :: addTotal cat amount rest
  end.

Definition categoryTotals (l : list Transaction) : list (string * Q) :=
  fold_left (fun totals t => addTotal (t_category t) (t_amount t) totals) l [].

(** The entry of a key in such an object, if it has one. *)
Fixpoint lookupTotal (cat : string) (totals : list (string * Q)) : option Q :=
  match totals with
  | [] => None
  | (c, v) :: rest => if String.eqb c cat then Some v else lookupTotal cat rest
  end.

(** [categoryTotals[cat]]; the keys looked up are keys of the object. *)
Definition totalOf (totals : list (string * Q)) (cat : string) : Q :=
  match lookupTotal cat totals with
  | Some v => v
  | None => 0%Q
  end.

(** [[...new Set(l)]]: the distinct values, in the order of their first
    occurrence. *)
Fixpoint uniqueFrom (seen : list string) (l : list string) : list string :=
  match l with
  | [] => []
  | x :: rest =>
      if existsb (String.eqb x) seen then uniqueFrom seen rest
      else x :: uniqueFrom (x :: seen) rest
  end.
Definition unique (l : list string) : list string := uniqueFrom [] l.

(** [challengePool[cat]] on the challenge repository of [getChallenges], an
    object literal; an icon is written by its name.  [None] is [undefined].
    At a name of [JS.inheritedKeys] the read finds the member inherited from
    [Object.prototype]: it is truthy, and none of its indices holds a
    template, which the empty pool stands for. *)
Definition challengePool (cat : string) : option (list Template) :=
  if String.eqb cat "Food" then
    Some [mkTemplate "No Food Delivery Challenge"
            "Avoid ordering food delivery for 3 consecutive days" "pizza" "3 days";
          mkTemplate "Coffee at Home"
            "Make your own coffee instead of buying it for a week" "coffee" "7 days";
          mkTemplate "Meal Prep Sunday"
            "Prep all your lunches for the week on Sunday" "bento" "7 days"]
  else if String.eqb cat "Shopping" then
    Some [mkTemplate "No New Clothes"
            "Do not buy any new clothes for 2 weeks" "dress" "14 days";
          mkTemplate "24-Hour Rule"
            "Wait 24 hours before making any non-essential purchase" "hourglass" "7 days"]
  else if String.eqb cat "Transport" then
    Some [mkTemplate "Walk More"
            "Walk for short trips instead of taking a cab" "walking" "7 days";
          mkTemplate "Public Transport Week"
            "Use public transport instead of ride-hailing apps" "bus" "7 days"]
  else if String.eqb cat "Entertainment" then
    Some [mkTemplate "Free Fun Weekend"
            "Find free entertainment activities this weekend" "party" "2 days";
          mkTemplate "Entertainment Cap"
            "Keep entertainment spending under limit" "gamepad" "7 days"]
  else if String.eqb cat "General" then
    Some [mkTemplate "Zero Spend Day"
            "Go a full day without spending a single rupee" "prohibited" "1 day";
          mkTemplate "Savings Sprint"
            "Save 500 daily for 5 days" "moneybag" "5 days"]
  else if negb (JS.ownKey cat) then Some []
  else None.

(** [pool[Math.floor(r * pool.length)]] for a value [r] of [Math.random()]. *)
Definition pick (r : Q) (pool : list Template) : option Template :=
  JS.index pool (JS.floor (r * inject_Z (Z.of_nat (length pool)))).

(** The state of the loops of [getChallenges]: the challenges pushed so far,
    the number of calls of [Math.random()] made, and [idCounter]. *)
Definition Loop : Type := list Challenge * nat * Z.

(** The body of [topCategories.forEach]. *)
Definition pushCategoryChallenge (random : nat -> Q) (totals : list (string * Q))
    (st : Error + Loop) (cat : string) : Error + Loop :=
  match st with
  | inl e => inl e
  | inr (challenges, calls, idCounter) =>
      match challengePool cat with
      | None => inr (challenges, calls, idCounter)
      | Some catChallenges =>
          match pick (random calls) catChallenges with
          | None => inl (TypeError "Cannot read properties of undefined (reading 'title')")
          | Some challenge =>
              let monthlySpend := totalOf totals cat in
              let expectedSave := JS.round (monthlySpend * (15 # 100) / 4) in
              let expectedSave := if expectedSave <? 100 then 500 else expectedSave in
              inr (challenges
                     ++ [mkChallenge idCounter (tp_title challenge) (tp_desc challenge)
                           expectedSave (tp_duration challenge) "Medium"
                           (tp_icon challenge) "available"],
                   S calls, idCounter + 1)
          end
      end
  end.

(** A. Add Category-Specific Challenges *)
Definition categoryChallenges (random : nat -> Q) (totals : list (string * Q))
    (topCategories : list string) : Error + Loop :=
  fold_left (pushCategoryChallenge random totals) topCategories (inr ([], O, 1)).

(** B. Fill with General Challenges if not enough *)
Definition fillGeneral (random : nat -> Q) (st : Loop) : Error + Loop :=
  let '(challenges, calls, idCounter) := st in
  if (length challenges <? 2)%nat then
    match challengePool "General" with
    | None => inl (TypeError "Cannot read properties of undefined (reading 'length')")
    | Some generalPool =>
        match pick (random calls) generalPool with
        | None => inl (TypeError "Cannot read properties of undefined (reading 'title')")
        | Some genChallenge =>
            inr (challenges
                   ++ [mkChallenge idCounter (tp_title genChallenge) (tp_desc genChallenge)
                         500 (tp_duration genChallenge) "Easy"
                         (tp_icon genChallenge) "available"],
                 S calls, idCounter + 1)
        end
    end
  else inr st.

Section Handlers.
Variable tz : Z.

Definition getCurrentMonth (now : Z) : Month :=
  (JS.getFullYear tz now, JS.getMonth tz now + 1).

(** [getRemainingDays()], at the time [now]. *)
Definition getRemainingDays (now : Z) : Z :=
  let lastDay := JS.mkDate tz (JS.getFullYear tz now) (JS.getMonth tz now + 1) 0 0 0 0 0 in
  JS.getDate tz lastDay - JS.getDate tz now.

(** [const d = new Date(); d.setDate(d.getDate() - n)] *)
Definition daysAgo (now : Z) (n : Z) : Z :=
  JS.setDate tz now (JS.getDate tz now - n).

(** [Transaction.find({ user, type: "expense", date: { $gte: since } })] *)
Definition expensesSince (s : Store) (uid : nat) (since : Z) : list Transaction :=
  List.filter
    (fun t => Nat.eqb (t_user t) uid && String.eqb (t_type t) "expense"
              && (since <=? t_date t))
    (transactions s).

(** Steps 6 and 8 of [getForecast]; the other two forecast sites compute the
    same two values. *)
Definition predicted (budget : Budget) (dailyAverage : Q) (remainingDays : Z) : Q :=
  (spentSoFar budget + dailyAverage * inject_Z remainingDays)%Q.
Definition percentageOf (budget : Budget) (predictedExpenses : Q) : Q :=
  (predictedExpenses / monthlyBudget budget * 100)%Q.

(** GET /api/ai/forecast.  [None] is the empty data object. *)
Definition getForecast (now : Z) (s : Store) (user : User) : Result (option Forecast) :=
  if negb (prefers user pref_forecast) then
    Respond 200 None "AI Forecast disabled in settings"
  else
    match Budget_findOne s (u_id user) (getCurrentMonth now) with
    | None => Respond 200 None "Please set your monthly budget to enable forecasting"
    | Some budget =>
        let last30DaysExpenses := expensesSince s (u_id user) (daysAgo now 30) in
        if Nat.eqb (length last30DaysExpenses) 0 then
          Respond 200 None "Not enough data to generate forecast"
        else
          let totalExpenses := JS.sumOf t_amount last30DaysExpenses in
          let dailyAverage := JS.round (totalExpenses / 30) in
          let remainingDays := getRemainingDays now in
          let predictedExpenses := predicted budget (inject_Z dailyAverage) remainingDays in
          let difference := (predictedExpenses - monthlyBudget budget)%Q in
          let percentage := percentageOf budget predictedExpenses in
          let riskLevel :=
            if JS.ltb 100 percentage then "high"
            else if JS.ltb 60 percentage then "medium"
            else "low" in
          let message := generateAIMessage riskLevel percentage in
          Respond 200
            (Some (mkForecast (JS.round predictedExpenses) (monthlyBudget budget)
                     (spentSoFar budget) remainingDays dailyAverage
                     (JS.round difference) riskLevel message))
            "Forecast generated successfully"
    end.

(** The metrics of step 3 of [getPersonality], which [determinePersonality]
    computes again. *)
Definition percentages (transactions : list Transaction) : list (string * Z) :=
  let totalSpending := JS.sumOf t_amount transactions in
  JS.sort (fun a b => inject_Z (snd b) - inject_Z (snd a))%Q
    (List.map (fun e => (fst e, JS.round (snd e / totalSpending * 100)))
              (categoryTotals transactions)).

Definition txnsPerWeek (transactions : list Transaction) : Q :=
  (inject_Z (Z.of_nat (length transactions)) / 12)%Q.

Definition highValueCount (transactions : list Transaction) : nat :=
  length (List.filter (fun t => JS.ltb 2000 (t_amount t)) transactions).

Definition budgetUsagePercent (now : Z) (s : Store) (uid : nat) : Q :=
  match Budget_findOne s uid (getCurrentMonth now) with
  | Some currentBudget => (spentSoFar currentBudget / monthlyBudget currentBudget * 100)%Q
  | None => 100%Q
  end.

Definition foodOver30 (categories : list (string * Z)) : bool :=
  existsb (fun c => String.eqb (fst c) "Food" && (snd c >? 30)) categories.

(** GET /api/ai/personality.  The typographic apostrophes and dashes of the
    texts are written in ASCII. *)
Definition getPersonality (now : Z) (s : Store) (user : User) : Result (option Personality) :=
  if negb (prefers user pref_personality) then
    Respond 200 None "AI Personality detection disabled in settings"
  else
    let transactions := expensesSince s (u_id user) (daysAgo now 90) in
    if (length transactions <? 5)%nat then
      Respond 200 None "Not enough data to detect personality"
    else
      let uniqueCategories := unique (List.map t_category transactions) in
      let categories := percentages transactions in
      let topCategory := head categories in
      let answer type description reason advice :=
        Respond 200
          (Some (mkPersonality type description reason advice (firstn 3 categories)))
          "Personality detected successfully" in
      (* Priority 1: Impulsive Spender *)
      if (5 <? length uniqueCategories)%nat && JS.ltb 10 (txnsPerWeek transactions) then
        answer "Impulsive Spender"
          "You make quick purchase decisions and don't always think ahead."
          "High daily spending frequency and purchases across many different categories."
          "Consider a 24-hour spending rule before buying non-essential items."
      (* Priority 2: Foodie Spender *)
      else if foodOver30 categories then
        answer "Foodie Spender"
          "You love food experiences and spend a significant part of your budget on meals."
          "Food is consistently your top spending category (over 30%)."
          "Try meal planning or cooking at home twice a week to save money."
      (* Priority 3: Occasional Big Spender *)
      else if JS.ltb (txnsPerWeek transactions) 5
              && (2 <? highValueCount transactions)%nat then
        answer "Occasional Big Spender"
          "You don't spend often, but when you do - it's big."
          "Few transactions overall, but multiple large-value purchases (>2000)."
          "Plan for big purchases in advance to avoid budget pressure."
      else
        match topCategory with
        | None => Throw (TypeError "Cannot read properties of undefined (reading 'percentage')")
        | Some top =>
            (* Priority 4: Category Loyalist *)
            if snd top >? 60 then
              answer "Category Loyalist"
                "You tend to stick to one main spending area each month."
                (fst top ++ " dominates your spending, taking up "
                 ++ JS.showZ (snd top) ++ "% of your expenses.")%string
                "Review if this category aligns with your long-term goals."
            (* Priority 5: Saver *)
            else if JS.ltb (budgetUsagePercent now s (u_id user)) 50
                    && JS.ltb (txnsPerWeek transactions) 5 then
              answer "Saver"
                "You are disciplined and manage your money carefully."
                "Monthly expenses differ significantly from income/budget, with few transaction spikes."
                "Continue saving - consider investing or long-term planning."
            (* Balanced Spender is default *)
            else
              answer "Balanced Spender"
                "You maintain a healthy balance between needs and wants."
                "Spending is evenly split across categories with no extreme spikes."
                "Stay consistent - consider increasing savings goals."
        end.

(** [determinePersonality(userId)]; [None] is [null]. *)
Definition determinePersonality (now : Z) (s : Store) (uid : nat) : option string :=
  let transactions := expensesSince s uid (daysAgo now 90) in
  if (length transactions <? 5)%nat then None
  else
    let uniqueCategories := unique (List.map t_category transactions) in
    let categories := percentages transactions in
    let topCategory := head categories in
    if (5 <? length uniqueCategories)%nat && JS.ltb 10 (txnsPerWeek transactions) then
      Some "Impulsive Spender"
    else if foodOver30 categories then Some "Foodie Spender"
    else if JS.ltb (txnsPerWeek transactions) 5
            && (2 <? highValueCount transactions)%nat then
      Some "Occasional Big Spender"
    else if match topCategory with Some top => snd top >? 60 | None => false end then
      Some "Category Loyalist"
    else if JS.ltb (budgetUsagePercent now s uid) 50
            && JS.ltb (txnsPerWeek transactions) 5 then
      Some "Saver"
    else Some "Balanced Spender".

(** GET /api/ai/challenges; [random k] is what the call number [k] of
    [Math.random()] returns. *)
Definition getChallenges (random : nat -> Q) (now : Z) (s : Store) (uid : nat)
    : Result (list Challenge) :=
  let transactions := expensesSince s uid (daysAgo now 30) in
  let totals := categoryTotals transactions in
  let sortedExps := JS.sort (fun a b => snd b - snd a)%Q totals in
  let topCategories := List.map fst (firstn 3 sortedExps) in
  match categoryChallenges random totals topCategories with
  | inl e => Throw e
  | inr st =>
      match fillGeneral random st with
      | inl e => Throw e
      | inr (challenges, _, _) =>
          Respond 200 (firstn 3 challenges) "Challenges generated successfully"
      end
  end.
End Handlers.

End AIController.

(** ** The forecast risk of the consolidated alerts and of the dashboard *)

Module ForecastSites.
Import Model.

(** An entry of the list that [getAIInsights] sends. *)
Record Insight : Type := mkInsight {
  i_id : string;
  i_type : string;
  i_title : string;
  i_message : string;
  i_severity : string;
  i_timestamp : Z
}.

Section Handlers.
Variable tz : Z.

(** [getForecastRisk(userId, budget)] of the consolidated alerts. *)
Definition getForecastRisk (now : Z) (s : Store) (uid : nat) (budget : option Budget)
    : string :=
  match budget with
  | None => "low"
  | Some budget =>
      let expenses := AIController.expensesSince s uid (AIController.daysAgo tz now 30) in
      if Nat.eqb (length expenses) 0 then "low"
      else
        let total := JS.sumOf t_amount expenses in
        let dailyAvg := (total / 30)%Q in
        let remainingDays := AIController.getRemainingDays tz now in
        let predicted := AIController.predicted budget dailyAvg remainingDays in
        let pct := AIController.percentageOf budget predicted in
        if JS.ltb 100 pct then "high"
        else if JS.ltb 75 pct then "medium"
        else "low"
  end.

(** Section 1, FORECAST INSIGHT, of [getAIInsights] of the dashboard: the
    insights it pushes. *)
Definition forecastInsight (now : Z) (s : Store) (user : User) : list Insight :=
  match aiPreferences user with
  | None => []
  | Some prefs =>
      if pref_forecast prefs then
        match Budget_findOne s (u_id user) (AIController.getCurrentMonth tz now) with
        | None => []
        | Some budget =>
            if JS.ltb 0 (monthlyBudget budget) then
              let expenses :=
                AIController.expensesSince s (u_id user) (AIController.daysAgo tz now 30) in
              if (0 <? length expenses)%nat then
                let total := JS.sumOf t_amount expenses in
                let dailyAvg := (total / 30)%Q in
                let remainingDays := AIController.getRemainingDays tz now in
                let predicted := AIController.predicted budget dailyAvg remainingDays in
                let percentage := AIController.percentageOf budget predicted in
                let '(severity, message) :=
                  if JS.ltb 100 percentage then
                    ("high",
                     "Based on your current trend, you may exceed your monthly budget by "
                     ++ JS.showZ (JS.round (percentage - 100)) ++ "%.")%string
                  else if JS.ltb 75 percentage then
                    ("medium",
                     "You may reach your budget limit by the end of the month. Small reductions can help.")%string
                  else
                    ("low",
                     "You're on track! You will comfortably stay within your monthly budget.")%string in
                [mkInsight "1" "forecast" "AI Spending Forecast" message severity now]
              else []
            else []
        end
      else []
  end.
End Handlers.

End ForecastSites.

(** ** services/alertService.js *)

Module AlertService.
Import Model.

(** The [metadata] object that a generator hands to [Alert.create]. *)
Record MetadataFields : Type := mkMetadataFields {
  mf_budgetUsage : option Z;
  mf_month : option Month;
  mf_category : option string;
  mf_trendPercentage : option Z
}.

(** The cast of that object to the schema: the schema is strict, so a field
    it does not declare, here [month], is not stored. *)
Definition castMetadata (fields : MetadataFields) : AlertMetadata :=
  mkAlertMetadata (mf_budgetUsage fields) None None None
                  (mf_trendPercentage fields) (mf_category fields).

(** The field [metadata.month] of a stored alert: no stored alert has one. *)
Definition storedMonth (a : Alert) : option Month := None.

(** The condition ["metadata.month": month] of a filter, a path that the
    schema does not declare.  With the option [strictQuery] on, the condition
    is removed from the filter before the query runs; with it off, the
    condition is compared with the stored document. *)
Definition metadataMonthIs (strictQuery : bool) (month : Month) (a : Alert) : bool :=
  if strictQuery then true
  else bool_decide (storedMonth a = Some month).

(** [`${category}`] spending message of a trend alert. *)
Definition trendMessage (category : string) (increasePercent : Q) : string :=
  "Your " ++ category ++ " spending increased by "
  ++ JS.showZ (JS.round increasePercent) ++ "% this week.".

(** [$group: { _id: "$category", amount: { $sum: "$amount" } }] *)
Definition groupByCategory (l : list Transaction) : list (string * Q) :=
  AIController.categoryTotals l.

(** [lastWeekExpenses.forEach((cat) => { lastWeekMap[cat._id] = cat.amount })]
    on the object literal [{}]: the map holds the entries of the object's
    own.  An assignment of a number to the key "__proto__" stores nothing. *)
Definition toMap (l : list (string * Q)) : gmap string Q :=
  fold_left
    (fun m e => if String.eqb (fst e) "__proto__" then m else <[fst e := snd e]> m)
    l ∅.

(** A user id as a caller hands it over: the ObjectId of the user document
    ([req.user._id]) or its string ([req.user.id]).  The queries and the
    documents of the model layer cast either to the ObjectId. *)
Inductive UserRef : Type :=
| ObjectId (id : nat)
| IdString (id : nat).

Definition castUser (userId : UserRef) : nat :=
  match userId with
  | ObjectId id => id
  | IdString id => id
  end.

(** [user: userId] in a [$match] stage of [Transaction.aggregate]: a pipeline
    is sent as it is written, without a cast, and the ObjectId that a
    transaction stores is equal to no string. *)
Definition matchesUser (stored : nat) (userId : UserRef) : bool :=
  match userId with
  | ObjectId id => Nat.eqb stored id
  | IdString _ => false
  end.

Section Generators.
Variable tz : Z.
(** The option [strictQuery] of the query layer. *)
Variable strictQuery : bool.

Definition getCurrentMonth (now : Z) : Month :=
  (JS.getFullYear tz now, JS.getMonth tz now + 1).

(** [generateBudgetAlerts(userId)] *)
Definition generateBudgetAlerts (now : Z) (s : Store) (userId : nat) : Store :=
  let month := getCurrentMonth now in
  match Budget_findOne s userId month with
  | None => s
  | Some budget =>
      if JS.eqb (monthlyBudget budget) 0 then s
      else
        let usage := (spentSoFar budget / monthlyBudget budget * 100)%Q in
        (* Remove old budget alerts for this month *)
        let s1 :=
          Alert_deleteMany s
            (fun a => Nat.eqb (a_user a) userId && String.eqb (a_type a) "budget"
                      && metadataMonthIs strictQuery month a) in
        let create severity message :=
          Alert_create now s1 userId "budget" severity message
            (castMetadata (mkMetadataFields (Some (JS.round usage)) (Some month)
                                            None None)) in
        if JS.leb 100 usage then
          create "high"
            ("You have exceeded your monthly budget by "
             ++ JS.showZ (JS.round (usage - 100)) ++ "%.")%string
        else if JS.leb 90 usage then
          create "high"
            ("You have used " ++ JS.showZ (JS.round usage)
             ++ "% of your monthly budget.")%string
        else if JS.leb 75 usage then
          create "medium"
            ("You have used " ++ JS.showZ (JS.round usage)
             ++ "% of your monthly budget.")%string
        else if JS.leb 50 usage then
          create "low"
            ("You have used " ++ JS.showZ (JS.round usage)
             ++ "% of your monthly budget.")%string
        else s1
  end.

(** The two [$match] stages of [generateTrendAlerts].  An aggregation
    compares [userId] with the [user] field as it is given, without a cast;
    here [userId] is an id of the stored kind. *)
Definition matchThisWeek (now : Z) (s : Store) (userId : UserRef) : list Transaction :=
  let oneWeekAgo := now - 7 * 24 * 60 * 60 * 1000 in
  List.filter
    (fun t => matchesUser (t_user t) userId && String.eqb (t_type t) "expense"
              && (oneWeekAgo <=? t_date t) && (t_date t <=? now))
    (transactions s).

Definition matchLastWeek (now : Z) (s : Store) (userId : UserRef) : list Transaction :=
  let oneWeekAgo := now - 7 * 24 * 60 * 60 * 1000 in
  let twoWeeksAgo := now - 14 * 24 * 60 * 60 * 1000 in
  List.filter
    (fun t => matchesUser (t_user t) userId && String.eqb (t_type t) "expense"
              && (twoWeeksAgo <=? t_date t) && (t_date t <? oneWeekAgo))
    (transactions s).

(** The two aggregations of [generateTrendAlerts]. *)
Definition thisWeekExpenses (now : Z) (s : Store) (userId : UserRef)
    : list (string * Q) :=
  groupByCategory (matchThisWeek now s userId).

Definition lastWeekExpenses (now : Z) (s : Store) (userId : UserRef)
    : list (string * Q) :=
  groupByCategory (matchLastWeek now s userId).

(** [lastWeekMap[category] || 0].  The read finds the entry of the map, or,
    where the map has none under a name of [JS.inheritedKeys], the member
    inherited from [Object.prototype]: an object or a function, which is
    truthy and no number ([None]). *)
Definition lastWeekAmountOf (lastWeekMap : gmap string Q) (category : string)
    : option Q :=
  match lastWeekMap !! category with
  | Some v => Some (if JS.eqb v 0 then 0%Q else v)
  | None => if JS.ownKey category then Some 0%Q else None
  end.

(** The body of the loop over [thisWeekExpenses]. *)
Definition checkIncrease (now : Z) (userId : UserRef) (lastWeekMap : gmap string Q)
    (s : Store) (cat : string * Q) : Store :=
  let category := fst cat in
  let thisWeekAmount := snd cat in
  match lastWeekAmountOf lastWeekMap category with
  | None =>
      (* the increase over what is no number is NaN, and [NaN >= 20] is false *)
      s
  | Some lastWeekAmount =>
      if JS.eqb lastWeekAmount 0 then s
      else
        let increasePercent :=
          ((thisWeekAmount - lastWeekAmount) / lastWeekAmount * 100)%Q in
        if JS.leb 20 increasePercent then
          Alert_create now s (castUser userId) "trend"
            (if JS.leb 50 increasePercent then "high" else "medium")
            (trendMessage category increasePercent)
            (castMetadata (mkMetadataFields None None (Some category)
                                            (Some (JS.round increasePercent))))
        else s
  end.

(** [generateTrendAlerts(userId)] *)
Definition generateTrendAlerts (now : Z) (s : Store) (userId : UserRef) : Store :=
  let thisWeek := thisWeekExpenses now s userId in
  let lastWeek := lastWeekExpenses now s userId in
  (* Remove old trend alerts *)
  let s1 :=
    Alert_deleteMany s
      (fun a => Nat.eqb (a_user a) (castUser userId) && String.eqb (a_type a) "trend") in
  let lastWeekMap := toMap lastWeek in
  fold_left (checkIncrease now userId lastWeekMap) thisWeek s1.

(** The trend alerts of [triggerAlertGeneration], the only caller:
    [generateAllAlerts(req.user.id)] hands the string of the id to
    [generateTrendAlerts]. *)
Definition triggerTrendGeneration (now : Z) (s : Store) (reqUserId : nat) : Store :=
  generateTrendAlerts now s (IdString reqUserId).
End Generators.

(** The total of a category over a list of transactions. *)
Definition categoryTotal (category : string) (l : list Transaction) : Q :=
  JS.sumOf t_amount (List.filter (fun t => String.eqb (t_category t) category) l).

(** The stored alerts of type "budget" of a user. *)
Definition budgetAlertsOf (s : Store) (userId : nat) : list Alert :=
  List.filter (fun a => Nat.eqb (a_user a) userId && String.eqb (a_type a) "budget")
              (alerts s).

(** The current-month usage that [generateBudgetAlerts] computes. *)
Definition usageOf (budget : Budget) : Q :=
  (spentSoFar budget / monthlyBudget budget * 100)%Q.

End AlertService.

(** ** Sample data *)

Module Sample.
Import Model TransactionController.

(** Noon UTC of a day. *)
Definition noon (y m d : Z) : Z :=
  JS.days_from_civil y m d * JS.msPerDay + 12 * 60 * 60 * 1000.

(** One expense of 100 on 2024-03-10 by user 1. *)
Definition lunch : Transaction :=
  mkTransaction 1 1 "expense" "Food" 100 (noon 2024 3 10) None None.

(** The ledger holds [lunch] and the March budget of user 1 agrees with it. *)
Definition syncedStore : Store :=
  mkStore [lunch] {[ (1%nat, (2024, 3)) := mkBudget 1000 100 ]} [] 2.

(** The same ledger after an edit that tried to set the amount to -5. *)
Definition driftedStore : Store :=
  fst (updateTransaction 0 syncedStore 1 1 (amountOnly (-5 # 1))).

(** A server five hours east of UTC. *)
Definition plus5 : Z := 5 * 60 * 60 * 1000.

(** 2024-03-01 at 02:00 local time, five hours east of UTC: 21:00 UTC of
    2024-02-29. *)
Definition earlyMarch : Z :=
  JS.days_from_civil 2024 2 29 * JS.msPerDay + 21 * 60 * 60 * 1000.

(** One expense of 100 by user 1 at that time, and no budget yet. *)
Definition nightStore : Store :=
  mkStore [mkTransaction 1 1 "expense" "Food" 100 earlyMarch None None] ∅ [] 2.

(** User 1 with every AI preference on. *)
Definition alice : User := mkUser 1 (Some (mkAIPreferences true true true true true)).

(** 2024-03-21: ten days of March remain.  The March budget is 10000 with
    6000 spent, and the expenses of the last 30 days add up to 3000. *)
Definition forecastStore : Store :=
  mkStore [mkTransaction 1 1 "expense" "Food" 3000 (noon 2024 3 10) None None]
          {[ (1%nat, (2024, 3)) := mkBudget 10000 6000 ]} [] 2.

(** 126 expenses of user 1 in March 2024, spread evenly over six categories;
    those on Food are of 1000 each and make 40 percent of the total, the
    others are of 300 each. *)
Definition sixCategories : list string :=
  ["Food"; "Shopping"; "Transport"; "Entertainment"; "Bills"; "Health"]%string.

Definition busyLedger : list Transaction :=
  List.map
    (fun i =>
       let category := nth (i mod 6) sixCategories "Food"%string in
       mkTransaction i 1 "expense" category
         (if String.eqb category "Food" then 1000 else 300)
         (noon 2024 3 (1 + Z.of_nat (i mod 20))) None None)
    (seq 1 126).

Definition busyStore : Store := mkStore busyLedger ∅ [] 127.

(** The March budget of user 1 is 1000, with 600 spent; no alert is stored. *)
Definition usedStore : Store :=
  mkStore [] {[ (1%nat, (2024, 3)) := mkBudget 1000 600 ]} [] 1.

(** Food: 1000 in the week before last, 1500 in the last week.  Travel: 900
    in the last week and nothing before. *)
Definition trendStore : Store :=
  mkStore [mkTransaction 1 1 "expense" "Food" 1000 (noon 2024 3 10) None None;
           mkTransaction 2 1 "expense" "Food" 1500 (noon 2024 3 18) None None;
           mkTransaction 3 1 "expense" "Travel" 900 (noon 2024 3 19) None None]
          ∅ [] 4.

(** The same amounts in a category named "__proto__". *)
Definition protoStore : Store :=
  mkStore [mkTransaction 1 1 "expense" "__proto__" 1000 (noon 2024 3 10) None None;
           mkTransaction 2 1 "expense" "__proto__" 1500 (noon 2024 3 18) None None]
          ∅ [] 3.

(** One expense of user 1, in a category named "constructor". *)
Definition constructorStore : Store :=
  mkStore [mkTransaction 1 1 "expense" "constructor" 100 (noon 2024 3 10) None None]
          ∅ [] 2.

End Sample.

(** ** Dates and queries of the further handlers *)

Module JSDate.

(** [new Date(year, month, date, hours, minutes, seconds, ms)] for any
    [year]: a year from 0 to 99 stands for 1900 + year. *)
Definition newDate (tz year month date hours minutes seconds ms : Z) : Z :=
  let yr := if (0 <=? year) && (year <=? 99) then 1900 + year else year in
  JS.mkDate tz yr month date hours minutes seconds ms.

(** The local day (as a day number) that holds the time [t], at a fixed
    offset. *)
Definition localDay (tz t : Z) : Z := JS.localTime tz t / JS.msPerDay.

(** The time zone of the server.  [offsetAt t] is the offset of local time
    from UTC, in milliseconds, at the time value [t]; [offsetOfLocal w] is
    the offset with which the wall-clock time [w] (the milliseconds that the
    local clock shows, counted from the epoch) is read back as a time value.
    The two are one constant where the clocks are never changed. *)
Record Zone : Type := mkZone {
  offsetAt : Z -> Z;
  offsetOfLocal : Z -> Z
}.

Definition fixedZone (tz : Z) : Zone := mkZone (fun _ => tz) (fun _ => tz).

(** [LocalTime(t)] and the day number of it. *)
Definition wallClock (zone : Zone) (t : Z) : Z := t + offsetAt zone t.
Definition dayIn (zone : Zone) (t : Z) : Z := wallClock zone t / JS.msPerDay.

(** [d.setHours(0, 0, 0, 0)]: midnight, local time, of the local day of
    [t], read back as a time value. *)
Definition setHours0 (zone : Zone) (t : Z) : Z :=
  let midnight := dayIn zone t * JS.msPerDay in
  midnight - offsetOfLocal zone midnight.

(** By how much the clocks are set back between the midnight that begins
    the local day of [a] and the one that begins the local day of [b]: an
    hour (in milliseconds) when daylight saving ends in between, minus an
    hour when it begins, and 0 otherwise. *)
Definition setBack (zone : Zone) (a b : Z) : Z :=
  offsetOfLocal zone (dayIn zone a * JS.msPerDay)
  - offsetOfLocal zone (dayIn zone b * JS.msPerDay).

(** The clocks show one offset at [a], at [b] and at the midnights that
    begin their local days. *)
Definition steady (zone : Zone) (a b : Z) : Prop :=
  offsetAt zone b = offsetAt zone a
  /\ offsetOfLocal zone (dayIn zone a * JS.msPerDay) = offsetAt zone a
  /\ offsetOfLocal zone (dayIn zone b * JS.msPerDay) = offsetAt zone a.

(** [Math.ceil(diffTime / (1000 * 60 * 60 * 24))] *)
Definition ceilDays (diffTime : Z) : Z :=
  JS.ceil (inject_Z diffTime / inject_Z (1000 * 60 * 60 * 24)).

End JSDate.

Module Query.

(** What the database driver answers to a query it cannot run. *)
Inductive DriverError : Type :=
| BadValue (message : string).

(** [.skip(skip).limit(limit)] on the documents a query matches: a negative
    [skip] is refused, a [limit] of 0 is no limit, and a negative [limit]
    counts as its absolute value. *)
Definition skipLimit {A : Type} (skip limit : Z) (l : list A) : DriverError + list A :=
  if skip <? 0 then inl (BadValue "Skip value must be non-negative")
  else
    let rest := List.skipn (Z.to_nat skip) l in
    inr (if limit =? 0 then rest else List.firstn (Z.to_nat (Z.abs limit)) rest).

(** [Math.ceil(total / limitNum)]; [None] is a value that is not a finite
    number, the result of a division by zero. *)
Definition totalPages (total : nat) (limitNum : Z) : option Z :=
  if limitNum =? 0 then None
  else Some (JS.ceil (inject_Z (Z.of_nat total) / inject_Z limitNum)).

(** [if (param) query.field = ...]: a condition that the filter holds only
    when the parameter was sent and is not empty. *)
Definition whenGiven (param : option string) (test : string -> bool) : bool :=
  match param with
  | Some v => if String.eqb v "" then true else test v
  | None => true
  end.

(** [const { page = 1, limit = 10 } = req.query], read by [Number(...)]. *)
Definition orDefault (v : option Z) (d : Z) : Z :=
  match v with Some x => x | None => d end.

End Query.

(** ** controllers/transactionController.js: the two listings *)

Module TransactionQueries.
Import Model.

(** The query parameters of [getTransactions]; a date is the time value that
    [new Date(...)] reads from the parameter. *)
Record ListQuery : Type := mkListQuery {
  q_page : option Z;
  q_limit : option Z;
  q_search : option string;
  q_type : option string;
  q_category : option string;
  q_startDate : option Z;
  q_endDate : option Z
}.

Record Pagination : Type := mkPagination {
  pg_page : Z;
  pg_limit : Z;
  pg_totalPages : option Z;
  pg_total : nat
}.

(** What [getMonthlyTransactions] sends. *)
Record MonthlySummary : Type := mkMonthlySummary {
  ms_transactions : list Transaction;
  totalIncome : Q;
  totalExpenses : Q;
  categoryBreakdown : list (string * Q)
}.

(** [if (!categoryBreakdown[cat]) categoryBreakdown[cat] = 0;
     categoryBreakdown[cat] += amount], the keys kept in the order in which
    they were first written.  This is the assignment for a category with
    [JS.ownKey]; under an inherited name the read finds a member of
    [Object.prototype] and the sum is no number. *)
Fixpoint addBreakdown (cat : string) (amount : Q) (breakdown : list (string * Q))
    : list (string * Q) :=
  match breakdown with
  | [] => [(cat, (0 + amount)%Q)]
  | (c, v) :: rest =>
      if String.eqb c cat then (c, ((if JS.eqb v 0 then 0 else v) + amount)%Q) :: rest
      else (c, v) :: addBreakdown cat amount rest
  end.

(** The body of [transactions.forEach] in [getMonthlyTransactions], on
    [(totalIncome, totalExpenses, categoryBreakdown)]. *)
Definition tally (acc : Q * Q * list (string * Q)) (txn : Transaction)
    : Q * Q * list (string * Q) :=
  let '(income, expenses, breakdown) := acc in
  if String.eqb (t_type txn) "income" then
    ((income + t_amount txn)%Q, expenses, breakdown)
  else
    (income, (expenses + t_amount txn)%Q,
     addBreakdown (t_category txn) (t_amount txn) breakdown).

(** [.sort({ date: -1 })]: latest first.  The database leaves the order of
    documents of the same date open, from one query to the next; here they
    are left in the order of the collection. *)
Definition latestFirst (l : list Transaction) : list Transaction :=
  JS.sort (fun a b => inject_Z (t_date b - t_date a)) l.

Section Handlers.
Variable tz : Z.
(** [{ $regex: search, $options: "i" }] on a string: whether the pattern
    [search] matches it. *)
Variable regexTest : string -> string -> bool.

(** The filter that [getTransactions] builds from the query parameters. *)
Definition matchesQuery (uid : nat) (q : ListQuery) (t : Transaction) : bool :=
  Nat.eqb (t_user t) uid
  && Query.whenGiven (q_type q) (fun type => String.eqb (t_type t) type)
  && Query.whenGiven (q_category q) (fun category => String.eqb (t_category t) category)
  && match q_startDate q with Some d => d <=? t_date t | None => true end
  && match q_endDate q with Some d => t_date t <=? d | None => true end
  && Query.whenGiven (q_search q)
       (fun search =>
          match t_note t with Some note => regexTest search note | None => false end
          || regexTest search (t_category t)).

(** GET /api/transactions *)
Definition getTransactions (s : Store) (uid : nat) (q : ListQuery)
    : Query.DriverError + Result (list Transaction * Pagination) :=
  let pageNum := Query.orDefault (q_page q) 1 in
  let limitNum := Query.orDefault (q_limit q) 10 in
  let skip := (pageNum - 1) * limitNum in
  let found := List.filter (matchesQuery uid q) (transactions s) in
  match Query.skipLimit skip limitNum (latestFirst found) with
  | inl e => inl e
  | inr transactions =>
      let total := length found in
      inr (Respond 200
             (transactions,
              mkPagination pageNum limitNum (Query.totalPages total limitNum) total)
             "Transactions fetched successfully")
  end.

(** The date window of [getMonthlyTransactions]. *)
Definition monthWindow (year month : Z) (t : Transaction) : bool :=
  let startDate := JSDate.newDate tz year (month - 1) 1 0 0 0 0 in
  let endDate := JSDate.newDate tz year month 0 23 59 59 999 in
  (startDate <=? t_date t) && (t_date t <=? endDate).

(** GET /api/transactions/month/:year-:month, for numeric [year] and
    [month]. *)
Definition getMonthlyTransactions (s : Store) (uid : nat) (year month : Z)
    : Result MonthlySummary :=
  let transactions :=
    latestFirst
      (List.filter (fun t => Nat.eqb (t_user t) uid && monthWindow year month t)
                   (transactions s)) in
  let '(totalIncome, totalExpenses, categoryBreakdown) :=
    fold_left tally transactions (0%Q, 0%Q, []) in
  Respond 200 (mkMonthlySummary transactions totalIncome totalExpenses categoryBreakdown)
          "Monthly transactions fetched successfully".
End Handlers.

(** The transactions of page [page] of a listing. *)
Definition pageOf (regexTest : string -> string -> bool) (s : Store) (uid : nat)
    (q : ListQuery) (page : Z) : list Transaction :=
  match getTransactions regexTest s uid
          (mkListQuery (Some page) (q_limit q) (q_search q) (q_type q) (q_category q)
                       (q_startDate q) (q_endDate q)) with
  | inr (Respond _ (transactions, _) _) => transactions
  | _ => []
  end.

End TransactionQueries.

(** ** controllers/budgetController.js: the two read handlers *)

Module BudgetQueries.
Import Model BudgetController.

(** What [getBudgetStatus] sends. *)
Record BudgetStatus : Type := mkBudgetStatus {
  bs_alert : string;
  bs_statusColor : string;
  bs_budget : BudgetData
}.

Section Handlers.
Variable tz : Z.

(** GET /api/budget *)
Definition getCurrentBudget (now : Z) (s : Store) (uid : nat) : Result BudgetData :=
  let month := getCurrentMonth tz now in
  match Budget_findOne s uid month with
  | None => Throw (ApiError 404 "No budget set for this month")
  | Some budget =>
      Respond 200 (calculateBudgetFields month budget) "Budget fetched successfully"
  end.

(** GET /api/budget/status *)
Definition getBudgetStatus (now : Z) (s : Store) (uid : nat) : Result BudgetStatus :=
  let month := getCurrentMonth tz now in
  match Budget_findOne s uid month with
  | None => Throw (ApiError 404 "No budget set for this month")
  | Some budget =>
      let budgetData := calculateBudgetFields month budget in
      let percentageUsed := bd_percentageUsed budgetData in
      let statusColor := bd_statusColor budgetData in
      let alert :=
        if 100 <=? percentageUsed then
          "Alert: You have exceeded your budget this month."
        else if 95 <=? percentageUsed then
          "Alert: You have used 95%+ of your budget."
        else if 80 <=? percentageUsed then
          "Warning: You have used 80%+ of your budget."
        else if 50 <=? percentageUsed then
          ("You have used " ++ JS.showZ percentageUsed
           ++ "% of your budget. Keep going!")%string
        else
          ("You have used " ++ JS.showZ percentageUsed
           ++ "% of your budget. Great job!")%string in
      Respond 200 (mkBudgetStatus alert statusColor budgetData)
              "Budget status fetched successfully"
  end.
End Handlers.

End BudgetQueries.

(** ** models/Bill.js and controllers/billController.js *)

Module Bills.
Import Model.

(** models/Bill.js; the timestamps of the schema are left out. *)
Record Bill : Type := mkBill {
  bl_id : nat;
  bl_user : nat;
  bl_name : string;
  bl_amount : Q;
  bl_dueDate : Z;
  bl_status : string
}.

Definition statusEnum : list string := ["pending"; "paid"]%string.

(** The validators of the bill schema, in the order of its paths. *)
Definition validateBill (b : Bill) : option Error :=
  if String.eqb (bl_name b) "" then
    Some (ValidationError "billName" "Please add a bill name")
  else if negb (JS.ltb 0 (bl_amount b)) then
    Some (ValidationError "amount" "Amount must be greater than 0")
  else if negb (inEnum (bl_status b) statusEnum) then
    Some (ValidationError "status" "not a valid enum value")
  else None.

(** The Bill collection. [nextBillId] is the next fresh id. *)
Record BillStore : Type := mkBillStore {
  bills : list Bill;
  nextBillId : nat
}.

(** [Bill.findById(id)] *)
Definition Bill_findById (s : BillStore) (id : nat) : option Bill :=
  List.find (fun b => Nat.eqb (bl_id b) id) (bills s).

(** [Bill.create(fields)] *)
Definition Bill_create (s : BillStore) (user : nat) (name : string) (amount : Q)
    (dueDate : Z) (status : string) : Error + BillStore * Bill :=
  let doc := mkBill (nextBillId s) user name amount dueDate status in
  match validateBill doc with
  | Some e => inl e
  | None => inr (mkBillStore (bills s ++ [doc]) (S (nextBillId s)), doc)
  end.

(** [bill.save()] *)
Definition Bill_save (s : BillStore) (doc : Bill) : Error + BillStore :=
  match validateBill doc with
  | Some e => inl e
  | None =>
      inr (mkBillStore
             (List.map (fun b => if Nat.eqb (bl_id b) (bl_id doc) then doc else b)
                       (bills s))
             (nextBillId s))
  end.

(** [bill.deleteOne()] *)
Definition Bill_deleteOne (s : BillStore) (doc : Bill) : BillStore :=
  mkBillStore (List.filter (fun b => negb (Nat.eqb (bl_id b) (bl_id doc))) (bills s))
              (nextBillId s).

(** The fields of [req.body] of [createBill]. *)
Record BillBody : Type := mkBillBody {
  bb_billName : option string;
  bb_amount : option Q;
  bb_dueDate : option Z;
  bb_status : option string
}.

(** What [calculateBillFields] returns. *)
Record BillData : Type := mkBillData {
  bf_id : nat;
  bf_billName : string;
  bf_amount : Q;
  bf_dueDate : Z;
  bf_status : string;
  daysLeft : Z;
  isOverdue : bool;
  alertLevel : string
}.

(** The comparison of the two sorts: overdue first, then nearest. *)
Definition overdueFirst (a b : BillData) : Q :=
  if isOverdue a && negb (isOverdue b) then (-1)%Q
  else if negb (isOverdue a) && isOverdue b then 1%Q
  else inject_Z (daysLeft a - daysLeft b).

(** The query parameters of [getAllBills]. *)
Record BillQuery : Type := mkBillQuery {
  bq_page : option Z;
  bq_limit : option Z;
  bq_search : option string;
  bq_status : option string;
  bq_startDate : option Z;
  bq_endDate : option Z
}.

Record BillPagination : Type := mkBillPagination {
  bp_page : Z;
  bp_limit : Z;
  bp_totalPages : option Z;
  bp_totalBills : nat
}.

Section Handlers.
Variable zone : JSDate.Zone.
(** The time at which the handler runs. *)
Variable now : Z.
Variable regexTest : string -> string -> bool.

(** [calculateBillFields(bill)] *)
Definition calculateBillFields (bill : Bill) : BillData :=
  let today := JSDate.setHours0 zone now in
  let dueDate := JSDate.setHours0 zone (bl_dueDate bill) in
  let diffTime := dueDate - today in
  let daysLeft := JSDate.ceilDays diffTime in
  let isOverdue := daysLeft <? 0 in
  let alertLevel :=
    if isOverdue then "overdue"
    else if daysLeft <=? 2 then "danger"
    else if daysLeft <=? 5 then "warning"
    else "none" in
  mkBillData (bl_id bill) (bl_name bill) (bl_amount bill) (bl_dueDate bill)
             (bl_status bill) daysLeft isOverdue alertLevel.

(** POST /api/bills *)
Definition createBill (s : BillStore) (uid : nat) (body : BillBody)
    : BillStore * Result BillData :=
  if negb (JS.truthyStr (bb_billName body)) || negb (JS.truthyNum (bb_amount body))
     || negb (bool_decide (is_Some (bb_dueDate body)))
  then (s, Throw (ApiError 400 "Bill name, amount, and due date are required"))
  else
    match bb_billName body, bb_amount body, bb_dueDate body with
    | Some billName, Some amount, Some dueDate =>
        if JS.leb amount 0 then
          (s, Throw (ApiError 400 "Amount must be greater than 0"))
        else
          match Bill_create s uid billName amount dueDate
                            (TransactionController.orStr (bb_status body) "pending") with
          | inl e => (s, Throw e)
          | inr (s1, bill) =>
              (s1, Respond 201 (calculateBillFields bill) "Bill added successfully")
          end
    | _, _, _ =>
        (s, Throw (ApiError 400 "Bill name, amount, and due date are required"))
    end.

(** The filter that [getAllBills] builds from the query parameters. *)
Definition matchesBillQuery (uid : nat) (q : BillQuery) (b : Bill) : bool :=
  Nat.eqb (bl_user b) uid
  && Query.whenGiven (bq_status q) (fun status => String.eqb (bl_status b) status)
  && match bq_startDate q with Some d => d <=? bl_dueDate b | None => true end
  && match bq_endDate q with Some d => bl_dueDate b <=? d | None => true end
  && Query.whenGiven (bq_search q) (fun search => regexTest search (bl_name b)).

(** GET /api/bills *)
Definition getAllBills (s : BillStore) (uid : nat) (q : BillQuery)
    : Query.DriverError + Result (list BillData * BillPagination) :=
  let pageNum := Query.orDefault (bq_page q) 1 in
  let limitNum := Query.orDefault (bq_limit q) 10 in
  let skip := (pageNum - 1) * limitNum in
  let found := List.filter (matchesBillQuery uid q) (bills s) in
  match Query.skipLimit skip limitNum found with
  | inl e => inl e
  | inr bills =>
      let billsWithFields := JS.sort overdueFirst (List.map calculateBillFields bills) in
      let total := length found in
      inr (Respond 200
             (billsWithFields,
              mkBillPagination pageNum limitNum (Query.totalPages total limitNum) total)
             "Bills fetched successfully")
  end.

(** GET /api/bills/upcoming *)
Definition getUpcomingBills (s : BillStore) (uid : nat) : Result (list BillData) :=
  let bills :=
    List.filter (fun b => Nat.eqb (bl_user b) uid && String.eqb (bl_status b) "pending")
                (bills s) in
  let billsWithFields := List.map calculateBillFields bills in
  let upcomingBills :=
    List.filter (fun bill => (daysLeft bill <=? 7) || isOverdue bill) billsWithFields in
  Respond 200 (JS.sort overdueFirst upcomingBills) "Upcoming bills fetched successfully".

(** PUT /api/bills/:id/paid *)
Definition markBillAsPaid (s : BillStore) (uid : nat) (id : nat)
    : BillStore * Result BillData :=
  match Bill_findById s id with
  | None => (s, Throw (ApiError 404 "Bill not found"))
  | Some bill =>
      if negb (Nat.eqb (bl_user bill) uid) then
        (s, Throw (ApiError 401 "Not authorized to update this bill"))
      else
        let bill' := mkBill (bl_id bill) (bl_user bill) (bl_name bill) (bl_amount bill)
                            (bl_dueDate bill) "paid" in
        match Bill_save s bill' with
        | inl e => (s, Throw e)
        | inr s1 => (s1, Respond 200 (calculateBillFields bill') "Bill marked as paid")
        end
  end.

(** DELETE /api/bills/:id *)
Definition deleteBill (s : BillStore) (uid : nat) (id : nat) : BillStore * Result unit :=
  match Bill_findById s id with
  | None => (s, Throw (ApiError 404 "Bill not found"))
  | Some bill =>
      if negb (Nat.eqb (bl_user bill) uid) then
        (s, Throw (ApiError 401 "Not authorized to delete this bill"))
      else (Bill_deleteOne s bill, Respond 200 tt "Bill deleted successfully")
  end.
End Handlers.

(** The ids that an answer of [getUpcomingBills] lists. *)
Definition listedIds (r : Result (list BillData)) : list nat :=
  match r with
  | Respond _ data _ => List.map bf_id data
  | Throw _ => []
  end.

(** The bills that an answer lists. *)
Definition listed (r : Result (list BillData)) : list BillData :=
  match r with
  | Respond _ data _ => data
  | Throw _ => []
  end.

(** What [calculateBillFields] guarantees of its result. *)
Definition fromBill (d : BillData) : Prop := isOverdue d = (daysLeft d <? 0).

End Bills.

(** ** services/alertService.js: bill alerts and the cleanup *)

Module BillAlerts.
Import Model Bills.

Section Generators.
(** [date.toLocaleDateString()], which depends on the locale of the server. *)
Variable toLocaleDateString : Z -> string.

(** The body of the loop of [generateBillAlerts]. *)
Definition billAlert (now : Z) (userId : nat) (s : Store) (bill : Bill) : Store :=
  let dueDate := bl_dueDate bill in
  let diffTime := dueDate - now in
  let diffDays := JSDate.ceilDays diffTime in
  let create severity message :=
    Alert_create now s userId "bill" severity message
      (mkAlertMetadata None (Some (bl_id bill)) (Some (bl_name bill))
                       (Some (bl_dueDate bill)) None None) in
  if diffDays <? 0 then
    create "high"
      ("Overdue: " ++ bl_name bill ++ " was due on " ++ toLocaleDateString dueDate ++ ".")%string
  else if diffDays =? 0 then
    create "high" (bl_name bill ++ " is due today.")%string
  else if diffDays =? 1 then
    create "medium" (bl_name bill ++ " is due tomorrow.")%string
  else if diffDays <=? 3 then
    create "medium"
      (bl_name bill ++ " is due in " ++ JS.showZ diffDays ++ " days.")%string
  else if diffDays <=? 7 then
    create "low"
      (bl_name bill ++ " is due in " ++ JS.showZ diffDays ++ " days.")%string
  else s.

(** [Bill.find({ user: userId, status: { $ne: "paid" } })] *)
Definition unpaidBills (bs : BillStore) (userId : nat) : list Bill :=
  List.filter (fun b => Nat.eqb (bl_user b) userId && negb (String.eqb (bl_status b) "paid"))
              (bills bs).

(** [generateBillAlerts(userId)] *)
Definition generateBillAlerts (now : Z) (bs : BillStore) (s : Store) (userId : nat) : Store :=
  let bills := unpaidBills bs userId in
  (* Remove old bill alerts *)
  let s1 :=
    Alert_deleteMany s
      (fun a => Nat.eqb (a_user a) userId && String.eqb (a_type a) "bill") in
  fold_left (billAlert now userId) bills s1.
End Generators.

(** [cleanupOldAlerts(userId)] *)
Definition cleanupOldAlerts (now : Z) (s : Store) (userId : nat) : Store :=
  let thirtyDaysAgo := now - 30 * 24 * 60 * 60 * 1000 in
  Alert_deleteMany s
    (fun a => Nat.eqb (a_user a) userId && (a_createdAt a <? thirtyDaysAgo)).

(** The stored alerts of type "bill" of a user. *)
Definition billAlertsOf (s : Store) (userId : nat) : list Alert :=
  List.filter (fun a => Nat.eqb (a_user a) userId && String.eqb (a_type a) "bill")
              (alerts s).

(** The bill is due within the week, or overdue, as [generateBillAlerts]
    counts the days. *)
Definition dueWithinWeek (now : Z) (bill : Bill) : bool :=
  JSDate.ceilDays (bl_dueDate bill - now) <=? 7.

(** The alerts that the loop of [generateBillAlerts] creates for a list of
    bills: what it leaves in a collection that was empty. *)
Definition freshBillAlerts (toLocaleDateString : Z -> string) (now : Z) (userId : nat)
    (bills : list Bill) : list Alert :=
  alerts (fold_left (billAlert toLocaleDateString now userId) bills
                    (mkStore [] ∅ [] O)).

End BillAlerts.

(** ** controllers/alertController.js *)

Module AlertController.
Import Model.

(** [Alert.updateMany({ user, isRead: false }, { isRead: true })]: the new
    collection and [modifiedCount]. *)
Definition markRead (userId : nat) (a : Alert) : Alert :=
  if Nat.eqb (a_user a) userId && negb (a_isRead a) then
    mkAlert (a_user a) (a_type a) (a_severity a) (a_message a) (a_metadata a)
            true (a_createdAt a) (a_expiresAt a)
  else a.

(** PATCH /api/alerts/read-all; the data is [modifiedCount]. *)
Definition markAllAlertsAsRead (s : Store) (userId : nat) : Store * Result nat :=
  let modifiedCount :=
    length (List.filter (fun a => Nat.eqb (a_user a) userId && negb (a_isRead a))
                        (alerts s)) in
  (setAlerts s (List.map (markRead userId) (alerts s)),
   Respond 200 modifiedCount "All alerts marked as read").

(** The unread stored alerts of a user. *)
Definition unreadOf (s : Store) (userId : nat) : list Alert :=
  List.filter (fun a => Nat.eqb (a_user a) userId && negb (a_isRead a)) (alerts s).

(** The stored alerts of the other users. *)
Definition alertsOfOthers (s : Store) (userId : nat) : list Alert :=
  List.filter (fun a => negb (Nat.eqb (a_user a) userId)) (alerts s).

End AlertController.

(** ** The consolidated alerts *)

Module ConsolidatedAlerts.
Import Model Bills.

(** An entry of the list that the consolidated [getAlerts] sends. *)
Record Entry : Type := mkEntry {
  e_id : string;
  e_type : string;
  e_message : string;
  e_date : Z;
  e_isRead : bool
}.

(** [const priority = { danger: 3, warning: 2, info: 1 }]; [None] is
    [undefined]. *)
Definition priority (type : string) : option Z :=
  if String.eqb type "danger" then Some 3
  else if String.eqb type "warning" then Some 2
  else if String.eqb type "info" then Some 1
  else None.

(** [priority[b.type] - priority[a.type] > 0]; the difference is not a
    number, and the test fails, when one of the two is [undefined]. *)
Definition byPriority (a b : Entry) : Q :=
  match priority (e_type b), priority (e_type a) with
  | Some pb, Some pa => inject_Z (pb - pa)
  | _, _ => 0%Q
  end.

(** The list of alerts and [idCounter]. *)
Definition Feed : Type := list Entry * Z.

Definition push (feed : Feed) (type message : string) (date : Z) : Feed :=
  let '(alerts, idCounter) := feed in
  (alerts ++ [mkEntry (JS.showZ idCounter) type message date false], idCounter + 1).

Section Handlers.
Variable tz : Z.
Variable toLocaleDateString : Z -> string.

(** 1. Budget Alerts *)
Definition budgetEntries (now : Z) (budget : option Budget) (feed : Feed) : Feed :=
  match budget with
  | Some budget =>
      let usage := (spentSoFar budget / monthlyBudget budget * 100)%Q in
      if JS.ltb 100 usage then
        push feed "danger"
          ("You have exceeded your monthly budget by "
           ++ JS.showZ (JS.round (usage - 100)) ++ "%.")%string now
      else if JS.ltb 80 usage then
        push feed "warning"
          ("You have exceeded " ++ JS.showZ (JS.round usage)
           ++ "% of your monthly budget.")%string now
      else feed
  | None =>
      push feed "info" "You haven't set a budget for this month yet." now
  end.

(** 2. Bill Alerts: the body of [upcomingBills.forEach]. *)
Definition billEntry (now : Z) (feed : Feed) (bill : Bill) : Feed :=
  let dueDate := bl_dueDate bill in
  let diffTime := dueDate - now in
  let diffDays := JSDate.ceilDays diffTime in
  if diffDays <? 0 then
    push feed "danger"
      ("Overdue: " ++ bl_name bill ++ " was due on " ++ toLocaleDateString dueDate ++ ".")%string
      dueDate
  else if diffDays <=? 3 then
    push feed "warning"
      (bl_name bill ++ " is due "
       ++ (if (diffDays =? 0)%Z then "today" else "in " ++ JS.showZ diffDays ++ " days")
       ++ ".")%string
      now
  else feed.

(** [Bill.find({ user: userId, status: "pending" })] *)
Definition pendingBills (bs : BillStore) (userId : nat) : list Bill :=
  List.filter (fun b => Nat.eqb (bl_user b) userId && String.eqb (bl_status b) "pending")
              (bills bs).

(** 3. AI Forecast Alerts *)
Definition forecastEntries (now : Z) (s : Store) (user : User) (budget : option Budget)
    (feed : Feed) : Feed :=
  if AIController.prefers user pref_forecast && bool_decide (is_Some budget) then
    let risk := ForecastSites.getForecastRisk tz now s (u_id user) budget in
    if String.eqb risk "high" then
      push feed "danger"
        "AI Forecast: High risk of overspending this month based on current habits." now
    else feed
  else feed.

(** GET /api/alerts, the consolidated alerts of [user]. *)
Definition getAlerts (now : Z) (s : Store) (bs : BillStore) (user : User)
    : Result (list Entry) :=
  let userId := u_id user in
  let currentMonth := AIController.getCurrentMonth tz now in
  let budget := Budget_findOne s userId currentMonth in
  let feed := budgetEntries now budget ([], 1) in
  let feed := fold_left (billEntry now) (pendingBills bs userId) feed in
  let feed := forecastEntries now s user budget feed in
  Respond 200 (JS.sort byPriority (fst feed)) "Alerts retrieved successfully".
End Handlers.

(** The rank of an entry in the answer: 0 for danger, 1 for warning, 2 for
    info. *)
Definition rank (e : Entry) : Z :=
  match priority (e_type e) with
  | Some p => 3 - p
  | None => 3
  end.

(** The type of the entry is one of the three that have a priority. *)
Definition known (e : Entry) : Prop := is_Some (priority (e_type e)).

(** The entries of an answer. *)
Definition entries (r : Result (list Entry)) : list Entry :=
  match r with
  | Respond _ data _ => data
  | Throw _ => []
  end.

End ConsolidatedAlerts.

(** ** controllers/aiController.js: the smart suggestions *)

Module Suggestions.
Import Model Bills.

Record Suggestion : Type := mkSuggestion {
  sg_title : string;
  sg_description : string;
  sg_reason : string
}.

(** [user.settings?.aiPreferences?.suggestions === false] *)
Definition suggestionsOff (user : User) : bool :=
  match aiPreferences user with
  | Some prefs => negb (pref_suggestions prefs)
  | None => false
  end.

(** Rule 1: Category Analysis *)
Definition categorySuggestions (transactions : list Transaction) : list Suggestion :=
  let totalSpending := JS.sumOf t_amount transactions in
  let categoryTotals := AIController.categoryTotals transactions in
  List.map
    (fun e =>
       let cat := fst e in
       let pct := (snd e / totalSpending * 100)%Q in
       mkSuggestion ("Reduce " ++ cat ++ " Spending")%string
         (cat ++ " category makes up " ++ JS.showZ (JS.round pct)
          ++ "% of your monthly spending. Try reducing expenses here.")%string
         ("High " ++ cat ++ " category spending")%string)
    (List.filter (fun e => JS.ltb 25 (snd e / totalSpending * 100)%Q) categoryTotals).

(** Rule 2: Budget Health *)
Definition budgetSuggestions (budget : option Budget) : list Suggestion :=
  match budget with
  | Some budget =>
      let usage := (spentSoFar budget / monthlyBudget budget * 100)%Q in
      if JS.ltb 100 usage then
        [mkSuggestion "Spending Freeze Recommended"
           "You have exceeded your monthly budget. Consider a 3-day spending freeze."
           "Budget exceeded"]
      else if JS.ltb 80 usage then
        [mkSuggestion "Budget Alert"
           ("You've used " ++ JS.showZ (JS.round usage)
            ++ "% of your monthly budget. Reduce daily spending to avoid overshooting.")%string
           "High budget usage"]
      else []
  | None => []
  end.

(** Rule 3: Personality Tips *)
Definition personalitySuggestions (personality : option string) : list Suggestion :=
  match personality with
  | Some personality =>
      if String.eqb personality "Impulsive Spender" then
        [mkSuggestion "Control Impulse Purchases"
           "Limit yourself to one non-essential purchase per week."
           "Impulsive spending pattern detected"]
      else if String.eqb personality "Foodie Spender" then
        [mkSuggestion "Cook More, Order Less"
           "Cook at home twice a week to reduce food expenses."
           "Foodie spending pattern detected"]
      else if String.eqb personality "Occasional Big Spender" then
        [mkSuggestion "Plan Big Purchases"
           "Plan big purchases 14 days ahead to avoid budget stress."
           "Large purchase pattern detected"]
      else if String.eqb personality "Saver" then
        [mkSuggestion "Invest Your Savings"
           "Excellent discipline. Consider investing your leftover savings."
           "Saver personality detected"]
      else []
  | None => []
  end.

(** Rule 4: High frequency *)
Definition frequencySuggestions (transactions : list Transaction) : list Suggestion :=
  let txnsPerDay := (inject_Z (Z.of_nat (length transactions)) / 30)%Q in
  if JS.ltb 4 txnsPerDay then
    [mkSuggestion "High Daily Spending"
       "Your daily spending frequency is high. Set categories to Essentials vs Non-Essentials."
       "High frequency spending"]
  else [].

Section Handlers.
Variable tz : Z.
(** A number inside a template literal. *)
Variable showNumber : Q -> string.

(** Rule 5: High Value *)
Definition highValueSuggestions (transactions : list Transaction) : list Suggestion :=
  let highValueTxns := List.filter (fun t => JS.ltb 3000 (t_amount t)) transactions in
  if (1 <? length highValueTxns)%nat then
    let totalHigh := JS.sumOf t_amount highValueTxns in
    [mkSuggestion "Large Purchase Alert"
       ("Your large purchases this month total " ++ showNumber totalHigh
        ++ ". Try spacing them out.")%string
       "Multiple high-value purchases"]
  else [].

(** The query for the bills of the next 7 days. *)
Definition upcomingBills (now : Z) (bs : BillStore) (userId : nat) : list Bill :=
  List.filter
    (fun b => Nat.eqb (bl_user b) userId && String.eqb (bl_status b) "pending"
              && (now <=? bl_dueDate b)
              && (bl_dueDate b <=? now + 7 * 24 * 60 * 60 * 1000))
    (bills bs).

(** The suggestion of Rule 7 for a bill. *)
Definition billSuggestion (now : Z) (bill : Bill) : Suggestion :=
  let daysLeft := JSDate.ceilDays (bl_dueDate bill - now) in
  mkSuggestion "Upcoming Bill Alert"
    ("Your " ++ bl_name bill ++ " is due in " ++ JS.showZ daysLeft
     ++ " days. Keep extra " ++ showNumber (bl_amount bill) ++ " saved.")%string
    "Upcoming bill detected".

(** Rule 7: Upcoming Bills *)
Definition billSuggestions (now : Z) (bs : BillStore) (userId : nat) : list Suggestion :=
  List.map (billSuggestion now)
    (List.filter
       (fun bill =>
          let daysLeft := JSDate.ceilDays (bl_dueDate bill - now) in
          (daysLeft <=? 4) && (0 <=? daysLeft))
       (upcomingBills now bs userId)).

(** GET /api/ai/suggestions.  [None] is the empty data object. *)
Definition getSuggestions (now : Z) (s : Store) (bs : BillStore) (user : User)
    : Result (option (list Suggestion)) :=
  if suggestionsOff user then
    Respond 200 None "AI Suggestions are turned off in settings"
  else
    let userId := u_id user in
    let transactions :=
      AIController.expensesSince s userId (AIController.daysAgo tz now 30) in
    if Nat.eqb (length transactions) 0 then
      Respond 200 None "Not enough data for AI suggestions"
    else
      let budget := Budget_findOne s userId (AIController.getCurrentMonth tz now) in
      let personality := AIController.determinePersonality tz now s userId in
      Respond 200
        (Some (categorySuggestions transactions
               ++ budgetSuggestions budget
               ++ personalitySuggestions personality
               ++ frequencySuggestions transactions
               ++ highValueSuggestions transactions
               ++ billSuggestions now bs userId))
        "Smart suggestions generated".
End Handlers.

End Suggestions.

(** ** Where the sums of binary64 are the exact ones *)

Module Whole.
Import Model TransactionController.

(** Every amount is a whole number above zero, and the amounts add up to
    2^53 at most: whatever the order in which a handler adds some of them
    up, or takes them off again, no step is rounded. *)
Definition wholeAmounts (l : list Transaction) : bool :=
  forallb (fun t => JS.isInteger (t_amount t) && JS.ltb 0 (t_amount t)) l
  && JS.leb (JS.sumOf t_amount l) (inject_Z (2 ^ 53)).

(** No category bears the name of a member that an object inherits. *)
Definition plainCategories (l : list Transaction) : bool :=
  forallb (fun t => JS.ownKey (t_category t)) l.

(** The schema validators accept every transaction. *)
Definition allValid (l : list Transaction) : bool :=
  forallb (fun t => match validateTransaction t with None => true | Some _ => false end) l.

(** The amount that a request sends, if it sends one. *)
Definition sentAmount (r : Request) : Q :=
  match r with
  | Add _ body | Edit _ _ body =>
      match b_amount body with Some amount => amount | None => 0%Q end
  | Delete _ _ => 0%Q
  end.

Definition isAdd (r : Request) : bool :=
  match r with Add _ _ => true | _ => false end.

(** A run of edits and deletes over whole amounts: the stored amounts and
    the amounts sent are whole numbers, and all of them together add up to
    2^53 at most. *)
Definition wholeRun (s : Store) (rs : list Request) : bool :=
  wholeAmounts (transactions s)
  && forallb (fun r => negb (isAdd r)) rs
  && forallb (fun r => JS.isInteger (sentAmount r) && JS.leb 0 (sentAmount r)) rs
  && JS.leb (JS.sumOf t_amount (transactions s) + JS.sumOf sentAmount rs)
            (inject_Z (2 ^ 53)).

(** The request was answered: nothing was thrown on the way. *)
Definition answered (out : Reply) : bool :=
  match out with Sent _ _ => true | Thrown _ => false end.

End Whole.

(** ** The runs of the trend alerts and of the challenges *)

Module Runs.
Import Model.

(** The stored alerts of type "trend" of a user. *)
Definition trendAlertsOf (s : Store) (userId : nat) : list Alert :=
  List.filter (fun a => Nat.eqb (a_user a) userId && String.eqb (a_type a) "trend")
              (alerts s).

(** The alerts that the loop of [generateTrendAlerts] creates: what it
    leaves in a collection that was empty. *)
Definition freshTrendAlerts (now : Z) (userId : AlertService.UserRef)
    (lastWeekMap : gmap string Q) (thisWeek : list (string * Q)) : list Alert :=
  alerts (fold_left (AlertService.checkIncrease now userId lastWeekMap) thisWeek
                    (mkStore [] ∅ [] O)).

(** What the loops of [getChallenges] keep true of their state: the
    challenges pushed so far are numbered from 1 in the order of the list,
    [idCounter] is the next number, and every challenge is available and
    expects a saving of 100 at least. *)
Definition numbered (st : AIController.Loop) : Prop :=
  let '(challenges, _, idCounter) := st in
  idCounter = 1 + Z.of_nat (length challenges)
  /\ List.map AIController.c_id challenges
     = List.map Z.of_nat (seq 1 (length challenges))
  /\ Forall (fun c => 100 <= AIController.expectedSave c
                      /\ AIController.c_status c = "available"%string)
            challenges.

End Runs.

(** ** Further sample data *)

Module MoreSamples.
Import Model Bills.

(** Noon UTC of 2024-03-20, the time of the sample runs. *)
Definition today : Z := Sample.noon 2024 3 20.

(** A phone bill that falls due two days later, a rent that was due two days
    before, an insurance that is due in a month, and a bill of another user. *)
Definition phone : Bill := mkBill 1 1 "Phone" 500 (Sample.noon 2024 3 22) "pending".
Definition rent : Bill := mkBill 2 1 "Rent" 20000 (Sample.noon 2024 3 18) "pending".
Definition insurance : Bill :=
  mkBill 3 1 "Insurance" 3000 (Sample.noon 2024 4 20) "pending".
Definition others : Bill := mkBill 4 2 "Gym" 900 (Sample.noon 2024 3 21) "pending".

Definition billStore : BillStore := mkBillStore [phone; rent; insurance; others] 5.

(** A bill that falls due on the day of the run, at six in the evening. *)
Definition tonight : Bill :=
  mkBill 5 1 "Water" 300 (today + 6 * 60 * 60 * 1000) "pending".

(** A body whose amount is negative. *)
Definition negativeBill : BillBody :=
  mkBillBody (Some "Phone"%string) (Some (-5 # 1)) (Some today) None.

(** A pattern matches every string. *)
Definition anyMatch (search subject : string) : bool := true.

(** A number is printed as nothing. *)
Definition noDigits (x : Q) : string := "".

(** Dates are printed as nothing. *)
Definition noDate (t : Z) : string := "".

(** The first page of two transactions, and the first page of two bills. *)
Definition twoPerPage : TransactionQueries.ListQuery :=
  TransactionQueries.mkListQuery (Some 1) (Some 2) None None None None None.
Definition twoBills : BillQuery := mkBillQuery (Some 1) (Some 2) None None None None.

(** The edit of the first transaction to an amount of 150, and its delete. *)
Definition editThenDelete : list TransactionController.Request :=
  [TransactionController.Edit 1 1 (TransactionController.amountOnly 150);
   TransactionController.Delete 1 1].

(** New York in the autumn of 2024: four hours west of UTC until the clocks
    are set back, on 2024-11-03 at 02:00 local time (06:00 UTC), and five
    hours from then on.  A wall-clock time before 02:00 of that day is read
    with the earlier offset. *)
Definition newYork : JSDate.Zone :=
  let change := JS.days_from_civil 2024 11 3 * JS.msPerDay in
  let hour := 60 * 60 * 1000 in
  JSDate.mkZone (fun t => if t <? change + 6 * hour then - 4 * hour else - 5 * hour)
                (fun w => if w <? change + 2 * hour then - 4 * hour else - 5 * hour).

(** Noon in New York on 2024-11-02, and a bill that falls due on 2024-11-04
    at nine in the morning there: two calendar days later. *)
Definition saturdayNoon : Z := Sample.noon 2024 11 2 + 4 * 60 * 60 * 1000.
Definition mondayBill : Bill :=
  mkBill 6 1 "Power" 800 (Sample.noon 2024 11 4 + 2 * 60 * 60 * 1000) "pending".

(** An add whose amount is negative. *)
Definition negativeAdd : TransactionController.Body :=
  TransactionController.mkBody (Some (-5 # 1)) (Some "expense"%string)
    (Some "Food"%string) (Some today) None None.

End MoreSamples.

(** * Properties *)

(** ** Numbers and sums *)

Lemma ltb_lt (x y : Q) : JS.ltb x y = true <-> (x < y)%Q.
Proof.
  unfold JS.ltb. rewrite negb_true_iff, <- not_true_iff_false, Qle_bool_iff.
  split; [apply Qnot_le_lt | apply Qlt_not_le].
Qed.

Lemma ltb_ge (x y : Q) : JS.ltb x y = false <-> (y <= x)%Q.
Proof. unfold JS.ltb. rewrite negb_false_iff. apply Qle_bool_iff. Qed.

Lemma leb_le (x y : Q) : JS.leb x y = true <-> (x <= y)%Q.
Proof. apply Qle_bool_iff. Qed.

Lemma leb_gt (x y : Q) : JS.leb x y = false <-> (y < x)%Q.
Proof.
  unfold JS.leb. rewrite <- not_true_iff_false, Qle_bool_iff.
  split; [apply Qnot_le_lt | apply Qlt_not_le].
Qed.

Lemma sumOf_from {A : Type} (f : A -> Q) (l : list A) (a : Q) :
  (fold_left (fun sum x => sum + f x) l a == a + JS.sumOf f l)%Q.
Proof.
  unfold JS.sumOf. revert a.
  induction l as [|x l IH]; intros a; simpl.
  - ring.
  - rewrite (IH (a + f x)%Q), (IH (0 + f x)%Q). ring.
Qed.

Lemma sumOf_nil {A : Type} (f : A -> Q) : JS.sumOf f [] = 0%Q.
Proof. reflexivity. Qed.

Lemma sumOf_cons {A : Type} (f : A -> Q) (x : A) (l : list A) :
  (JS.sumOf f (x :: l) == f x + JS.sumOf f l)%Q.
Proof. unfold JS.sumOf at 1. simpl. rewrite sumOf_from. ring. Qed.

Lemma sumOf_app {A : Type} (f : A -> Q) (l1 l2 : list A) :
  (JS.sumOf f (l1 ++ l2) == JS.sumOf f l1 + JS.sumOf f l2)%Q.
Proof.
  induction l1 as [|x l1 IH]; simpl.
  - rewrite sumOf_nil. ring.
  - rewrite !sumOf_cons, IH. ring.
Qed.

Lemma sumOf_nonneg {A : Type} (f : A -> Q) (l : list A) :
  Forall (fun x => (0 <= f x)%Q) l -> (0 <= JS.sumOf f l)%Q.
Proof.
  induction 1 as [|x l Hx _ IH].
  - rewrite sumOf_nil. lra.
  - rewrite sumOf_cons. lra.
Qed.

(** ** The runtime on small inputs *)

Example round_half_up : JS.round (5 # 2) = 3 /\ JS.round (-5 # 2) = -2 /\ JS.round (7 # 3) = 2.
Proof. repeat split; reflexivity. Qed.

Example sort_descending_stable :
  JS.sort (fun a b => inject_Z (snd b) - inject_Z (snd a))%Q
          [("a", 1); ("b", 3); ("c", 1); ("d", 3)]%string
  = [("b", 3); ("d", 3); ("a", 1); ("c", 1)]%string.
Proof. vm_compute. reflexivity. Qed.

Example epoch_day : JS.civil_from_days 0 = (1970, 1, 1).
Proof. reflexivity. Qed.

Example leap_day :
  JS.civil_from_days (JS.days_from_civil 2024 2 29) = (2024, 2, 29)
  /\ JS.days_from_civil 2024 3 1 - JS.days_from_civil 2024 2 29 = 1
  /\ JS.days_from_civil 2023 3 1 - JS.days_from_civil 2023 2 28 = 1.
Proof. repeat split; reflexivity. Qed.

(** [new Date(2024, 2 + 1, 0)] is the last day of March 2024, and
    [new Date(2024, 11 + 1, 0)] the last day of December. *)
Example last_day_of_month :
  JS.getDate 0 (JS.mkDate 0 2024 (2 + 1) 0 0 0 0 0) = 31
  /\ JS.getDate 0 (JS.mkDate 0 2024 (11 + 1) 0 0 0 0 0) = 31
  /\ JS.getMonth 0 (JS.mkDate 0 2024 (11 + 1) 0 0 0 0 0) = 11.
Proof. repeat split; vm_compute; reflexivity. Qed.

(** Thirty days before noon of 2024-03-21 is noon of 2024-02-20. *)
Example thirty_days_ago :
  AIController.daysAgo 0 (Sample.noon 2024 3 21) 30 = Sample.noon 2024 2 20.
Proof. vm_compute. reflexivity. Qed.

Example month_key_printed :
  Model.monthString (TransactionController.monthOf 0 (Sample.noon 2024 3 10)) = "2024-03"%string
  /\ Model.monthString (TransactionController.monthOf 0 (Sample.noon 2023 12 31)) = "2023-12"%string.
Proof. split; vm_compute; reflexivity. Qed.

(** The same instant has two month keys in two zones. *)
Example month_key_by_zone :
  TransactionController.monthOf 0 Sample.earlyMarch = (2024, 2)
  /\ TransactionController.monthOf Sample.plus5 Sample.earlyMarch = (2024, 3).
Proof. split; vm_compute; reflexivity. Qed.

(** ** The calendar *)

Section Calendar.
Import BudgetController.

Lemma monthStart_eq k :
  monthStart k = JS.days_from_civil (k / 12) (k mod 12 + 1) 1.
Proof. unfold monthStart, JS.MakeDay. rewrite Z.add_0_l. lia. Qed.

Lemma index_div Y r :
  0 <= r < 12 -> (12 * Y + r) / 12 = Y /\ (12 * Y + r) mod 12 = r.
Proof.
  intros H. split; symmetry;
    [apply (Z.div_unique _ 12 Y r)|apply (Z.mod_unique _ 12 Y r)]; lia.
Qed.

Lemma monthStart_index y m :
  1 <= m <= 12 -> monthStart (12 * y + (m - 1)) = JS.days_from_civil y m 1.
Proof.
  intros Hm. rewrite monthStart_eq.
  destruct (index_div y (m - 1) ltac:(lia)) as [-> ->].
  f_equal. lia.
Qed.

Lemma days_from_civil_early y m d :
  m <= 2 ->
  JS.days_from_civil y m d
  = (y - 1) / 400 * 146097
    + ((y - 1 - (y - 1) / 400 * 400) * 365 + (y - 1 - (y - 1) / 400 * 400) / 4
       - (y - 1 - (y - 1) / 400 * 400) / 100 + ((153 * (m + 9) + 2) / 5 + d - 1))
    - 719468.
Proof.
  intros Hm. unfold JS.days_from_civil.
  destruct (Z.leb_spec m 2); [|lia]. destruct (Z.gtb_spec m 2); [lia|]. reflexivity.
Qed.

Lemma days_from_civil_late y m d :
  2 < m ->
  JS.days_from_civil y m d
  = y / 400 * 146097
    + ((y - y / 400 * 400) * 365 + (y - y / 400 * 400) / 4
       - (y - y / 400 * 400) / 100 + ((153 * (m - 3) + 2) / 5 + d - 1))
    - 719468.
Proof.
  intros Hm. unfold JS.days_from_civil.
  destruct (Z.leb_spec m 2); [lia|]. destruct (Z.gtb_spec m 2); [|lia]. reflexivity.
Qed.

Ltac civil_arith :=
  repeat first [rewrite days_from_civil_early by lia
               |rewrite days_from_civil_late by lia];
  Z.div_mod_to_equations; lia.

(** Every month has at least 28 days. *)
Lemma monthStart_step k : monthStart k + 28 <= monthStart (k + 1).
Proof.
  rewrite !monthStart_eq.
  pose proof (Z.mod_pos_bound k 12 ltac:(lia)) as Hr.
  pose proof (Z.div_mod k 12 ltac:(lia)) as Hk.
  set (q := k / 12) in *. set (r := k mod 12) in *.
  destruct (Z.eq_dec r 11) as [Hr11|Hr11].
  - replace (k + 1) with (12 * (q + 1) + 0) by lia.
    destruct (index_div (q + 1) 0 ltac:(lia)) as [-> ->]. rewrite Hr11.
    civil_arith.
  - replace (k + 1) with (12 * q + (r + 1)) by lia.
    destruct (index_div q (r + 1) ltac:(lia)) as [-> ->].
    assert (Hc : r = 0 \/ r = 1 \/ r = 2 \/ r = 3 \/ r = 4 \/ r = 5 \/ r = 6
                 \/ r = 7 \/ r = 8 \/ r = 9 \/ r = 10) by lia.
    clearbody q r.
    destruct Hc as [->|[->|[->|[->|[->|[->|[->|[->|[->|[->| ->]]]]]]]]]];
      civil_arith.
Qed.

Lemma monthStart_mono k k' : k < k' -> monthStart k < monthStart k'.
Proof.
  intros H. replace k' with (k + 1 + Z.of_nat (Z.to_nat (k' - k - 1))) by lia.
  induction (Z.to_nat (k' - k - 1)) as [|n IH].
  - pose proof (monthStart_step k). rewrite Z.add_0_r. lia.
  - pose proof (monthStart_step (k + 1 + Z.of_nat n)).
    replace (k + 1 + Z.of_nat (S n)) with (k + 1 + Z.of_nat n + 1) by lia. lia.
Qed.

(** A day lies in one month only. *)
Lemma monthStart_unique k k' z :
  monthStart k <= z < monthStart (k + 1) ->
  monthStart k' <= z < monthStart (k' + 1) -> k = k'.
Proof.
  intros H H'.
  destruct (Z.lt_trichotomy k k') as [Hlt|[Heq|Hgt]]; [|exact Heq|].
  - assert (monthStart (k + 1) <= monthStart k').
    { destruct (Z.eq_dec (k + 1) k') as [->|]; [lia|].
      pose proof (monthStart_mono (k + 1) k'). lia. }
    lia.
  - assert (monthStart (k' + 1) <= monthStart k).
    { destruct (Z.eq_dec (k' + 1) k) as [->|]; [lia|].
      pose proof (monthStart_mono (k' + 1) k). lia. }
    lia.
Qed.

(** The year and month read off a day number are those of the month that
    holds the day. *)
Lemma civil_in_month z y m d :
  JS.civil_from_days z = (y, m, d) ->
  1 <= m <= 12 /\ 1 <= d
  /\ monthStart (12 * y + (m - 1)) <= z < monthStart (12 * y + (m - 1) + 1).
Proof.
  unfold JS.civil_from_days.
  set (z' := z + 719468).
  set (era := z' / 146097).
  set (doe := z' - era * 146097).
  assert (Hdoe : 0 <= doe < 146097).
  { unfold doe, era. pose proof (Z.div_mod z' 146097 ltac:(lia)).
    pose proof (Z.mod_pos_bound z' 146097 ltac:(lia)). lia. }
  set (yoe := (doe - doe / 1460 + doe / 36524 - doe / 146096) / 365).
  set (doy := doe - (365 * yoe + yoe / 4 - yoe / 100)).
  assert (Hyoe : 0 <= yoe < 400 /\ 0 <= doy < 366).
  { unfold doy, yoe. clearbody doe. Z.div_mod_to_equations; lia. }
  set (mp := (5 * doy + 2) / 153).
  assert (Hmp : 0 <= mp <= 11) by (unfold mp; Z.div_mod_to_equations; lia).
  assert (Hz : z = era * 146097 + doe - 719468) by (unfold doe, z'; lia).
  assert (Hdoy : doy = doe - (365 * yoe + yoe / 4 - yoe / 100)) by reflexivity.
  assert (Hmpd : mp = (5 * doy + 2) / 153) by reflexivity.
  assert (Hyd : yoe = (doe - doe / 1460 + doe / 36524 - doe / 146096) / 365)
    by reflexivity.
  set (m0 := if mp <? 10 then mp + 3 else mp - 9).
  assert (Hm0 : (mp < 10 /\ m0 = mp + 3) \/ (10 <= mp /\ m0 = mp - 9))
    by (unfold m0; destruct (Z.ltb_spec mp 10); lia).
  set (y0 := if m0 <=? 2 then yoe + era * 400 + 1 else yoe + era * 400).
  assert (Hy0 : (m0 <= 2 /\ y0 = yoe + era * 400 + 1)
                \/ (2 < m0 /\ y0 = yoe + era * 400))
    by (unfold y0; destruct (Z.leb_spec m0 2); lia).
  clearbody doy yoe era doe mp m0 y0. clear z'. subst z.
  intros [= <- <- <-].
  split; [lia|]. split; [Z.div_mod_to_equations; lia|].
  assert (Hc : mp = 0 \/ mp = 1 \/ mp = 2 \/ mp = 3 \/ mp = 4 \/ mp = 5 \/ mp = 6
               \/ mp = 7 \/ mp = 8 \/ mp = 9 \/ mp = 10 \/ mp = 11) by lia.
  destruct (Z.eq_dec m0 12) as [H12|H12].
  - replace (12 * y0 + (m0 - 1) + 1) with (12 * (y0 + 1) + (1 - 1)) by lia.
    rewrite !monthStart_index by lia.
    destruct Hc as [Hc|[Hc|[Hc|[Hc|[Hc|[Hc|[Hc|[Hc|[Hc|[Hc|[Hc|Hc]]]]]]]]]]];
      destruct Hm0 as [[? Hm0]|[? Hm0]]; try lia;
      destruct Hy0 as [[? Hy0]|[? Hy0]]; try lia; civil_arith.
  - replace (12 * y0 + (m0 - 1) + 1) with (12 * y0 + (m0 + 1 - 1)) by lia.
    rewrite !monthStart_index by lia.
    destruct Hc as [Hc|[Hc|[Hc|[Hc|[Hc|[Hc|[Hc|[Hc|[Hc|[Hc|[Hc|Hc]]]]]]]]]]];
      destruct Hm0 as [[? Hm0]|[? Hm0]]; try lia;
      destruct Hy0 as [[? Hy0]|[? Hy0]]; try lia; civil_arith.
Qed.

Lemma MakeDay_monthStart y m d :
  JS.MakeDay y m d = monthStart (12 * y + m) + d - 1.
Proof.
  rewrite monthStart_eq. unfold JS.MakeDay.
  replace (12 * y + m) with (m + y * 12) by lia.
  rewrite Z.div_add, Z.mod_add by lia.
  replace (m / 12 + y) with (y + m / 12) by lia. reflexivity.
Qed.

(** The first day of a month reads back as that month. *)
Lemma civil_monthStart y m :
  1 <= m <= 12 ->
  exists d, JS.civil_from_days (JS.days_from_civil y m 1) = (y, m, d).
Proof.
  intros Hm. destruct (JS.civil_from_days (JS.days_from_civil y m 1)) as [[y' m'] d'] eqn:E.
  destruct (civil_in_month _ _ _ _ E) as (Hm' & _ & Hin).
  rewrite <- (monthStart_index y m Hm) in Hin.
  pose proof (monthStart_step (12 * y + (m - 1))) as Hstep.
  assert (Hk : 12 * y + (m - 1) = 12 * y' + (m' - 1)).
  { apply (monthStart_unique _ _ (monthStart (12 * y + (m - 1)))); lia. }
  exists d'. f_equal. f_equal; lia.
Qed.

Lemma day_bounds t lo hi :
  lo * JS.msPerDay <= t <= (hi - 1) * JS.msPerDay + 86399999
  <-> lo <= t / JS.msPerDay < hi.
Proof. unfold JS.msPerDay. Z.div_mod_to_equations. lia. Qed.
End Calendar.

(** ** The Consistency Engine *)

Section ConsistencyEngine.
Import Model TransactionController.
Variable tz : Z.

#[local] Abbreviation monthOf := (monthOf tz).
#[local] Abbreviation applyExpense := (applyExpense tz).
#[local] Abbreviation revertExpense := (revertExpense tz).

(** *** The two aggregate updates, read back *)

Lemma applyExpense_transactions s uid d a :
  transactions (applyExpense s uid d a) = transactions s.
Proof. unfold TransactionController.applyExpense. destruct (Budget_findOne _ _ _); reflexivity. Qed.

Lemma revertExpense_transactions s uid d a :
  transactions (revertExpense s uid d a) = transactions s.
Proof. unfold TransactionController.revertExpense. destruct (Budget_findOne _ _ _); reflexivity. Qed.

Lemma applyExpense_nextId s uid d a : nextId (applyExpense s uid d a) = nextId s.
Proof. unfold TransactionController.applyExpense. destruct (Budget_findOne _ _ _); reflexivity. Qed.

Lemma revertExpense_nextId s uid d a : nextId (revertExpense s uid d a) = nextId s.
Proof. unfold TransactionController.revertExpense. destruct (Budget_findOne _ _ _); reflexivity. Qed.

Lemma find_applyExpense s uid d a u m :
  Budget_findOne (applyExpense s uid d a) u m =
  match Budget_findOne s u m with
  | Some b => if decide ((uid, monthOf d) = (u, m))
              then Some (mkBudget (monthlyBudget b) (spentSoFar b + a)%Q)
              else Some b
  | None => None
  end.
Proof.
  unfold TransactionController.applyExpense, Budget_findOne.
  destruct (budgets s !! (uid, monthOf d)) as [b0|] eqn:E0; simpl.
  - rewrite lookup_insert. destruct (decide _) as [<-|]; [rewrite E0; reflexivity|].
    destruct (budgets s !! (u, m)); reflexivity.
  - destruct (budgets s !! (u, m)) as [b|] eqn:E; [|reflexivity].
    destruct (decide _) as [Heq|]; [|reflexivity]. congruence.
Qed.

Lemma find_revertExpense s uid d a u m :
  Budget_findOne (revertExpense s uid d a) u m =
  match Budget_findOne s u m with
  | Some b => if decide ((uid, monthOf d) = (u, m))
              then Some (mkBudget (monthlyBudget b) (clamp0 (spentSoFar b - a)))
              else Some b
  | None => None
  end.
Proof.
  unfold TransactionController.revertExpense, Budget_findOne, clamp0.
  destruct (budgets s !! (uid, monthOf d)) as [b0|] eqn:E0; simpl.
  - rewrite lookup_insert. destruct (decide _) as [<-|]; [rewrite E0; reflexivity|].
    destruct (budgets s !! (u, m)); reflexivity.
  - destruct (budgets s !! (u, m)) as [b|] eqn:E; [|reflexivity].
    destruct (decide _) as [Heq|]; [|reflexivity]. congruence.
Qed.

Lemma find_Transaction_save s doc s' u m :
  Transaction_save s doc = inr s' -> Budget_findOne s' u m = Budget_findOne s u m.
Proof.
  unfold Transaction_save. destruct (validateTransaction doc); [discriminate|].
  intros [= <-]. reflexivity.
Qed.

Lemma find_Transaction_create s uid ty c a d n mo s' t u m :
  Transaction_create s uid ty c a d n mo = inr (s', t) ->
  Budget_findOne s' u m = Budget_findOne s u m.
Proof.
  unfold Transaction_create. destruct (validateTransaction _); [discriminate|].
  intros [= <- _]. reflexivity.
Qed.

Lemma clamp0_nonneg q : (0 <= clamp0 q)%Q.
Proof.
  unfold clamp0. destruct (JS.ltb q 0) eqn:E; [lra|]. apply ltb_ge in E. exact E.
Qed.

Lemma clamp0_id q : (0 <= q)%Q -> clamp0 q = q.
Proof.
  intros H. unfold clamp0. destruct (JS.ltb q 0) eqn:E; [|reflexivity].
  apply ltb_lt in E. lra.
Qed.

Lemma validate_amount_pos t : validateTransaction t = None -> (0 < t_amount t)%Q.
Proof.
  unfold validateTransaction.
  destruct (negb (inEnum _ _)); [discriminate|].
  destruct (String.eqb _ _); [discriminate|].
  destruct (JS.ltb 0 (t_amount t)) eqn:E; [|discriminate].
  intros _. apply ltb_lt. exact E.
Qed.

(** *** The ledger sum under insertion, removal and replacement *)

#[local] Abbreviation share := (share tz).

Lemma sumOf_filter_share uid month (l : list Transaction) :
  (JS.sumOf t_amount (List.filter (countsFor tz uid month) l)
   == JS.sumOf (share uid month) l)%Q.
Proof.
  induction l as [|t l IH]; simpl; [reflexivity|].
  rewrite sumOf_cons. unfold share at 1.
  destruct (countsFor tz uid month t); [rewrite sumOf_cons|]; rewrite IH; ring.
Qed.

Lemma liveSum_share s uid month :
  (liveSum tz s uid month == JS.sumOf (share uid month) (transactions s))%Q.
Proof. apply sumOf_filter_share. Qed.

Lemma share_nonneg uid month t :
  validateTransaction t = None -> (0 <= share uid month t)%Q.
Proof.
  intros H%validate_amount_pos. unfold share.
  destruct (countsFor _ _ _ _); lra.
Qed.

Lemma liveSum_nonneg s uid month :
  wellFormed s -> (0 <= liveSum tz s uid month)%Q.
Proof.
  intros (Hv & _ & _). rewrite liveSum_share. apply sumOf_nonneg.
  induction Hv as [|t l Ht _ IH]; constructor; [exact (share_nonneg _ _ _ Ht)|exact IH].
Qed.

Lemma find_Some_In (l : list Transaction) id t :
  List.find (fun t => Nat.eqb (t_id t) id) l = Some t -> In t l /\ t_id t = id.
Proof.
  intros H. apply List.find_some in H as [Hin Heq].
  split; [exact Hin|]. apply Nat.eqb_eq. exact Heq.
Qed.

(** Removing the document with the id of [t], which the list holds once. *)
Lemma sumOf_remove (g : Transaction -> Q) (l : list Transaction) t :
  NoDup (List.map t_id l) -> In t l ->
  (JS.sumOf g l
   == g t + JS.sumOf g (List.filter (fun x => negb (Nat.eqb (t_id x) (t_id t))) l))%Q.
Proof.
  induction l as [|x l IH]; simpl; intros Hnd Hin; [contradiction|].
  apply NoDup_cons in Hnd as [Hx Hnd].
  destruct Hin as [->|Hin].
  - rewrite Nat.eqb_refl. simpl. rewrite sumOf_cons.
    assert (Hsame : List.filter (fun x => negb (Nat.eqb (t_id x) (t_id t))) l = l).
    { apply forallb_filter_id. apply forallb_forall. intros y Hy.
      apply negb_true_iff, Nat.eqb_neq. intros Heq. apply Hx.
      rewrite <- Heq. apply list_elem_of_In, in_map, Hy. }
    rewrite Hsame. reflexivity.
  - assert (Hne : t_id x <> t_id t).
    { intros Heq. apply Hx. rewrite Heq. apply list_elem_of_In, in_map, Hin. }
    apply Nat.eqb_neq in Hne. rewrite Hne. simpl.
    rewrite !sumOf_cons, (IH Hnd Hin). ring.
Qed.

(** Replacing the document with the id of [t'] by [t']. *)
Lemma sumOf_replace (g : Transaction -> Q) (l : list Transaction) t' :
  (JS.sumOf g (List.map (fun x => if Nat.eqb (t_id x) (t_id t') then t' else x) l)
   == JS.sumOf (fun x => if Nat.eqb (t_id x) (t_id t') then g t' else g x) l)%Q.
Proof.
  induction l as [|x l IH]; simpl; [reflexivity|].
  rewrite !sumOf_cons, IH. destruct (Nat.eqb _ _); reflexivity.
Qed.

Lemma sumOf_replaced (g : Transaction -> Q) (l : list Transaction) t t' :
  NoDup (List.map t_id l) -> In t l -> t_id t' = t_id t ->
  (JS.sumOf g (List.map (fun x => if Nat.eqb (t_id x) (t_id t') then t' else x) l)
   == JS.sumOf g l - g t + g t')%Q.
Proof.
  intros Hnd Hin Hid. rewrite sumOf_replace, Hid.
  rewrite (sumOf_remove g l t Hnd Hin).
  rewrite (sumOf_remove (fun x => if Nat.eqb (t_id x) (t_id t) then g t' else g x) l t Hnd Hin).
  rewrite Nat.eqb_refl.
  assert (Heq : forall l0 : list Transaction,
    (JS.sumOf (fun x => if Nat.eqb (t_id x) (t_id t) then g t' else g x)
       (List.filter (fun x => negb (Nat.eqb (t_id x) (t_id t))) l0)
     == JS.sumOf g (List.filter (fun x => negb (Nat.eqb (t_id x) (t_id t))) l0))%Q).
  { induction l0 as [|x l0 IH]; simpl; [reflexivity|].
    destruct (Nat.eqb (t_id x) (t_id t)) eqn:E; simpl; [exact IH|].
    rewrite !sumOf_cons, E, IH. reflexivity. }
  rewrite Heq. ring.
Qed.

Lemma countsFor_key uid month t :
  countsFor tz uid month t
  = String.eqb (t_type t) "expense"
    && bool_decide ((t_user t, monthOf (t_date t)) = (uid, month)).
Proof.
  unfold countsFor.
  destruct (Nat.eqb_spec (t_user t) uid) as [->|Hne]; simpl.
  - destruct (String.eqb _ _); simpl; [|reflexivity].
    apply bool_decide_ext. split; [intros ->; reflexivity|intros [= ->]; reflexivity].
  - symmetry. apply andb_false_iff. right.
    apply bool_decide_eq_false_2. intros [= Hu _]. contradiction.
Qed.

(** Under a well-formed ledger the clamp of the specification is idle. *)
Lemma inSync_exact s uid month :
  wellFormed s ->
  inSync tz s uid month <->
  exists budget, Budget_findOne s uid month = Some budget
                 /\ (spentSoFar budget == liveSum tz s uid month)%Q.
Proof.
  intros Hwf. unfold inSync.
  rewrite (clamp0_id _ (liveSum_nonneg s uid month Hwf)). reflexivity.
Qed.

(** *** One request *)

Lemma wellFormed_add s uid ty c a d n mo s1 doc :
  wellFormed s ->
  Transaction_create s uid ty c a d n mo = inr (s1, doc) ->
  wellFormed s1
  /\ transactions s1 = transactions s ++ [doc]
  /\ doc = mkTransaction (nextId s) uid ty c a d n mo.
Proof.
  intros (Hv & Hnd & Hlt). unfold Transaction_create.
  destruct (validateTransaction _) eqn:Hval; [discriminate|].
  intros [= <- <-]. split; [|split; reflexivity].
  unfold wellFormed; simpl. split; [|split].
  - apply Forall_app. split; [exact Hv|]. constructor; [exact Hval|constructor].
  - rewrite map_app. simpl. apply NoDup_app. split; [exact Hnd|]. split.
    + intros x Hx ->%list_elem_of_singleton.
      apply list_elem_of_In, in_map_iff in Hx as (t & Ht & Hin).
      rewrite Forall_forall in Hlt. specialize (Hlt t (proj2 (list_elem_of_In _ _) Hin)). lia.
    + apply NoDup_singleton.
  - apply Forall_app. split.
    + eapply Forall_impl; [exact Hlt|]. simpl. intros; lia.
    + constructor; [simpl; lia|constructor].
Qed.

Lemma wellFormed_ext s s' :
  transactions s' = transactions s -> nextId s' = nextId s ->
  wellFormed s -> wellFormed s'.
Proof. unfold wellFormed. intros -> ->. tauto. Qed.

Lemma liveSum_ext s s' uid month :
  transactions s' = transactions s -> liveSum tz s' uid month = liveSum tz s uid month.
Proof. unfold liveSum. intros ->. reflexivity. Qed.

Lemma add_step s uid body u m :
  wellFormed s -> inSync tz s u m ->
  wellFormed (fst (addTransaction tz s uid body))
  /\ inSync tz (fst (addTransaction tz s uid body)) u m.
Proof.
  intros Hwf Hs. unfold addTransaction.
  destruct (_ || _); [simpl; auto|].
  destruct (b_amount body) as [a|]; [|simpl; auto].
  destruct (b_type body) as [ty|]; [|simpl; auto].
  destruct (b_category body) as [c|]; [|simpl; auto].
  destruct (b_date body) as [d|]; [|simpl; auto].
  destruct (JS.leb a 0); [simpl; auto|].
  destruct (Transaction_create _ _ _ _ _ _ _ _) as [e|[s1 doc]] eqn:Hc; [simpl; auto|].
  destruct (wellFormed_add _ _ _ _ _ _ _ _ _ _ Hwf Hc) as (Hwf1 & Htx & Hdoc).
  simpl fst.
  assert (Hsum : (liveSum tz s1 u m == liveSum tz s u m + share u m doc)%Q).
  { rewrite !liveSum_share, Htx, sumOf_app, sumOf_cons, sumOf_nil. ring. }
  apply (inSync_exact _ _ _ Hwf) in Hs as (b & Hb & Hspent).
  assert (Hb1 : Budget_findOne s1 u m = Some b).
  { rewrite (find_Transaction_create _ _ _ _ _ _ _ _ _ _ u m Hc). exact Hb. }
  assert (Hshare : share u m doc
                   = if String.eqb ty "expense" && bool_decide ((uid, monthOf d) = (u, m))
                     then a else 0%Q).
  { unfold TransactionController.share. rewrite countsFor_key, Hdoc. reflexivity. }
  destruct (String.eqb ty "expense") eqn:Hty.
  - split.
    + eapply wellFormed_ext; [apply applyExpense_transactions|apply applyExpense_nextId|exact Hwf1].
    + apply inSync_exact.
      { eapply wellFormed_ext; [apply applyExpense_transactions|apply applyExpense_nextId|exact Hwf1]. }
      rewrite find_applyExpense, Hb1.
      rewrite (liveSum_ext _ _ u m (applyExpense_transactions s1 uid d a)).
      simpl in Hshare. destruct (decide _) as [Hk|Hk].
      * rewrite (bool_decide_eq_true_2 _ Hk) in Hshare.
        eexists; split; [reflexivity|]. simpl. rewrite Hsum, Hshare, Hspent. reflexivity.
      * rewrite (bool_decide_eq_false_2 _ Hk) in Hshare.
        eexists; split; [reflexivity|]. rewrite Hsum, Hshare, Hspent. ring.
  - split; [exact Hwf1|]. apply (inSync_exact _ _ _ Hwf1).
    exists b. split; [exact Hb1|]. rewrite Hsum, Hshare, Hspent. simpl. ring.
Qed.

Lemma share_le_liveSum s uid month t :
  wellFormed s -> In t (transactions s) ->
  (share uid month t <= liveSum tz s uid month)%Q.
Proof.
  intros Hwf Hin. pose proof Hwf as (Hv & Hnd & _).
  rewrite liveSum_share, (sumOf_remove _ _ t Hnd Hin).
  assert (0 <= JS.sumOf (share uid month)
                 (List.filter (fun x => negb (Nat.eqb (t_id x) (t_id t))) (transactions s)))%Q.
  { apply sumOf_nonneg. apply List.Forall_forall. intros x [Hx _]%filter_In.
    apply share_nonneg. rewrite List.Forall_forall in Hv. exact (Hv x Hx). }
  lra.
Qed.

Lemma wellFormed_delete s t :
  wellFormed s -> wellFormed (Transaction_deleteOne s t).
Proof.
  intros (Hv & Hnd & Hlt). unfold wellFormed, Transaction_deleteOne; simpl.
  split; [|split].
  - apply List.Forall_forall. intros x [Hx _]%filter_In.
    rewrite List.Forall_forall in Hv. exact (Hv x Hx).
  - revert Hnd. generalize (transactions s). intros l.
    induction l as [|x l IH]; simpl; intros Hnd; [constructor|].
    apply NoDup_cons in Hnd as [Hx Hnd].
    destruct (negb _); simpl; [|exact (IH Hnd)].
    apply NoDup_cons. split; [|exact (IH Hnd)].
    intros Hin. apply Hx. apply list_elem_of_In, in_map_iff in Hin as (y & Hy & [Hin _]%filter_In).
    rewrite <- Hy. apply list_elem_of_In, in_map, Hin.
  - apply List.Forall_forall. intros x [Hx _]%filter_In.
    rewrite List.Forall_forall in Hlt. exact (Hlt x Hx).
Qed.

Lemma delete_step s uid id u m :
  wellFormed s -> inSync tz s u m ->
  wellFormed (fst (deleteTransaction tz s uid id))
  /\ inSync tz (fst (deleteTransaction tz s uid id)) u m.
Proof.
  intros Hwf Hs. unfold deleteTransaction.
  destruct (Transaction_findById s id) as [t|] eqn:Hf; [|simpl; auto].
  destruct (negb (Nat.eqb (t_user t) uid)) eqn:Ho; [simpl; auto|].
  apply negb_false_iff, Nat.eqb_eq in Ho.
  apply find_Some_In in Hf as [Hin Hid].
  simpl fst. pose proof Hwf as (_ & Hnd & _).
  pose proof (share_le_liveSum s u m t Hwf Hin) as Hle.
  assert (Hsum : forall s1, transactions s1 = transactions s ->
            (liveSum tz (Transaction_deleteOne s1 t) u m
             == liveSum tz s u m - share u m t)%Q).
  { intros s1 E. rewrite !liveSum_share. unfold Transaction_deleteOne; simpl. rewrite E.
    rewrite (sumOf_remove (share u m) _ t Hnd Hin). ring. }
  assert (Hshare : share u m t
                   = if String.eqb (t_type t) "expense"
                        && bool_decide ((uid, monthOf (t_date t)) = (u, m))
                     then t_amount t else 0%Q).
  { unfold TransactionController.share. rewrite countsFor_key, Ho. reflexivity. }
  apply (inSync_exact _ _ _ Hwf) in Hs as (b & Hb & Hspent).
  destruct (String.eqb (t_type t) "expense") eqn:Hty; simpl in Hshare.
  - assert (Hwf' : wellFormed (Transaction_deleteOne
                       (revertExpense s uid (t_date t) (t_amount t)) t)).
    { apply wellFormed_delete. eapply wellFormed_ext;
        [apply revertExpense_transactions|apply revertExpense_nextId|exact Hwf]. }
    split; [exact Hwf'|]. apply (inSync_exact _ _ _ Hwf').
    change (Budget_findOne (Transaction_deleteOne ?s1 t) u m)
      with (Budget_findOne s1 u m).
    rewrite find_revertExpense, Hb.
    destruct (decide _) as [Hk|Hk].
    + rewrite (bool_decide_eq_true_2 _ Hk) in Hshare.
      eexists; split; [reflexivity|]. simpl.
      rewrite (Hsum _ (revertExpense_transactions _ _ _ _)), Hshare.
      rewrite clamp0_id; [rewrite Hspent; reflexivity|].
      rewrite Hspent. rewrite Hshare in Hle. lra.
    + rewrite (bool_decide_eq_false_2 _ Hk) in Hshare.
      eexists; split; [reflexivity|].
      rewrite (Hsum _ (revertExpense_transactions _ _ _ _)), Hshare, Hspent. ring.
  - split; [apply wellFormed_delete, Hwf|].
    apply inSync_exact; [apply wellFormed_delete, Hwf|].
    exists b. split; [exact Hb|]. rewrite (Hsum s eq_refl), Hshare, Hspent. ring.
Qed.

Lemma validate_error e t :
  validateTransaction t = Some e -> exists path message, e = ValidationError path message.
Proof.
  unfold validateTransaction.
  repeat match goal with
         | |- context [if ?c then _ else _] => destruct c
         | |- context [match ?o with Some _ => _ | None => _ end] => destruct o
         end; intros [= <-] || discriminate; eauto.
Qed.

Lemma wellFormed_save s doc s' t :
  wellFormed s -> In t (transactions s) -> t_id doc = t_id t ->
  Transaction_save s doc = inr s' ->
  wellFormed s'
  /\ transactions s'
     = List.map (fun x => if Nat.eqb (t_id x) (t_id doc) then doc else x) (transactions s)
  /\ nextId s' = nextId s /\ validateTransaction doc = None.
Proof.
  intros (Hv & Hnd & Hlt) Hin Hid. unfold Transaction_save.
  destruct (validateTransaction doc) eqn:Hval; [discriminate|].
  intros [= <-]. split; [|repeat split; reflexivity].
  assert (Hids : List.map t_id
                   (List.map (fun x => if Nat.eqb (t_id x) (t_id doc) then doc else x)
                             (transactions s))
                 = List.map t_id (transactions s)).
  { rewrite List.map_map. apply List.map_ext. intros x.
    destruct (Nat.eqb_spec (t_id x) (t_id doc)); congruence. }
  unfold wellFormed; simpl. split; [|split].
  - apply List.Forall_forall. intros x (y & Hy & Hyin)%in_map_iff.
    rewrite List.Forall_forall in Hv.
    destruct (Nat.eqb _ _); subst x; [exact Hval|exact (Hv y Hyin)].
  - rewrite Hids. exact Hnd.
  - apply List.Forall_forall. intros x (y & Hy & Hyin)%in_map_iff.
    rewrite List.Forall_forall in Hlt. pose proof (Hlt y Hyin) as Hy'.
    destruct (Nat.eqb_spec (t_id y) (t_id doc)) as [E|E]; subst x; [|exact Hy'].
    rewrite <- E. exact Hy'.
Qed.

Lemma edit_step s uid id body u m :
  wellFormed s -> inSync tz s u m ->
  (forall path message,
      snd (updateTransaction tz s uid id body) <> Throw (ValidationError path message)) ->
  wellFormed (fst (updateTransaction tz s uid id body))
  /\ inSync tz (fst (updateTransaction tz s uid id body)) u m.
Proof.
  intros Hwf Hs. unfold updateTransaction.
  destruct (Transaction_findById s id) as [t|] eqn:Hf; [|simpl; auto].
  destruct (negb (Nat.eqb (t_user t) uid)) eqn:Ho; [simpl; auto|].
  apply negb_false_iff, Nat.eqb_eq in Ho.
  apply find_Some_In in Hf as [Hin Hid].
  set (s1 := if String.eqb (t_type t) "expense"
             then revertExpense s uid (t_date t) (t_amount t) else s).
  assert (Htx1 : transactions s1 = transactions s /\ nextId s1 = nextId s).
  { unfold s1. destruct (String.eqb _ _); [|auto].
    split; [apply revertExpense_transactions|apply revertExpense_nextId]. }
  destruct Htx1 as [Htx1 Hn1].
  assert (Hwf1 : wellFormed s1) by (eapply wellFormed_ext; eauto).
  set (t' := updateFields t body).
  destruct (Transaction_save s1 t') as [e|s2] eqn:Hsave.
  { intros Hne. exfalso. unfold Transaction_save in Hsave.
    destruct (validateTransaction t') eqn:Hval; [|discriminate].
    injection Hsave as <-. apply validate_error in Hval as (p & msg & ->).
    exact (Hne p msg eq_refl). }
  intros _. cbn [fst].
  assert (Hin1 : In t (transactions s1)) by (rewrite Htx1; exact Hin).
  destruct (wellFormed_save s1 t' s2 t Hwf1 Hin1 eq_refl Hsave)
    as (Hwf2 & Htx2 & Hn2 & Hval).
  pose proof Hwf as (_ & Hnd & _).
  pose proof (share_le_liveSum s u m t Hwf Hin) as Hle.
  assert (Hsum : (liveSum tz s2 u m == liveSum tz s u m - share u m t + share u m t')%Q).
  { rewrite !liveSum_share, Htx2, Htx1. apply (sumOf_replaced _ _ t t' Hnd Hin eq_refl). }
  assert (Hold : share u m t
                 = if String.eqb (t_type t) "expense"
                      && bool_decide ((uid, monthOf (t_date t)) = (u, m))
                   then t_amount t else 0%Q).
  { unfold TransactionController.share. rewrite countsFor_key, Ho. reflexivity. }
  assert (Hnew : share u m t'
                 = if String.eqb (t_type t') "expense"
                      && bool_decide ((uid, monthOf (t_date t')) = (u, m))
                   then t_amount t' else 0%Q).
  { unfold TransactionController.share. rewrite countsFor_key.
    change (t_user t') with (t_user t). rewrite Ho. reflexivity. }
  apply (inSync_exact _ _ _ Hwf) in Hs as (b & Hb & Hspent).
  (* the aggregate after step 1 *)
  assert (Hb1 : exists b1, Budget_findOne s1 u m = Some b1
                           /\ (spentSoFar b1 == liveSum tz s u m - share u m t)%Q).
  { unfold s1. destruct (String.eqb (t_type t) "expense"); simpl in Hold.
    - rewrite find_revertExpense, Hb. destruct (decide _) as [Hk|Hk].
      + rewrite (bool_decide_eq_true_2 _ Hk) in Hold.
        eexists; split; [reflexivity|]. simpl. rewrite Hold in *.
        rewrite clamp0_id; [rewrite Hspent; reflexivity|]. rewrite Hspent. lra.
      + rewrite (bool_decide_eq_false_2 _ Hk) in Hold.
        eexists; split; [reflexivity|]. rewrite Hold, Hspent. ring.
    - exists b. split; [exact Hb|]. rewrite Hold, Hspent. ring. }
  destruct Hb1 as (b1 & Hb1 & Hspent1).
  assert (Hb2 : Budget_findOne s2 u m = Some b1).
  { rewrite (find_Transaction_save _ _ _ u m Hsave). exact Hb1. }
  destruct (String.eqb (t_type t') "expense"); cbn [andb] in Hnew.
  - assert (Hwf3 : wellFormed (applyExpense s2 uid (t_date t') (t_amount t'))).
    { eapply wellFormed_ext; [apply applyExpense_transactions|apply applyExpense_nextId|exact Hwf2]. }
    split; [exact Hwf3|]. apply (inSync_exact _ _ _ Hwf3).
    rewrite find_applyExpense, Hb2.
    rewrite (liveSum_ext _ _ u m (applyExpense_transactions s2 uid (t_date t') (t_amount t'))).
    destruct (decide _) as [Hk|Hk].
    + rewrite (bool_decide_eq_true_2 _ Hk) in Hnew.
      eexists; split; [reflexivity|]. simpl. rewrite Hsum, Hnew, Hspent1. reflexivity.
    + rewrite (bool_decide_eq_false_2 _ Hk) in Hnew.
      eexists; split; [reflexivity|]. rewrite Hsum, Hnew, Hspent1. ring.
  - split; [exact Hwf2|]. apply (inSync_exact _ _ _ Hwf2).
    exists b1. split; [exact Hb2|]. rewrite Hsum, Hnew, Hspent1. ring.
Qed.

(** *** Sign of the aggregate *)

(** A lower bound that is not positive survives every request: additions are
    positive and the reversal stops at zero. *)
Lemma atLeast_apply lo s uid d a u m :
  (0 <= a)%Q -> atLeastAt lo s u m -> atLeastAt lo (applyExpense s uid d a) u m.
Proof.
  intros Ha (b & Hb & Hpos). unfold atLeastAt.
  rewrite find_applyExpense, Hb.
  destruct (decide _); eexists; (split; [reflexivity|]); simpl; lra.
Qed.

Lemma atLeast_revert lo s uid d a u m :
  (lo <= 0)%Q -> atLeastAt lo s u m -> atLeastAt lo (revertExpense s uid d a) u m.
Proof.
  intros Hlo (b & Hb & Hpos). unfold atLeastAt.
  rewrite find_revertExpense, Hb.
  destruct (decide _); eexists; (split; [reflexivity|]); simpl; [|exact Hpos].
  pose proof (clamp0_nonneg (spentSoFar b - a)). lra.
Qed.

Lemma atLeast_add lo s uid body u m :
  atLeastAt lo s u m -> atLeastAt lo (fst (addTransaction tz s uid body)) u m.
Proof.
  intros Hs. unfold addTransaction.
  destruct (_ || _); [exact Hs|].
  destruct (b_amount body) as [a|]; [|exact Hs].
  destruct (b_type body) as [ty|]; [|exact Hs].
  destruct (b_category body) as [c|]; [|exact Hs].
  destruct (b_date body) as [d|]; [|exact Hs].
  destruct (JS.leb a 0) eqn:Ha; [exact Hs|]. apply leb_gt in Ha.
  destruct (Transaction_create _ _ _ _ _ _ _ _) as [e|[s1 doc]] eqn:Hc; [exact Hs|].
  cbn [fst].
  assert (Hs1 : atLeastAt lo s1 u m).
  { destruct Hs as (b & Hb & Hpos). exists b. split; [|exact Hpos].
    rewrite (find_Transaction_create _ _ _ _ _ _ _ _ _ _ u m Hc). exact Hb. }
  destruct (String.eqb ty "expense"); [|exact Hs1].
  apply atLeast_apply; [lra|exact Hs1].
Qed.

Lemma atLeast_delete lo s uid id u m :
  (lo <= 0)%Q ->
  atLeastAt lo s u m -> atLeastAt lo (fst (deleteTransaction tz s uid id)) u m.
Proof.
  intros Hlo Hs. unfold deleteTransaction.
  destruct (Transaction_findById s id) as [t|]; [|exact Hs].
  destruct (negb _); [exact Hs|]. cbn [fst].
  change (atLeastAt lo (Transaction_deleteOne ?s1 t) u m) with (atLeastAt lo s1 u m).
  destruct (String.eqb _ _); [apply atLeast_revert; [exact Hlo|]|]; exact Hs.
Qed.

Lemma atLeast_edit lo s uid id body u m :
  (lo <= 0)%Q ->
  atLeastAt lo s u m -> atLeastAt lo (fst (updateTransaction tz s uid id body)) u m.
Proof.
  intros Hlo Hs. unfold updateTransaction.
  destruct (Transaction_findById s id) as [t|]; [|exact Hs].
  destruct (negb _); [exact Hs|].
  set (s1 := if String.eqb (t_type t) "expense"
             then revertExpense s uid (t_date t) (t_amount t) else s).
  assert (Hs1 : atLeastAt lo s1 u m).
  { unfold s1. destruct (String.eqb _ _); [apply atLeast_revert; [exact Hlo|]|]; exact Hs. }
  set (t' := updateFields t body).
  destruct (Transaction_save s1 t') as [e|s2] eqn:Hsave; [exact Hs1|]. cbn [fst].
  assert (Hs2 : atLeastAt lo s2 u m).
  { destruct Hs1 as (b & Hb & Hpos). exists b. split; [|exact Hpos].
    rewrite (find_Transaction_save _ _ _ u m Hsave). exact Hb. }
  assert (Hpos : (0 < t_amount t')%Q).
  { apply validate_amount_pos. unfold Transaction_save in Hsave.
    destruct (validateTransaction t'); [discriminate|reflexivity]. }
  destruct (String.eqb (t_type t') "expense"); [|exact Hs2].
  apply atLeast_apply; [lra|exact Hs2].
Qed.

Lemma atLeast_handle lo s r u m :
  (lo <= 0)%Q -> atLeastAt lo s u m -> atLeastAt lo (fst (handle tz s r)) u m.
Proof.
  intros Hlo Hs. destruct r as [uid body|uid id body|uid id]; simpl.
  - pose proof (atLeast_add lo s uid body u m Hs) as H.
    destruct (addTransaction tz s uid body); exact H.
  - pose proof (atLeast_edit lo s uid id body u m Hlo Hs) as H.
    destruct (updateTransaction tz s uid id body); exact H.
  - pose proof (atLeast_delete lo s uid id u m Hlo Hs) as H.
    destruct (deleteTransaction tz s uid id); exact H.
Qed.

Lemma find_delete s uid id t b :
  Transaction_findById s id = Some t -> t_user t = uid -> t_type t = "expense"%string ->
  Budget_findOne s uid (monthOf (t_date t)) = Some b ->
  Budget_findOne (fst (deleteTransaction tz s uid id)) uid (monthOf (t_date t))
  = Some (mkBudget (monthlyBudget b) (clamp0 (spentSoFar b - t_amount t))).
Proof.
  intros Hf Ho Hty Hb. unfold deleteTransaction. rewrite Hf, Ho, Nat.eqb_refl, Hty.
  cbn [negb fst String.eqb Ascii.eqb Bool.eqb].
  change (Budget_findOne (Transaction_deleteOne ?s1 t) ?u ?m) with (Budget_findOne s1 u m).
  rewrite find_revertExpense, Hb, decide_True; reflexivity.
Qed.

(** C9. No request of the Consistency Engine makes [spentSoFar] negative: the
    aggregate of a month that has one is still there after an add, an edit or
    a delete; if it was not negative before, it is not negative after; and
    when the request deletes an expense of that month, the new value is the
    old one minus the amount, clamped at zero, whatever the old value was. *)
Theorem spent_never_negative (s : Store) (r : Request) (u : nat) (m : Month) (b : Budget) :
  Budget_findOne s u m = Some b ->
  exists b',
    Budget_findOne (fst (handle tz s r)) u m = Some b'
    /\ ((0 <= spentSoFar b)%Q -> (0 <= spentSoFar b')%Q)
    /\ (forall id t,
          r = Delete u id -> Transaction_findById s id = Some t -> t_user t = u ->
          t_type t = "expense"%string -> monthOf (t_date t) = m ->
          spentSoFar b' = clamp0 (spentSoFar b - t_amount t)
          /\ (0 <= spentSoFar b')%Q).
Proof.
  intros Hb.
  set (lo := if JS.ltb (spentSoFar b) 0 then spentSoFar b else 0%Q).
  assert (Hlo : (lo <= 0)%Q).
  { unfold lo. destruct (JS.ltb _ _) eqn:E; [apply ltb_lt in E|]; lra. }
  assert (Hlob : (lo <= spentSoFar b)%Q).
  { unfold lo. destruct (JS.ltb _ _) eqn:E; [|apply ltb_ge in E]; lra. }
  destruct (atLeast_handle lo s r u m Hlo (ex_intro _ b (conj Hb Hlob))) as (b' & Hb' & _).
  exists b'. split; [exact Hb'|]. split.
  - intros Hpos.
    destruct (atLeast_handle 0 s r u m ltac:(lra) (ex_intro _ b (conj Hb Hpos)))
      as (b'' & Hb'' & Hpos'').
    congruence.
  - intros id t -> Hf Ho Hty Hm. subst m. simpl in Hb'.
    pose proof (find_delete s u id t b Hf Ho Hty Hb) as Hd.
    destruct (deleteTransaction tz s u id) as [s' res]. simpl in Hb', Hd.
    rewrite Hd in Hb'. injection Hb' as <-. simpl.
    split; [reflexivity|apply clamp0_nonneg].
Qed.

(** *** Editing the amount *)

Lemma orNum_pos a old : (0 < a)%Q -> orNum (Some a) old = a.
Proof.
  intros Ha. unfold orNum, JS.eqb.
  destruct (Qeq_bool a 0) eqn:E; [|reflexivity].
  apply Qeq_bool_iff in E. lra.
Qed.

Lemma find_edit_same_month s uid id t b body :
  Transaction_findById s id = Some t -> t_user t = uid ->
  t_type t = "expense"%string ->
  Budget_findOne s uid (monthOf (t_date t)) = Some b ->
  t_type (updateFields t body) = t_type t ->
  t_date (updateFields t body) = t_date t ->
  validateTransaction (updateFields t body) = None ->
  Budget_findOne (fst (updateTransaction tz s uid id body)) uid (monthOf (t_date t))
  = Some (mkBudget (monthlyBudget b)
            (clamp0 (spentSoFar b - t_amount t) + t_amount (updateFields t body))%Q).
Proof.
  intros Hf Ho Hty Hb Hty' Hd' Hval. unfold updateTransaction.
  rewrite Hf, Ho, Nat.eqb_refl. cbn [negb]. rewrite Hty' , Hd', Hty.
  cbn [String.eqb Ascii.eqb Bool.eqb].
  unfold Transaction_save. rewrite Hval. cbn [fst].
  rewrite find_applyExpense.
  change (Budget_findOne (setTransactions ?s1 ?l) ?u ?m) with (Budget_findOne s1 u m).
  rewrite find_revertExpense, Hb, !decide_True by reflexivity. reflexivity.
Qed.

(** C2, as amended. An accepted edit by the owner that sets a positive new
    amount on an expense and leaves its type and date as they are, in a month
    that has an aggregate.  When [spentSoFar] is at least the old amount, and
    [spentSoFar], the old amount, the new amount and the new value of
    [spentSoFar] are whole numbers that a double holds exactly, [spentSoFar]
    changes by exactly the new amount minus the old one; with other amounts
    the two steps round, see [edit_amount_rounds].  When [spentSoFar] is
    below the old amount, the reversal stops at zero and [spentSoFar] becomes
    the new amount. *)
Theorem edit_amount_delta (s : Store) (uid id : nat) (t : Transaction) (b : Budget)
    (body : Body) (a : Q) :
  Transaction_findById s id = Some t -> t_user t = uid ->
  t_type t = "expense"%string ->
  Budget_findOne s uid (monthOf (t_date t)) = Some b ->
  b_amount body = Some a -> (0 < a)%Q ->
  t_type (updateFields t body) = t_type t ->
  t_date (updateFields t body) = t_date t ->
  validateTransaction (updateFields t body) = None ->
  exists b',
    Budget_findOne (fst (updateTransaction tz s uid id body)) uid (monthOf (t_date t))
    = Some b'
    /\ ((t_amount t <= spentSoFar b)%Q ->
        JS.isSafeInteger (spentSoFar b) = true ->
        JS.isSafeInteger (t_amount t) = true ->
        JS.isSafeInteger a = true ->
        JS.isSafeInteger (spentSoFar b - t_amount t + a) = true ->
        (spentSoFar b' - spentSoFar b == a - t_amount t)%Q)
    /\ ((spentSoFar b < t_amount t)%Q -> (spentSoFar b' == a)%Q).
Proof.
  intros Hf Ho Hty Hb Ha Hpos Hty' Hd' Hval.
  rewrite (find_edit_same_month s uid id t b body Hf Ho Hty Hb Hty' Hd' Hval).
  assert (Hnew : t_amount (updateFields t body) = a).
  { unfold updateFields; simpl. rewrite Ha. apply orNum_pos, Hpos. }
  rewrite Hnew. eexists. split; [reflexivity|].
  cbn [spentSoFar]. unfold clamp0. split.
  - intros H _ _ _ _. destruct (JS.ltb _ 0) eqn:E; [apply ltb_lt in E; lra|ring].
  - intros H. destruct (JS.ltb _ 0) eqn:E; [ring|apply ltb_ge in E; lra].
Qed.

(** *** Requests in sequence *)

Lemma handle_step s r u m :
  wellFormed s -> inSync tz s u m ->
  ~ refusedEdit r (snd (handle tz s r)) ->
  wellFormed (fst (handle tz s r)) /\ inSync tz (fst (handle tz s r)) u m.
Proof.
  intros Hwf Hs Hok. destruct r as [uid body|uid id body|uid id]; simpl in *.
  - pose proof (add_step s uid body u m Hwf Hs) as H.
    destruct (addTransaction tz s uid body); exact H.
  - pose proof (edit_step s uid id body u m Hwf Hs) as H.
    destruct (updateTransaction tz s uid id body) as [s' res]. simpl in *.
    apply H. intros p msg ->. apply Hok. exact I.
  - pose proof (delete_step s uid id u m Hwf Hs) as H.
    destruct (deleteTransaction tz s uid id); exact H.
Qed.

(** In exact arithmetic, adds, edits and deletes that are served one after
    the other keep an aggregate that agrees with its ledger in agreement, as
    long as no edit among them is refused by the schema validators. *)
Lemma sync_preserved (s : Store) (u : nat) (m : Month) (rs : list Request) :
  wellFormed s -> inSync tz s u m ->
  Forall2 (fun r out => ~ refusedEdit r out) rs (snd (serve tz s rs)) ->
  wellFormed (fst (serve tz s rs)) /\ inSync tz (fst (serve tz s rs)) u m.
Proof.
  revert s. induction rs as [|r rs IH]; intros s Hwf Hs Hok; simpl in *; [auto|].
  pose proof (handle_step s r u m Hwf Hs) as Hstep.
  destruct (handle tz s r) as [s1 out]. simpl in Hstep.
  specialize (IH s1).
  destruct (serve tz s1 rs) as [s2 outs]. simpl in *.
  apply Forall2_cons in Hok as [Hr Hrs].
  destruct (Hstep Hr) as [Hwf1 Hs1]. exact (IH Hwf1 Hs1 Hrs).
Qed.

(** X2. An add whose amount is not positive is refused with status 400 and
    leaves the store as it was. *)
Lemma add_refuses_non_positive s uid body a :
  b_amount body = Some a -> (a <= 0)%Q ->
  exists message, addTransaction tz s uid body = (s, Throw (ApiError 400 message)).
Proof.
  intros Ha Hle. unfold addTransaction. rewrite Ha.
  destruct (_ || _); [eauto|].
  destruct (b_type body); [|eauto].
  destruct (b_category body); [|eauto].
  destruct (b_date body); [|eauto].
  apply leb_le in Hle. rewrite Hle. eauto.
Qed.

(** An edit by the owner that sends a negative amount and nothing else, on a
    stored expense: the validators refuse it, after step 1 has written the
    aggregate. *)
Lemma edit_refuses_negative_late s uid id t a :
  Transaction_findById s id = Some t -> t_user t = uid ->
  t_type t = "expense"%string -> validateTransaction t = None ->
  (a < 0)%Q ->
  updateTransaction tz s uid id (amountOnly a)
  = (revertExpense s uid (t_date t) (t_amount t),
     Throw (ValidationError "amount" "Amount must be greater than 0")).
Proof.
  intros Hf Ho Hty Hval Ha. unfold updateTransaction.
  rewrite Hf, Ho, Nat.eqb_refl, Hty. cbn [negb String.eqb Ascii.eqb Bool.eqb].
  unfold Transaction_save.
  assert (Hnew : updateFields t (amountOnly a)
                 = mkTransaction (t_id t) (t_user t) (t_type t) (t_category t) a
                     (t_date t) (t_note t) (t_mood t)).
  { unfold updateFields, amountOnly; simpl. f_equal.
    unfold orNum, JS.eqb. destruct (Qeq_bool a 0) eqn:E; [|reflexivity].
    apply Qeq_bool_iff in E. lra. }
  rewrite Hnew. revert Hval. unfold validateTransaction.
  cbn [t_type t_category t_amount t_mood].
  destruct (negb (inEnum (t_type t) typeEnum)); [discriminate|].
  destruct (String.eqb (t_category t) ""); [discriminate|].
  destruct (JS.ltb 0 (t_amount t)); [|discriminate]. intros _.
  assert (E : JS.ltb 0 a = false) by (apply ltb_ge; lra).
  rewrite E. reflexivity.
Qed.

(** X3. Under an aggregate that agrees with its ledger, every such refused edit
    of an expense of the month leaves the two apart. *)
Lemma refused_edit_breaks_sync s uid id t a :
  wellFormed s -> inSync tz s uid (monthOf (t_date t)) ->
  Transaction_findById s id = Some t -> t_user t = uid ->
  t_type t = "expense"%string -> (a < 0)%Q ->
  ~ inSync tz (fst (updateTransaction tz s uid id (amountOnly a))) uid (monthOf (t_date t)).
Proof.
  intros Hwf Hs Hf Ho Hty Ha.
  pose proof Hwf as (Hv & _ & _).
  destruct (find_Some_In _ _ _ Hf) as [Hin _].
  assert (Hval : validateTransaction t = None).
  { rewrite List.Forall_forall in Hv. exact (Hv t Hin). }
  rewrite (edit_refuses_negative_late s uid id t a Hf Ho Hty Hval Ha). cbn [fst].
  apply (inSync_exact _ _ _ Hwf) in Hs as (b & Hb & Hspent).
  assert (Hwf' : wellFormed (revertExpense s uid (t_date t) (t_amount t))).
  { eapply wellFormed_ext;
      [apply revertExpense_transactions|apply revertExpense_nextId|exact Hwf]. }
  intros Hs'. apply (inSync_exact _ _ _ Hwf') in Hs' as (b' & Hb' & Hspent').
  rewrite find_revertExpense, Hb, decide_True in Hb' by reflexivity.
  injection Hb' as <-. cbn [spentSoFar] in Hspent'.
  rewrite (liveSum_ext _ _ _ _ (revertExpense_transactions s uid (t_date t) (t_amount t)))
    in Hspent'.
  pose proof (validate_amount_pos t Hval) as Hpos.
  pose proof (share_le_liveSum s uid (monthOf (t_date t)) t Hwf Hin) as Hle.
  assert (Hshare : share uid (monthOf (t_date t)) t = t_amount t).
  { unfold TransactionController.share. rewrite countsFor_key, Ho, Hty.
    rewrite bool_decide_eq_true_2 by reflexivity. reflexivity. }
  rewrite Hshare in Hle.
  rewrite clamp0_id in Hspent' by (rewrite Hspent; lra).
  rewrite Hspent in Hspent'. lra.
Qed.
End ConsistencyEngine.

(** A witness of [spent_never_negative]: deleting the only expense of a
    budget in step with its ledger leaves the aggregate at zero. *)
Lemma spent_never_negative_witness :
  exists b',
    Model.Budget_findOne
      (fst (TransactionController.handle 0 Sample.syncedStore
              (TransactionController.Delete 1 1))) 1 (2024, 3) = Some b'
    /\ Model.spentSoFar b' = TransactionController.clamp0 (100 - 100)
    /\ (0 <= Model.spentSoFar b')%Q.
Proof.
  destruct (spent_never_negative 0 Sample.syncedStore (TransactionController.Delete 1 1)
              1%nat (2024, 3) (Model.mkBudget 1000 100) eq_refl)
    as (b' & Hfind & Hsign & Hdelete).
  exists b'. split; [exact Hfind|].
  exact (Hdelete 1%nat Sample.lunch eq_refl eq_refl eq_refl eq_refl eq_refl).
Defined.

(** C2, as stated, fails once the aggregate has drifted below the old
    amount.  The aggregate stands at 0 while the expense of 100 is live (the
    state that a refused edit leaves behind); the owner sets the amount to
    150, type and date unchanged; [spentSoFar] moves from 0 to 150, that is by
    150 and not by 150 - 100. *)
Lemma edit_amount_under_drift :
  Model.Transaction_findById Sample.driftedStore 1 = Some Sample.lunch
  /\ exists b b',
       Model.Budget_findOne Sample.driftedStore 1 (2024, 3) = Some b
       /\ Model.Budget_findOne
            (fst (TransactionController.updateTransaction 0 Sample.driftedStore 1 1
                    (TransactionController.amountOnly 150))) 1 (2024, 3) = Some b'
       /\ Model.spentSoFar b = 0%Q /\ Model.spentSoFar b' = 150%Q
       /\ ~ (Model.spentSoFar b' - Model.spentSoFar b
             == 150 - Model.t_amount Sample.lunch)%Q.
Proof.
  split; [vm_compute; reflexivity|].
  exists (Model.mkBudget 1000 0), (Model.mkBudget 1000 150).
  split; [vm_compute; reflexivity|].
  split; [vm_compute; reflexivity|].
  split; [reflexivity|]. split; [reflexivity|].
  vm_compute. discriminate.
Qed.

(** A witness of [edit_amount_delta]: 100 becomes 150 under an aggregate that
    agrees with the ledger. *)
Lemma edit_amount_delta_witness :
  exists b',
    Model.Budget_findOne
      (fst (TransactionController.updateTransaction 0 Sample.syncedStore 1 1
              (TransactionController.amountOnly 150))) 1 (2024, 3) = Some b'
    /\ (Model.spentSoFar b' - 100 == 150 - 100)%Q.
Proof.
  destruct (edit_amount_delta 0 Sample.syncedStore 1 1 Sample.lunch
              (Model.mkBudget 1000 100) (TransactionController.amountOnly 150) 150
              eq_refl eq_refl eq_refl eq_refl eq_refl eq_refl eq_refl eq_refl eq_refl)
    as (b' & Hfind & Hdelta & _).
  exists b'. split; [exact Hfind|].
  apply Hdelta; [vm_compute; discriminate|reflexivity..].
Defined.

Section Binary64.
Import Floats.

(** The two steps of an edit in binary64.  With 10 spent, an edit of 0.1
    into 0.3 moves [spentSoFar] by 0.20000000000000107, which is not the
    double of 0.3 - 0.1; and an add of 0.1 and one of 0.2, each deleted
    again, leave 2.7755575615628914e-17 and not 0.  With whole amounts
    nothing is rounded: 100 into 150 with 1000 spent moves it by 50. *)
Example edit_amount_rounds :
  let tenth := PrimFloat.div 1 10 in
  let fifth := PrimFloat.div 2 10 in
  let threeTenths := PrimFloat.div 3 10 in
  PrimFloat.eqb (PrimFloat.sub (Double.editAmount 10 tenth threeTenths) 10)
                (PrimFloat.sub threeTenths tenth) = false
  /\ PrimFloat.ltb 0 (Double.revert
                        (Double.revert (Double.apply (Double.apply 0 tenth) fifth) tenth)
                        fifth) = true
  /\ PrimFloat.sub (Double.editAmount 1000 100 150) 1000 = 50%float.
Proof. vm_compute. repeat split. Qed.
End Binary64.

Lemma syncedStore_wellFormed : TransactionController.wellFormed Sample.syncedStore.
Proof.
  split; [|split]; simpl.
  - constructor; [reflexivity|constructor].
  - apply NoDup_singleton.
  - constructor; [unfold Sample.lunch; simpl; lia|constructor].
Qed.

Lemma syncedStore_inSync : TransactionController.inSync 0 Sample.syncedStore 1 (2024, 3).
Proof. exists (Model.mkBudget 1000 100). split; vm_compute; reflexivity. Qed.

(** C1 at the input where the code departs from it.  The March aggregate of
    user 1 agrees with the ledger; the user sends one edit that sets the
    amount of the only expense to -5.  The validators refuse the edit and the
    ledger keeps the expense of 100, but step 1 has already taken it out of
    the aggregate, which now stands at 0. *)
Theorem sync_lost_by_refused_edit :
  TransactionController.wellFormed Sample.syncedStore
  /\ TransactionController.inSync 0 Sample.syncedStore 1 (2024, 3)
  /\ snd (TransactionController.serve 0 Sample.syncedStore
            [TransactionController.Edit 1 1 (TransactionController.amountOnly (-5 # 1))])
     = [TransactionController.Thrown
          (Model.ValidationError "amount" "Amount must be greater than 0")]
  /\ Model.transactions
       (fst (TransactionController.serve 0 Sample.syncedStore
               [TransactionController.Edit 1 1 (TransactionController.amountOnly (-5 # 1))]))
     = [Sample.lunch]
  /\ ~ TransactionController.inSync 0
        (fst (TransactionController.serve 0 Sample.syncedStore
                [TransactionController.Edit 1 1 (TransactionController.amountOnly (-5 # 1))]))
        1 (2024, 3).
Proof.
  split; [exact syncedStore_wellFormed|].
  split; [exact syncedStore_inSync|].
  split; [vm_compute; reflexivity|].
  split; [vm_compute; reflexivity|].
  intros (b & Hb & Heq).
  vm_compute in Hb. injection Hb as <-.
  vm_compute in Heq. discriminate.
Qed.

(** C5 at the inputs where the code departs from it.  An edit that sets the
    amount to -5 is refused by the schema validator, but only after the
    aggregate went from 100 to 0; the ledger is unchanged.  An edit that sets
    the amount to 0 is not refused at all: it is answered with status 200 and
    the amount stays 100. *)
Theorem edit_refused_after_aggregate_write :
  snd (TransactionController.updateTransaction 0 Sample.syncedStore 1 1
         (TransactionController.amountOnly (-5 # 1)))
  = Model.Throw (Model.ValidationError "amount" "Amount must be greater than 0")
  /\ Model.transactions
       (fst (TransactionController.updateTransaction 0 Sample.syncedStore 1 1
               (TransactionController.amountOnly (-5 # 1))))
     = Model.transactions Sample.syncedStore
  /\ option_map Model.spentSoFar
       (Model.Budget_findOne Sample.syncedStore 1 (2024, 3)) = Some 100%Q
  /\ option_map Model.spentSoFar
       (Model.Budget_findOne
          (fst (TransactionController.updateTransaction 0 Sample.syncedStore 1 1
                  (TransactionController.amountOnly (-5 # 1)))) 1 (2024, 3)) = Some 0%Q
  /\ snd (TransactionController.updateTransaction 0 Sample.syncedStore 1 1
            (TransactionController.amountOnly 0))
     = Model.Respond 200 Sample.lunch "Transaction updated successfully".
Proof. repeat split; vm_compute; reflexivity. Qed.

(** ** Budget-set *)

Section BudgetSet.
Import Model TransactionController BudgetController.

(** Whatever the aggregate held before, and whether it existed or not, a
    budget-set stores the sum over the transactions its query returns. *)
Theorem setBudget_scans (tz now : Z) (s : Store) (uid : nat) (limit : Q) :
  (0 < limit)%Q ->
  Budget_findOne (fst (setBudget tz now s uid (Some limit))) uid (getCurrentMonth tz now)
  = Some (mkBudget limit
            (JS.sumOf t_amount (expensesOfMonth tz s uid (getCurrentMonth tz now))))
  /\ transactions (fst (setBudget tz now s uid (Some limit))) = transactions s.
Proof.
  intros Hpos. unfold setBudget.
  assert (E : JS.eqb limit 0 || JS.leb limit 0 = false).
  { apply orb_false_iff. split.
    - unfold JS.eqb. destruct (Qeq_bool limit 0) eqn:E; [|reflexivity].
      apply Qeq_bool_iff in E. lra.
    - apply leb_gt. exact Hpos. }
  rewrite E. cbn [fst]. split; [|reflexivity].
  unfold Budget_findOne, Budget_save; simpl.
  destruct (budgets s !! _); apply lookup_insert_eq.
Qed.

(** On a server whose local time is UTC the query of [setBudget] returns the
    transactions whose month key is the current month. *)
Lemma window_is_month now t :
  (startDate (getCurrentMonth 0 now) <=? t)
  && (t <=? endDate 0 (getCurrentMonth 0 now))
  = bool_decide (monthOf 0 t = getCurrentMonth 0 now).
Proof.
  unfold getCurrentMonth, monthOf, endDate, startDate, JS.getFullYear, JS.getMonth,
    JS.parseDateOnly, JS.mkDate, JS.localTime. cbn [fst snd].
  rewrite !Z.add_0_r.
  destruct (JS.civil_from_days (now / JS.msPerDay)) as [[Y M] D] eqn:En.
  destruct (JS.civil_from_days (t / JS.msPerDay)) as [[y m] d] eqn:Et.
  cbn [fst snd].
  destruct (civil_in_month _ _ _ _ En) as (HM & _ & _).
  destruct (civil_in_month _ _ _ _ Et) as (Hm & _ & Hin).
  replace (M - 1 + 1) with M by lia.
  rewrite Z.div_mul by (unfold JS.msPerDay; lia).
  destruct (civil_monthStart Y M HM) as (d0 & ->). cbn [fst snd].
  replace (M - 1 + 1) with M by lia.
  rewrite MakeDay_monthStart.
  rewrite <- (monthStart_index Y M HM).
  replace (12 * Y + M) with (12 * Y + (M - 1) + 1) by lia.
  set (k := 12 * Y + (M - 1)) in *.
  assert (Hwin : monthStart k * JS.msPerDay <= t
                 <= (monthStart (k + 1) + 0 - 1) * JS.msPerDay
                    + (((23 * 60 + 59) * 60 + 59) * 1000 + 999) - 0
                 <-> monthStart k <= t / JS.msPerDay < monthStart (k + 1)).
  { rewrite <- day_bounds. lia. }
  case_bool_decide as Heq; [|rename Heq into Hne].
  - injection Heq as -> HmM. assert (m = M) by lia. subst m.
    apply andb_true_iff. rewrite Z.leb_le, Z.leb_le. apply Hwin. exact Hin.
  - apply andb_false_iff.
    destruct (Z.leb_spec (monthStart k * JS.msPerDay) t) as [H1|H1]; [|left; reflexivity].
    right. apply Z.leb_gt. apply Z.lt_nge. intros H2. apply Hne.
    assert (Hk : k = 12 * y + (m - 1)).
    { apply (monthStart_unique _ _ (t / JS.msPerDay)); [|exact Hin]. apply Hwin. lia. }
    unfold k in Hk. f_equal; lia.
Qed.

Lemma expensesOfMonth_utc now s uid :
  expensesOfMonth 0 s uid (getCurrentMonth 0 now)
  = List.filter (countsFor 0 uid (getCurrentMonth 0 now)) (transactions s).
Proof.
  unfold expensesOfMonth. apply List.filter_ext. intros t.
  unfold countsFor. rewrite <- andb_assoc, window_is_month. reflexivity.
Qed.

(** X4. On a server whose local time is UTC, a budget-set stores the exact sum
    of the user's expenses of the current month. *)
Theorem setBudget_exact_in_utc (now : Z) (s : Store) (uid : nat) (limit : Q) :
  (0 < limit)%Q ->
  Budget_findOne (fst (setBudget 0 now s uid (Some limit))) uid (getCurrentMonth 0 now)
  = Some (mkBudget limit (liveSum 0 s uid (getCurrentMonth 0 now))).
Proof.
  intros Hpos. destruct (setBudget_scans 0 now s uid limit Hpos) as [-> _].
  rewrite expensesOfMonth_utc. reflexivity.
Qed.
End BudgetSet.

(** C3 at an input where the code departs from it.  The server is five hours
    east of UTC and it is 2024-03-15 there.  User 1 has one expense of 100,
    made on 2024-03-01 at 02:00 local time; its month key is 2024-03, the
    current month.  The query of [setBudget] starts at UTC midnight, 05:00
    local time, and misses it: the new aggregate has [spentSoFar] 0. *)
Theorem setBudget_misses_first_hours :
  BudgetController.getCurrentMonth Sample.plus5 (Sample.noon 2024 3 15) = (2024, 3)
  /\ List.map (fun t => TransactionController.monthOf Sample.plus5 (Model.t_date t))
       (Model.transactions Sample.nightStore) = [(2024, 3)]
  /\ Qeq_bool (TransactionController.liveSum Sample.plus5 Sample.nightStore 1 (2024, 3))
       100 = true
  /\ option_map Model.spentSoFar
       (Model.Budget_findOne
          (fst (BudgetController.setBudget Sample.plus5 (Sample.noon 2024 3 15)
                  Sample.nightStore 1 (Some 1000%Q)))
          1 (2024, 3)) = Some 0%Q.
Proof. repeat split; vm_compute; reflexivity. Qed.

(** ** The forecast *)

Global Instance ltb_proper : Proper (Qeq ==> Qeq ==> eq) JS.ltb.
Proof. intros x x' Hx y y' Hy. unfold JS.ltb. rewrite Hx, Hy. reflexivity. Qed.

Global Instance leb_proper : Proper (Qeq ==> Qeq ==> eq) JS.leb.
Proof. intros x x' Hx y y' Hy. unfold JS.leb. rewrite Hx, Hy. reflexivity. Qed.

Global Instance round_proper : Proper (Qeq ==> eq) JS.round.
Proof. intros x x' Hx. unfold JS.round. rewrite Hx. reflexivity. Qed.

Section Forecast.
Import Model AIController ForecastSites.
Variable tz : Z.

Lemma predicted_7000 budget a :
  (spentSoFar budget == 6000)%Q -> (a == 100)%Q ->
  (predicted budget a 10 == 7000)%Q.
Proof. intros Hs Ha. unfold predicted. rewrite Hs, Ha. reflexivity. Qed.

Lemma percentage_70 budget p :
  (monthlyBudget budget == 10000)%Q -> (p == 7000)%Q ->
  (percentageOf budget p == 70)%Q.
Proof. intros Hm Hp. unfold percentageOf. rewrite Hm, Hp. reflexivity. Qed.

(** C4, as amended.  With a monthly budget of 10000, 6000 spent, a daily
    average of 100 and 10 days remaining, the predicted end-of-month expense
    is 7000 and the percentage is 70; [getForecast], whose medium tier starts
    above 60, answers "medium", and [getForecastRisk] and the forecast insight
    of the dashboard, whose medium tier starts above 75, answer "low". *)
Theorem forecast_tiers (now : Z) (s : Store) (user : User) (budget : Budget) :
  prefers user pref_forecast = true ->
  Budget_findOne s (u_id user) (getCurrentMonth tz now) = Some budget ->
  (monthlyBudget budget == 10000)%Q -> (spentSoFar budget == 6000)%Q ->
  expensesSince s (u_id user) (daysAgo tz now 30) <> [] ->
  (JS.sumOf t_amount (expensesSince s (u_id user) (daysAgo tz now 30)) / 30 == 100)%Q ->
  getRemainingDays tz now = 10 ->
  (exists f,
      getForecast tz now s user = Respond 200 (Some f) "Forecast generated successfully"
      /\ dailyAverage f = 100 /\ remainingDays f = 10
      /\ predictedExpenses f = 7000 /\ riskLevel f = "medium"%string)
  /\ (percentageOf budget (predicted budget 100 10) == 70)%Q
  /\ getForecastRisk tz now s (u_id user) (Some budget) = "low"%string
  /\ (exists i, forecastInsight tz now s user = [i] /\ i_severity i = "low"%string).
Proof.
  intros Hpref Hb Hm Hs Hne Havg Hdays.
  assert (Hlen : Nat.eqb (length (expensesSince s (u_id user) (daysAgo tz now 30))) 0 = false).
  { destruct (expensesSince _ _ _); [contradiction|reflexivity]. }
  assert (Hp : (predicted budget 100 10 == 7000)%Q) by (apply predicted_7000; [exact Hs|reflexivity]).
  assert (Hpct : (percentageOf budget (predicted budget 100 10) == 70)%Q)
    by (apply percentage_70; assumption).
  assert (Hround : JS.round (JS.sumOf t_amount (expensesSince s (u_id user) (daysAgo tz now 30)) / 30) = 100).
  { rewrite Havg. reflexivity. }
  split; [|split; [exact Hpct|split]].
  - unfold getForecast. rewrite Hpref, Hb, Hlen, Hround, Hdays. cbn [negb].
    change (inject_Z 100) with 100%Q.
    eexists. split; [reflexivity|]. cbn [dailyAverage remainingDays predictedExpenses riskLevel].
    split; [reflexivity|]. split; [reflexivity|].
    split; [rewrite Hp; reflexivity|rewrite !Hpct; reflexivity].
  - unfold getForecastRisk. rewrite Hlen, Hdays.
    assert (Hp' : (predicted budget (JS.sumOf t_amount (expensesSince s (u_id user) (daysAgo tz now 30)) / 30) 10 == 7000)%Q)
      by (apply predicted_7000; assumption).
    rewrite !(percentage_70 budget _ Hm Hp'). reflexivity.
  - unfold forecastInsight. unfold prefers in Hpref.
    destruct (aiPreferences user) as [prefs|]; [|discriminate].
    rewrite Hpref, Hb.
    assert (Hmb : JS.ltb 0 (monthlyBudget budget) = true) by (rewrite Hm; reflexivity).
    rewrite Hmb.
    assert (Hlen' : (0 <? length (expensesSince s (u_id user) (daysAgo tz now 30)))%nat = true).
    { destruct (expensesSince _ _ _); [contradiction|reflexivity]. }
    rewrite Hlen', Hdays.
    assert (Hp' : (predicted budget (JS.sumOf t_amount (expensesSince s (u_id user) (daysAgo tz now 30)) / 30) 10 == 7000)%Q)
      by (apply predicted_7000; assumption).
    pose proof (percentage_70 budget _ Hm Hp') as Hpct'.
    match type of Hpct' with (?x == _)%Q => set (pc := x) in * end.
    assert (H100 : JS.ltb 100 pc = false) by (rewrite Hpct'; reflexivity).
    assert (H75 : JS.ltb 75 pc = false) by (rewrite Hpct'; reflexivity).
    rewrite H100, H75. eexists. split; reflexivity.
Qed.
End Forecast.

(** C4, as stated, fails: at 70 percent the site with the 60 percent
    threshold does not answer "low" and a site with the 75 percent threshold
    does not answer "medium"; and the two sites do not give the same tier. *)
Lemma forecast_tiers_not_as_stated :
  exists f,
    AIController.getForecast 0 (Sample.noon 2024 3 21) Sample.forecastStore Sample.alice
    = Model.Respond 200 (Some f) "Forecast generated successfully"
    /\ AIController.f_monthlyBudget f = 10000%Q /\ AIController.f_spentSoFar f = 6000%Q
    /\ AIController.dailyAverage f = 100 /\ AIController.remainingDays f = 10
    /\ AIController.riskLevel f <> "low"%string
    /\ ForecastSites.getForecastRisk 0 (Sample.noon 2024 3 21) Sample.forecastStore 1
         (Some (Model.mkBudget 10000 6000)) <> "medium"%string
    /\ AIController.riskLevel f
       <> ForecastSites.getForecastRisk 0 (Sample.noon 2024 3 21) Sample.forecastStore 1
            (Some (Model.mkBudget 10000 6000)).
Proof.
  eexists. split; [vm_compute; reflexivity|].
  repeat split; vm_compute; discriminate || reflexivity.
Qed.

(** A witness of [forecast_tiers]. *)
Lemma forecast_tiers_witness :
  (exists f,
      AIController.getForecast 0 (Sample.noon 2024 3 21) Sample.forecastStore Sample.alice
      = Model.Respond 200 (Some f) "Forecast generated successfully"
      /\ AIController.dailyAverage f = 100 /\ AIController.remainingDays f = 10
      /\ AIController.predictedExpenses f = 7000
      /\ AIController.riskLevel f = "medium"%string)
  /\ (AIController.percentageOf (Model.mkBudget 10000 6000)
        (AIController.predicted (Model.mkBudget 10000 6000) 100 10) == 70)%Q
  /\ ForecastSites.getForecastRisk 0 (Sample.noon 2024 3 21) Sample.forecastStore 1
       (Some (Model.mkBudget 10000 6000)) = "low"%string
  /\ (exists i,
        ForecastSites.forecastInsight 0 (Sample.noon 2024 3 21) Sample.forecastStore
          Sample.alice = [i]
        /\ ForecastSites.i_severity i = "low"%string).
Proof.
  apply (forecast_tiers 0 (Sample.noon 2024 3 21) Sample.forecastStore Sample.alice
           (Model.mkBudget 10000 6000)).
  - reflexivity.
  - reflexivity.
  - reflexivity.
  - reflexivity.
  - vm_compute. discriminate.
  - vm_compute. reflexivity.
  - vm_compute. reflexivity.
Defined.

(** ** Personality *)

Section PersonalityRules.
Import Model AIController.
Variable tz : Z.

(** C6. The rules of the personality classification are tried in order and
    the first that matches decides: whenever the expenses of the last 90 days
    are at least 5, lie in more than 5 distinct categories and come at more
    than 10 a week, [getPersonality] (for a user who has the feature on) and
    [determinePersonality] answer "Impulsive Spender", whatever the later
    rules would say of the same data. *)
Theorem impulsive_wins (now : Z) (s : Store) (user : User) :
  prefers user pref_personality = true ->
  (5 <= length (expensesSince s (u_id user) (daysAgo tz now 90)))%nat ->
  (5 < length (unique (List.map t_category
                         (expensesSince s (u_id user) (daysAgo tz now 90)))))%nat ->
  (10 < txnsPerWeek (expensesSince s (u_id user) (daysAgo tz now 90)))%Q ->
  (exists p,
      getPersonality tz now s user
      = Respond 200 (Some p) "Personality detected successfully"
      /\ p_type p = "Impulsive Spender"%string)
  /\ determinePersonality tz now s (u_id user) = Some "Impulsive Spender"%string.
Proof.
  intros Hpref Hlen Hcats Hweek.
  apply Nat.ltb_ge in Hlen. apply Nat.ltb_lt in Hcats. apply ltb_lt in Hweek.
  split.
  - unfold getPersonality. rewrite Hpref, Hlen, Hcats, Hweek. cbn [negb andb].
    eexists. split; reflexivity.
  - unfold determinePersonality. rewrite Hlen, Hcats, Hweek. reflexivity.
Qed.
End PersonalityRules.

(** A witness of [impulsive_wins]: 126 expenses in six categories, of which
    Food takes 40 percent, so that the rule of the Foodie Spender matches as
    well. *)
Lemma impulsive_wins_witness :
  AIController.foodOver30
    (AIController.percentages
       (AIController.expensesSince Sample.busyStore 1
          (AIController.daysAgo 0 (Sample.noon 2024 3 21) 90))) = true
  /\ (exists p,
        AIController.getPersonality 0 (Sample.noon 2024 3 21) Sample.busyStore Sample.alice
        = Model.Respond 200 (Some p) "Personality detected successfully"
        /\ AIController.p_type p = "Impulsive Spender"%string)
  /\ AIController.determinePersonality 0 (Sample.noon 2024 3 21) Sample.busyStore 1
     = Some "Impulsive Spender"%string.
Proof.
  split; [vm_compute; reflexivity|].
  apply (impulsive_wins 0 (Sample.noon 2024 3 21) Sample.busyStore Sample.alice).
  - reflexivity.
  - vm_compute. lia.
  - vm_compute. lia.
  - vm_compute. reflexivity.
Defined.

(** ** Challenges *)

Section Challenges.
Import Model AIController.

Lemma floor_index_bounds (r : Q) (n : nat) :
  (0 <= r)%Q -> (r < 1)%Q -> (0 < n)%nat ->
  0 <= JS.floor (r * inject_Z (Z.of_nat n)) < Z.of_nat n.
Proof.
  intros H0 H1 Hn. unfold JS.floor.
  assert (Hn' : (0 < inject_Z (Z.of_nat n))%Q).
  { change 0%Q with (inject_Z 0). rewrite <- Zlt_Qlt. lia. }
  split.
  - change 0 with (Qfloor 0). apply Qfloor_resp_le. nra.
  - rewrite Zlt_Qlt. eapply Qle_lt_trans; [apply Qfloor_le|]. nra.
Qed.

Lemma pick_some (r : Q) (pool : list Template) :
  (0 <= r)%Q -> (r < 1)%Q -> pool <> [] ->
  exists t, pick r pool = Some t /\ In t pool.
Proof.
  intros H0 H1 Hne. unfold pick, JS.index.
  assert (Hlen : (0 < length pool)%nat) by (destruct pool; [contradiction|simpl; lia]).
  destruct (floor_index_bounds r (length pool) H0 H1 Hlen) as [Hlo Hhi].
  destruct (Z.ltb_spec (JS.floor (r * inject_Z (Z.of_nat (length pool)))) 0); [lia|].
  destruct (nth_error pool _) as [t|] eqn:E.
  - exists t. split; [reflexivity|]. eapply nth_error_In, E.
  - apply nth_error_None in E. lia.
Qed.

(** Under a key of its own the repository holds a pool with a template in
    it, or nothing. *)
Lemma challengePool_nonempty cat pool :
  JS.ownKey cat = true -> challengePool cat = Some pool -> pool <> [].
Proof.
  intros Hown. unfold challengePool.
  repeat (destruct (String.eqb cat _); [intros [= <-]; discriminate|]).
  rewrite Hown. discriminate.
Qed.

(** What the repository inherits has no template at any index. *)
Lemma pick_empty (r : Q) : pick r [] = None.
Proof.
  unfold pick, JS.index. destruct (_ <? 0); [reflexivity|].
  destruct (Z.to_nat _); reflexivity.
Qed.

Section Run.
Variable random : nat -> Q.
Hypothesis random_unit : forall k, (0 <= random k)%Q /\ (random k < 1)%Q.

Lemma pushCategoryChallenge_ok totals challenges calls idCounter cat :
  JS.ownKey cat = true ->
  exists challenges' calls' idCounter',
    pushCategoryChallenge random totals (inr (challenges, calls, idCounter)) cat
    = inr (challenges', calls', idCounter')
    /\ (length challenges <= length challenges' <= S (length challenges))%nat.
Proof.
  intros Hown. unfold pushCategoryChallenge.
  destruct (challengePool cat) as [pool|] eqn:Hpool.
  - destruct (random_unit calls) as [H0 H1].
    destruct (pick_some (random calls) pool H0 H1 (challengePool_nonempty _ _ Hown Hpool))
      as (t & -> & _).
    do 3 eexists. split; [reflexivity|]. rewrite length_app. simpl. lia.
  - do 3 eexists. split; [reflexivity|]. lia.
Qed.

Lemma fold_pushCategoryChallenge_ok totals cats challenges calls idCounter :
  List.Forall (fun cat => JS.ownKey cat = true) cats ->
  exists challenges' calls' idCounter',
    fold_left (pushCategoryChallenge random totals) cats (inr (challenges, calls, idCounter))
    = inr (challenges', calls', idCounter')
    /\ (length challenges <= length challenges' <= length challenges + length cats)%nat.
Proof.
  intros Hown. revert challenges calls idCounter.
  induction Hown as [|cat cats Hcat _ IH]; intros challenges calls idCounter;
    cbn [fold_left length].
  - do 3 eexists. split; [reflexivity|]. lia.
  - destruct (pushCategoryChallenge_ok totals challenges calls idCounter cat Hcat)
      as (c1 & k1 & i1 & -> & Hlen1).
    destruct (IH c1 k1 i1) as (c2 & k2 & i2 & -> & Hlen2).
    do 3 eexists. split; [reflexivity|]. lia.
Qed.

Lemma fillGeneral_ok challenges calls idCounter :
  exists challenges' calls' idCounter',
    fillGeneral random (challenges, calls, idCounter)
    = inr (challenges', calls', idCounter')
    /\ ((length challenges < 2)%nat ->
        exists g t,
          challenges' = challenges ++ [g]
          /\ expectedSave g = 500 /\ difficulty g = "Easy"%string
          /\ challengePool "General" = Some t
          /\ exists tpl, In tpl t /\ c_title g = tp_title tpl)
    /\ ((2 <= length challenges)%nat -> challenges' = challenges).
Proof.
  unfold fillGeneral.
  destruct (Nat.ltb_spec (length challenges) 2) as [Hlt|Hge].
  - destruct (challengePool "General") as [pool|] eqn:Hpool; [|discriminate].
    destruct (random_unit calls) as [H0 H1].
    destruct (pick_some (random calls) pool H0 H1
                (challengePool_nonempty "General" pool eq_refl Hpool))
      as (t & -> & Hin).
    do 3 eexists. split; [reflexivity|]. split; [|lia].
    intros _. do 2 eexists. split; [reflexivity|]. repeat split. eauto.
  - do 3 eexists. split; [reflexivity|]. split; [lia|]. reflexivity.
Qed.

End Run.

(** C10 at an input where the code departs from it.  User 1 has one expense
    of the last 30 days, and its category is named "constructor".  The read
    [challengePool["constructor"]] finds the function that every object
    inherits, the guard [if (catChallenges)] lets it pass, no index of it
    holds a template, and [challenge.title] throws: whatever [Math.random()]
    returns, [getChallenges] sends no list of challenges. *)
Theorem challenges_throw_on_inherited_name (random : nat -> Q) :
  JS.ownKey "constructor" = false
  /\ getChallenges 0 random (Sample.noon 2024 3 20) Sample.constructorStore 1
     = Throw (TypeError "Cannot read properties of undefined (reading 'title')").
Proof.
  split; [reflexivity|].
  unfold getChallenges.
  change (expensesSince Sample.constructorStore 1 (daysAgo 0 (Sample.noon 2024 3 20) 30))
    with (transactions Sample.constructorStore).
  change (categoryTotals (transactions Sample.constructorStore))
    with [("constructor"%string, 100%Q)].
  cbn [JS.sort fold_right JS.sortInsert firstn List.map fst].
  unfold categoryChallenges. cbn [fold_left].
  unfold pushCategoryChallenge.
  change (challengePool "constructor") with (Some (@nil Template)).
  cbv iota beta. rewrite pick_empty. reflexivity.
Qed.
End Challenges.

(** ** Alerts *)

Section BudgetAlerts.
Import Model AlertService.
Variable tz : Z.

Lemma filter_all {A : Type} (f : A -> bool) (l : list A) :
  (forall x, f x = true) -> List.filter f l = l.
Proof.
  intros H. induction l as [|x l IH]; simpl; [reflexivity|]. rewrite H, IH. reflexivity.
Qed.

(** What one run stores, for a usage of at least 50 percent: the alerts that
    the month filter left, and one new budget alert. *)
Lemma generateBudgetAlerts_alerts strictQuery now s uid budget :
  Budget_findOne s uid (getCurrentMonth tz now) = Some budget ->
  JS.eqb (monthlyBudget budget) 0 = false ->
  (50 <= usageOf budget)%Q ->
  exists a,
    a_user a = uid /\ a_type a = "budget"%string
    /\ alerts (generateBudgetAlerts tz strictQuery now s uid)
       = List.filter
           (fun a => negb (Nat.eqb (a_user a) uid && String.eqb (a_type a) "budget"
                           && metadataMonthIs strictQuery (getCurrentMonth tz now) a))
           (alerts s) ++ [a]
    /\ budgets (generateBudgetAlerts tz strictQuery now s uid) = budgets s.
Proof.
  intros Hb Hmb Huse. unfold generateBudgetAlerts. rewrite Hb, Hmb.
  fold (usageOf budget). apply leb_le in Huse.
  destruct (JS.leb 100 (usageOf budget));
    [|destruct (JS.leb 90 (usageOf budget));
      [|destruct (JS.leb 75 (usageOf budget)); [|rewrite Huse]]];
    (eexists; (split; [|split; [|split]]);
     [..|reflexivity]; [..|reflexivity]; reflexivity).
Qed.

Lemma budgetAlertsOf_app s uid (l : list Alert) a :
  alerts s = l ++ [a] -> a_user a = uid -> a_type a = "budget"%string ->
  budgetAlertsOf s uid
  = List.filter (fun a => Nat.eqb (a_user a) uid && String.eqb (a_type a) "budget") l ++ [a].
Proof.
  intros Hs Hu Ht. unfold budgetAlertsOf. rewrite Hs, List.filter_app. simpl.
  rewrite Hu, Ht, Nat.eqb_refl. reflexivity.
Qed.

(** X5. With [strictQuery] off, the filter on [metadata.month] matches no stored
    alert, and each run adds a budget alert to those already there. *)
Theorem budget_alerts_pile_up (now : Z) (s : Store) (uid : nat) (budget : Budget) :
  Budget_findOne s uid (getCurrentMonth tz now) = Some budget ->
  JS.eqb (monthlyBudget budget) 0 = false ->
  (50 <= usageOf budget)%Q ->
  exists a,
    budgetAlertsOf (generateBudgetAlerts tz false now s uid) uid
    = budgetAlertsOf s uid ++ [a].
Proof.
  intros Hb Hmb Huse.
  destruct (generateBudgetAlerts_alerts false now s uid budget Hb Hmb Huse)
    as (a & Hu & Ht & Ha & _).
  exists a. rewrite (budgetAlertsOf_app _ uid _ a Ha Hu Ht).
  rewrite (filter_all
             (fun a => negb (Nat.eqb (a_user a) uid && String.eqb (a_type a) "budget"
                             && metadataMonthIs false (getCurrentMonth tz now) a)));
    [reflexivity|].
  intros x. unfold metadataMonthIs, storedMonth.
  rewrite bool_decide_eq_false_2 by discriminate. rewrite andb_false_r. reflexivity.
Qed.

(** X6. With [strictQuery] on, the condition on [metadata.month] is dropped, a
    run removes every budget alert of the user, and one is left. *)
Theorem budget_alert_single_strict (now : Z) (s : Store) (uid : nat) (budget : Budget) :
  Budget_findOne s uid (getCurrentMonth tz now) = Some budget ->
  JS.eqb (monthlyBudget budget) 0 = false ->
  (50 <= usageOf budget)%Q ->
  length (budgetAlertsOf (generateBudgetAlerts tz true now s uid) uid) = 1%nat.
Proof.
  intros Hb Hmb Huse.
  destruct (generateBudgetAlerts_alerts true now s uid budget Hb Hmb Huse)
    as (a & Hu & Ht & Ha & _).
  rewrite (budgetAlertsOf_app _ uid _ a Ha Hu Ht).
  rewrite length_app.
  assert (Hnone : List.filter
            (fun a => Nat.eqb (a_user a) uid && String.eqb (a_type a) "budget")
            (List.filter
               (fun a => negb (Nat.eqb (a_user a) uid && String.eqb (a_type a) "budget"
                               && metadataMonthIs true (getCurrentMonth tz now) a))
               (alerts s)) = []).
  { clear Ha. induction (alerts s) as [|x l IH]; simpl; [reflexivity|].
    rewrite andb_true_r.
    destruct (Nat.eqb (a_user x) uid && String.eqb (a_type x) "budget") eqn:E; simpl.
    - exact IH.
    - rewrite E. exact IH. }
  rewrite Hnone. reflexivity.
Qed.
End BudgetAlerts.

(** C7 at the input where the code departs from it, with [strictQuery] off.
    The March budget of user 1 is used at 60 percent and no alert is stored.
    Two runs of [generateBudgetAlerts] in a row, the budget unchanged, leave
    two alerts of type "budget" for the user: the month that the first run put
    in the metadata was not stored, so the second run finds nothing to
    delete. *)
Theorem budget_alert_duplicated :
  length
    (AlertService.budgetAlertsOf
       (AlertService.generateBudgetAlerts 0 false (Sample.noon 2024 3 15)
          (AlertService.generateBudgetAlerts 0 false (Sample.noon 2024 3 15)
             Sample.usedStore 1) 1) 1) = 2%nat
  /\ List.map AlertService.storedMonth
       (Model.alerts
          (AlertService.generateBudgetAlerts 0 false (Sample.noon 2024 3 15)
             Sample.usedStore 1)) = [None]
  /\ List.map Model.a_message
       (Model.alerts
          (AlertService.generateBudgetAlerts 0 false (Sample.noon 2024 3 15)
             (AlertService.generateBudgetAlerts 0 false (Sample.noon 2024 3 15)
                Sample.usedStore 1) 1))
     = ["You have used 60% of your monthly budget.";
        "You have used 60% of your monthly budget."]%string.
Proof. repeat split; vm_compute; reflexivity. Qed.

(** *** Grouping by category *)

Section Grouping.
Import Model AIController AlertService.

Lemma addTotal_lookup cat a l c :
  lookupTotal c (addTotal cat a l)
  = if String.eqb cat c
    then Some (match lookupTotal cat l with Some v => v + a | None => 0 + a end)%Q
    else lookupTotal c l.
Proof.
  induction l as [|[k v] l IH]; simpl.
  - destruct (String.eqb cat c); reflexivity.
  - destruct (String.eqb_spec k cat) as [->|Hk]; simpl.
    + destruct (String.eqb cat c); reflexivity.
    + rewrite IH. destruct (String.eqb_spec cat c) as [->|Hc].
      * apply String.eqb_neq in Hk. rewrite Hk. reflexivity.
      * destruct (String.eqb k c); reflexivity.
Qed.

Lemma addTotal_keys cat a l :
  List.map fst (addTotal cat a l)
  = if existsb (fun k => String.eqb k cat) (List.map fst l)
    then List.map fst l else List.map fst l ++ [cat].
Proof.
  induction l as [|[k v] l IH]; simpl; [reflexivity|].
  destruct (String.eqb k cat); simpl; [reflexivity|].
  rewrite IH. destruct (existsb _ _); reflexivity.
Qed.

Lemma addTotal_NoDup cat a l :
  NoDup (List.map fst l) -> NoDup (List.map fst (addTotal cat a l)).
Proof.
  intros Hnd. rewrite addTotal_keys.
  destruct (existsb _ _) eqn:E; [exact Hnd|].
  apply NoDup_app. split; [exact Hnd|]. split; [|apply NoDup_singleton].
  intros x Hx ->%list_elem_of_singleton.
  apply not_true_iff_false in E. apply E, existsb_exists.
  exists cat. split; [apply list_elem_of_In, Hx|apply String.eqb_refl].
Qed.

Lemma categoryTotals_NoDup_from l acc :
  NoDup (List.map fst acc) ->
  NoDup (List.map fst
           (fold_left (fun totals t => addTotal (t_category t) (t_amount t) totals) l acc)).
Proof.
  revert acc. induction l as [|t l IH]; intros acc Hnd; simpl; [exact Hnd|].
  apply IH, addTotal_NoDup, Hnd.
Qed.

Lemma categoryTotals_NoDup l : NoDup (List.map fst (categoryTotals l)).
Proof. apply categoryTotals_NoDup_from. constructor. Qed.

Lemma categoryTotal_cons c t l :
  (categoryTotal c (t :: l)
   == (if String.eqb (t_category t) c then t_amount t else 0) + categoryTotal c l)%Q.
Proof.
  unfold categoryTotal. simpl.
  destruct (String.eqb (t_category t) c); [rewrite sumOf_cons; reflexivity|ring].
Qed.

(** What the fold holds for a category: what it held, plus the total of the
    category over the transactions folded in. *)
Lemma categoryTotals_lookup_from c l acc :
  match lookupTotal c (fold_left (fun totals t => addTotal (t_category t) (t_amount t) totals)
                                 l acc) with
  | Some v =>
      (v == match lookupTotal c acc with Some v0 => v0 | None => 0 end
            + categoryTotal c l)%Q
  | None =>
      lookupTotal c acc = None
      /\ List.filter (fun t => String.eqb (t_category t) c) l = []
  end.
Proof.
  revert acc. induction l as [|t l IH]; intros acc; cbn [fold_left].
  - destruct (lookupTotal c acc) as [v|]; [|split; reflexivity].
    unfold categoryTotal. simpl. rewrite sumOf_nil. ring.
  - specialize (IH (addTotal (t_category t) (t_amount t) acc)).
    rewrite addTotal_lookup in IH.
    destruct (lookupTotal c (fold_left _ l _)) as [v|].
    + rewrite IH, categoryTotal_cons.
      destruct (String.eqb_spec (t_category t) c) as [->|Hne]; [|ring].
      destruct (lookupTotal c acc); ring.
    + destruct IH as [Hacc Hl]. simpl.
      destruct (String.eqb (t_category t) c); [discriminate|]. split; assumption.
Qed.

Lemma categoryTotals_lookup c l :
  match lookupTotal c (categoryTotals l) with
  | Some v => (v == categoryTotal c l)%Q
  | None => List.filter (fun t => String.eqb (t_category t) c) l = []
  end.
Proof.
  pose proof (categoryTotals_lookup_from c l []) as H. fold (categoryTotals l) in H.
  destruct (lookupTotal c (categoryTotals l)) as [v|].
  - rewrite H. simpl. ring.
  - exact (proj2 H).
Qed.

Lemma lookupTotal_In c v (l : list (string * Q)) :
  lookupTotal c l = Some v -> In (c, v) l.
Proof.
  induction l as [|[k v'] l IH]; simpl; [discriminate|].
  destruct (String.eqb_spec k c) as [->|Hne].
  - intros [= ->]. left. reflexivity.
  - intros H. right. exact (IH H).
Qed.

(** With distinct keys, the map built by assignment holds what the list
    holds, under every key but "__proto__". *)
Lemma toMap_lookup_from c (l : list (string * Q)) (m : gmap string Q) :
  NoDup (List.map fst l) -> c <> "__proto__"%string ->
  fold_left
    (fun m e => if String.eqb (fst e) "__proto__" then m else <[fst e := snd e]> m) l m
  !! c
  = match lookupTotal c l with Some v => Some v | None => m !! c end.
Proof.
  intros Hnd Hc. revert m Hnd.
  induction l as [|[k v] l IH]; intros m Hnd; simpl; [reflexivity|].
  apply NoDup_cons in Hnd as [Hk Hnd]. rewrite (IH _ Hnd).
  destruct (String.eqb_spec k c) as [->|Hne]; simpl.
  - destruct (lookupTotal c l) as [v'|] eqn:E.
    + exfalso. apply Hk, list_elem_of_In, in_map_iff.
      exists (c, v'). split; [reflexivity|apply lookupTotal_In, E].
    + destruct (String.eqb_spec c "__proto__"); [contradiction|].
      apply lookup_insert_eq.
  - destruct (lookupTotal c l); [reflexivity|].
    destruct (String.eqb k "__proto__"); [reflexivity|]. apply lookup_insert_ne, Hne.
Qed.

Lemma toMap_lookup c (l : list (string * Q)) :
  NoDup (List.map fst l) -> c <> "__proto__"%string -> toMap l !! c = lookupTotal c l.
Proof.
  intros Hnd Hc. unfold toMap. rewrite (toMap_lookup_from c l ∅ Hnd Hc).
  destruct (lookupTotal c l); [reflexivity|apply lookup_empty].
Qed.

(** No assignment gives the map an entry under "__proto__". *)
Lemma toMap_proto (l : list (string * Q)) : toMap l !! "__proto__"%string = None.
Proof.
  unfold toMap.
  assert (H : forall m : gmap string Q,
             m !! "__proto__"%string = None ->
             fold_left
               (fun m e => if String.eqb (fst e) "__proto__" then m
                           else <[fst e := snd e]> m) l m
             !! "__proto__"%string = None).
  { induction l as [|[k v] l IH]; intros m Hm; simpl; [exact Hm|].
    apply IH. destruct (String.eqb_spec k "__proto__") as [->|Hne]; [exact Hm|].
    rewrite lookup_insert_ne by exact Hne. exact Hm. }
  apply H, lookup_empty.
Qed.

Lemma lastWeekAmountOf_proto (l : list (string * Q)) :
  lastWeekAmountOf (toMap l) "__proto__" = None.
Proof. unfold lastWeekAmountOf. rewrite toMap_proto. reflexivity. Qed.

(** Under any other name, [lastWeekMap[category] || 0] is the total of the
    category over the transactions of the week before, or, for a category
    without a transaction in that week, a member that every object
    inherits. *)
Lemma lastWeekAmountOf_total c l :
  c <> "__proto__"%string ->
  match lastWeekAmountOf (toMap (groupByCategory l)) c with
  | Some v => (v == categoryTotal c l)%Q
  | None => (categoryTotal c l == 0)%Q
  end.
Proof.
  intros Hc. unfold lastWeekAmountOf, groupByCategory.
  rewrite (toMap_lookup c _ (categoryTotals_NoDup l) Hc).
  pose proof (categoryTotals_lookup c l) as H.
  destruct (lookupTotal c (categoryTotals l)) as [v|]; simpl.
  - unfold JS.eqb. destruct (Qeq_bool v 0) eqn:E; [|exact H].
    apply Qeq_bool_iff in E. rewrite <- H, E. reflexivity.
  - unfold categoryTotal. rewrite H.
    destruct (JS.ownKey c); reflexivity.
Qed.

(** A category that occurs has its entry, with its total, in the list that
    the grouping returns. *)
Lemma groupByCategory_entry c l :
  In c (List.map t_category l) ->
  exists v, In (c, v) (groupByCategory l) /\ (v == categoryTotal c l)%Q.
Proof.
  intros Hin. unfold groupByCategory.
  pose proof (categoryTotals_lookup c l) as H.
  destruct (lookupTotal c (categoryTotals l)) as [v|] eqn:E.
  - exists v. split; [apply lookupTotal_In, E|exact H].
  - exfalso. apply in_map_iff in Hin as (t & Ht & Hin).
    assert (Hf : In t (List.filter (fun t => String.eqb (t_category t) c) l)).
    { apply filter_In. split; [exact Hin|]. rewrite Ht. apply String.eqb_refl. }
    rewrite H in Hf. contradiction.
Qed.
End Grouping.

Section TrendAlerts.
Import Model AlertService.

Global Instance eqb_proper : Proper (Qeq ==> Qeq ==> eq) JS.eqb.
Proof.
  intros x x' Hx y y' Hy. unfold JS.eqb.
  destruct (Qeq_bool x y) eqn:E; symmetry.
  - apply Qeq_bool_iff in E. apply Qeq_bool_iff. rewrite <- Hx, <- Hy. exact E.
  - apply not_true_iff_false. intros E'%Qeq_bool_iff.
    apply not_true_iff_false in E. apply E, Qeq_bool_iff. rewrite Hx, Hy. exact E'.
Qed.

Lemma trendMessage_round category p q :
  JS.round p = JS.round q -> trendMessage category p = trendMessage category q.
Proof. intros H. unfold trendMessage. rewrite H. reflexivity. Qed.

(** An iteration leaves the store as it is or appends one trend alert, and
    this only for a category with a baseline. *)
Lemma checkIncrease_cases now userId lastWeekMap s cat :
  checkIncrease now userId lastWeekMap s cat = s
  \/ (exists lastWeekAmount,
        lastWeekAmountOf lastWeekMap (fst cat) = Some lastWeekAmount
        /\ JS.eqb lastWeekAmount 0 = false)
     /\ exists severity message percentage,
          alerts (checkIncrease now userId lastWeekMap s cat)
          = alerts s
            ++ [newAlert now (castUser userId) "trend" severity message
                  (castMetadata (mkMetadataFields None None (Some (fst cat))
                                                  (Some percentage)))].
Proof.
  unfold checkIncrease.
  destruct (lastWeekAmountOf lastWeekMap (fst cat)) as [v|]; [|left; reflexivity].
  destruct (JS.eqb v 0) eqn:E; [left; reflexivity|].
  destruct (JS.leb 20 _); [|left; reflexivity].
  right. split; [exists v; split; [reflexivity|exact E]|]. do 3 eexists. reflexivity.
Qed.

Lemma checkIncrease_keeps now userId lastWeekMap s cat a :
  In a (alerts s) -> In a (alerts (checkIncrease now userId lastWeekMap s cat)).
Proof.
  intros Hin.
  destruct (checkIncrease_cases now userId lastWeekMap s cat)
    as [->|(_ & sev & msg & pct & ->)]; [exact Hin|].
  apply in_or_app. left. exact Hin.
Qed.

Lemma fold_checkIncrease_keeps now userId lastWeekMap l s a :
  In a (alerts s) ->
  In a (alerts (fold_left (checkIncrease now userId lastWeekMap) l s)).
Proof.
  revert s. induction l as [|cat l IH]; intros s Hin; cbn [fold_left]; [exact Hin|].
  apply IH, checkIncrease_keeps, Hin.
Qed.

(** From 1000 to 1500. *)
Lemma checkIncrease_high now userId lastWeekMap s cat lastWeekAmount :
  lastWeekAmountOf lastWeekMap (fst cat) = Some lastWeekAmount ->
  (lastWeekAmount == 1000)%Q -> (snd cat == 1500)%Q ->
  alerts (checkIncrease now userId lastWeekMap s cat)
  = alerts s
    ++ [newAlert now (castUser userId) "trend" "high" (trendMessage (fst cat) 50)
          (castMetadata (mkMetadataFields None None (Some (fst cat)) (Some 50)))].
Proof.
  intros Hmap Hlast Hthis. unfold checkIncrease. rewrite Hmap.
  set (inc := ((snd cat - lastWeekAmount) / lastWeekAmount * 100)%Q).
  assert (Hinc : (inc == 50)%Q) by (unfold inc; rewrite Hlast, Hthis; reflexivity).
  assert (E0 : JS.eqb lastWeekAmount 0 = false) by (rewrite Hlast; reflexivity).
  assert (E20 : JS.leb 20 inc = true) by (rewrite Hinc; reflexivity).
  assert (E50 : JS.leb 50 inc = true) by (rewrite Hinc; reflexivity).
  assert (Er : JS.round inc = 50) by (rewrite Hinc; reflexivity).
  rewrite E0, E20, E50, Er, (trendMessage_round (fst cat) inc 50 Er). reflexivity.
Qed.

Lemma fold_checkIncrease_creates now userId lastWeekMap l s cat lastWeekAmount :
  In cat l ->
  lastWeekAmountOf lastWeekMap (fst cat) = Some lastWeekAmount ->
  (lastWeekAmount == 1000)%Q -> (snd cat == 1500)%Q ->
  In (newAlert now (castUser userId) "trend" "high" (trendMessage (fst cat) 50)
        (castMetadata (mkMetadataFields None None (Some (fst cat)) (Some 50))))
     (alerts (fold_left (checkIncrease now userId lastWeekMap) l s)).
Proof.
  revert s. induction l as [|x l IH]; intros s Hin Hmap Hlast Hthis; [contradiction|].
  cbn [fold_left]. destruct Hin as [->|Hin].
  - apply fold_checkIncrease_keeps.
    rewrite (checkIncrease_high now userId lastWeekMap s cat _ Hmap Hlast Hthis).
    apply in_or_app. right. left. reflexivity.
  - apply IH; assumption.
Qed.

Lemma fold_checkIncrease_only now userId lastWeekMap l s a :
  In a (alerts (fold_left (checkIncrease now userId lastWeekMap) l s)) ->
  In a (alerts s)
  \/ exists category lastWeekAmount,
       md_category (a_metadata a) = Some category
       /\ lastWeekAmountOf lastWeekMap category = Some lastWeekAmount
       /\ JS.eqb lastWeekAmount 0 = false.
Proof.
  revert s. induction l as [|cat l IH]; intros s Hin; cbn [fold_left] in Hin; [left; exact Hin|].
  destruct (IH _ Hin) as [Hin'|Hnew]; [|right; exact Hnew].
  destruct (checkIncrease_cases now userId lastWeekMap s cat)
    as [E|((v & Hmap & Hbase) & sev & msg & pct & E)]; rewrite E in Hin';
    [left; exact Hin'|].
  apply in_app_or in Hin' as [Hold|[<-|[]]]; [left; exact Hold|].
  right. exists (fst cat), v. split; [reflexivity|]. split; [exact Hmap|exact Hbase].
Qed.

Lemma categoryTotal_occurs c l :
  ~ (categoryTotal c l == 0)%Q -> In c (List.map t_category l).
Proof.
  intros Hne. unfold categoryTotal in Hne.
  destruct (List.filter _ l) as [|t rest] eqn:E.
  - exfalso. apply Hne. rewrite sumOf_nil. reflexivity.
  - assert (Hin : In t (List.filter (fun t => String.eqb (t_category t) c) l))
      by (rewrite E; left; reflexivity).
    apply filter_In in Hin as [Hin <-%String.eqb_eq]. apply in_map, Hin.
Qed.

(** The rule of the loop, for a caller that hands over the ObjectId of the
    user.  A category, not named "__proto__", whose expenses of the week
    before add up to 1000 and whose expenses of this week add up to 1500
    gets an alert of severity "high", for an increase of 50 percent; and a
    category whose total of the week before is 0 gets no trend alert,
    whatever this week's amount is. *)
Lemma trend_rule_with_object_id (now : Z) (s : Store) (uid : nat) (category : string) :
  (category <> "__proto__"%string ->
   (categoryTotal category (matchLastWeek now s (ObjectId uid)) == 1000)%Q ->
   (categoryTotal category (matchThisWeek now s (ObjectId uid)) == 1500)%Q ->
   In (newAlert now uid "trend" "high" (trendMessage category 50)
         (castMetadata (mkMetadataFields None None (Some category) (Some 50))))
      (alerts (generateTrendAlerts now s (ObjectId uid))))
  /\ ((categoryTotal category (matchLastWeek now s (ObjectId uid)) == 0)%Q ->
      forall a,
        In a (alerts (generateTrendAlerts now s (ObjectId uid))) ->
        a_user a = uid -> a_type a = "trend"%string ->
        md_category (a_metadata a) <> Some category).
Proof.
  split.
  - intros Hname Hlast Hthis.
    assert (Hocc : In category (List.map t_category (matchThisWeek now s (ObjectId uid)))).
    { apply categoryTotal_occurs. rewrite Hthis. discriminate. }
    destruct (groupByCategory_entry _ _ Hocc) as (v & Hin & Hv).
    pose proof (lastWeekAmountOf_total category (matchLastWeek now s (ObjectId uid)) Hname)
      as Hmap.
    destruct (lastWeekAmountOf _ category) as [w|] eqn:Ew.
    + unfold generateTrendAlerts.
      apply (fold_checkIncrease_creates now (ObjectId uid) _ _ _ (category, v) w Hin);
        cbn [fst snd].
      * exact Ew.
      * rewrite Hmap. exact Hlast.
      * rewrite Hv. exact Hthis.
    + rewrite Hlast in Hmap. discriminate.
  - intros Hzero a Hin Huser Htype Hcat.
    unfold generateTrendAlerts in Hin.
    apply fold_checkIncrease_only in Hin as [Hold|(c & w & Hc & Hmap & Hbase)].
    + unfold Alert_deleteMany in Hold. simpl in Hold.
      apply filter_In in Hold as [_ Hkeep].
      rewrite Huser, Htype, Nat.eqb_refl in Hkeep. discriminate.
    + rewrite Hc in Hcat. injection Hcat as ->.
      unfold lastWeekExpenses in Hmap.
      destruct (String.eqb_spec category "__proto__") as [->|Hname].
      * rewrite lastWeekAmountOf_proto in Hmap. discriminate.
      * pose proof (lastWeekAmountOf_total category
                      (matchLastWeek now s (ObjectId uid)) Hname) as Htotal.
        rewrite Hmap in Htotal. rewrite Htotal, Hzero in Hbase. discriminate.
Qed.

(** No transaction matches the string of an id. *)
Lemma no_match_for_string now s id :
  matchThisWeek now s (IdString id) = [] /\ matchLastWeek now s (IdString id) = [].
Proof.
  unfold matchThisWeek, matchLastWeek.
  split; induction (transactions s) as [|t l IH]; cbn; auto.
Qed.

(** C8 where the code departs from it.  [triggerAlertGeneration], the only
    caller, hands over [req.user.id], a string, and the two aggregations of
    [generateTrendAlerts] compare it, uncast, with the ObjectId that a
    transaction stores: both weeks come back empty and the loop never runs.
    The Food expenses of user 1 add up to 1000 in the week before and to 1500
    in this week, and the run leaves no alert; for no user and no ledger does
    a run leave a trend alert of the user.  Handed the ObjectId, the same
    code creates the alert of severity "high" for Food, and still none for
    the same amounts in a category named "__proto__", whose baseline the
    object [lastWeekMap] does not store. *)
Theorem trend_alert_never_created :
  (categoryTotal "Food" (matchLastWeek (Sample.noon 2024 3 20) Sample.trendStore
                           (ObjectId 1)) == 1000)%Q
  /\ (categoryTotal "Food" (matchThisWeek (Sample.noon 2024 3 20) Sample.trendStore
                              (ObjectId 1)) == 1500)%Q
  /\ alerts (triggerTrendGeneration (Sample.noon 2024 3 20) Sample.trendStore 1) = []
  /\ (forall now s reqUserId,
        List.filter (fun a => String.eqb (a_type a) "trend")
                    (alerts (triggerTrendGeneration now s reqUserId))
        = List.filter
            (fun a => negb (Nat.eqb (a_user a) reqUserId) && String.eqb (a_type a) "trend")
            (alerts s))
  /\ In (newAlert (Sample.noon 2024 3 20) 1 "trend" "high"
           "Your Food spending increased by 50% this week."
           (mkAlertMetadata None None None None (Some 50) (Some "Food"%string)))
        (alerts (generateTrendAlerts (Sample.noon 2024 3 20) Sample.trendStore
                   (ObjectId 1)))
  /\ (categoryTotal "__proto__" (matchLastWeek (Sample.noon 2024 3 20) Sample.protoStore
                                   (ObjectId 1)) == 1000)%Q
  /\ (categoryTotal "__proto__" (matchThisWeek (Sample.noon 2024 3 20) Sample.protoStore
                                   (ObjectId 1)) == 1500)%Q
  /\ alerts (generateTrendAlerts (Sample.noon 2024 3 20) Sample.protoStore (ObjectId 1))
     = [].
Proof.
  split; [vm_compute; reflexivity|]. split; [vm_compute; reflexivity|].
  split; [vm_compute; reflexivity|]. split.
  { intros now s reqUserId. unfold triggerTrendGeneration, generateTrendAlerts.
    unfold thisWeekExpenses. rewrite (proj1 (no_match_for_string now s reqUserId)).
    cbn [groupByCategory AIController.categoryTotals fold_left castUser].
    unfold Alert_deleteMany, setAlerts. cbn [alerts].
    induction (alerts s) as [|a l IH]; [reflexivity|].
    cbn [List.filter].
    destruct (Nat.eqb (a_user a) reqUserId), (String.eqb (a_type a) "trend") eqn:E;
      simpl; rewrite ?E; first [exact IH | f_equal; exact IH]. }
  split; [vm_compute; left; reflexivity|].
  split; [vm_compute; reflexivity|]. split; vm_compute; reflexivity.
Qed.
End TrendAlerts.

(** * Further properties of the code *)

(** ** [Array.prototype.sort] *)

Section Sorting.
Context {A : Type}.
Variable cmp : A -> A -> Q.

Lemma sortInsert_perm x l : Permutation (x :: l) (JS.sortInsert cmp x l).
Proof.
  induction l as [|y l IH]; simpl; [reflexivity|].
  destruct (JS.ltb 0 (cmp x y)); [|reflexivity].
  rewrite <- IH. apply perm_swap.
Qed.

Lemma sort_perm l : Permutation l (JS.sort cmp l).
Proof.
  induction l as [|x l IH]; simpl; [reflexivity|].
  rewrite <- sortInsert_perm. constructor. exact IH.
Qed.

Lemma sort_length l : length (JS.sort cmp l) = length l.
Proof. symmetry. apply Permutation_length, sort_perm. Qed.

Lemma sort_In x l : In x (JS.sort cmp l) <-> In x l.
Proof.
  split; apply Permutation_in; [symmetry|]; apply sort_perm.
Qed.

Lemma sort_Forall (P : A -> Prop) l : Forall P l -> Forall P (JS.sort cmp l).
Proof.
  rewrite !List.Forall_forall. intros H x Hx. apply H, sort_In, Hx.
Qed.

(** The comparison orders the values that satisfy [P] by their rank. *)
Variable rank : A -> Z.
Variable P : A -> Prop.
Hypothesis cmp_rank :
  forall x y, P x -> P y -> JS.ltb 0 (cmp x y) = (rank y <? rank x).

Lemma sortInsert_sorted x l :
  P x -> Forall P l ->
  StronglySorted (fun a b => rank a <= rank b) l ->
  StronglySorted (fun a b => rank a <= rank b) (JS.sortInsert cmp x l).
Proof.
  intros Hx Hl Hs. induction Hs as [|y l Hs IH Hy]; simpl.
  - repeat constructor.
  - apply Forall_cons in Hl as [HPy Hl].
    rewrite (cmp_rank x y Hx HPy).
    destruct (Z.ltb_spec (rank y) (rank x)) as [Hlt|Hge].
    + constructor; [exact (IH Hl)|].
      rewrite List.Forall_forall. intros z Hz.
      apply (Permutation_in _ (Permutation_sym (sortInsert_perm x l))) in Hz.
      destruct Hz as [<-|Hz]; [lia|].
      rewrite List.Forall_forall in Hy. exact (Hy z Hz).
    + constructor; [constructor; assumption|].
      constructor; [exact Hge|].
      rewrite List.Forall_forall in Hy |- *. intros z Hz.
      specialize (Hy z Hz). cbv beta in Hy. lia.
Qed.

Lemma sort_sorted l :
  Forall P l -> StronglySorted (fun a b => rank a <= rank b) (JS.sort cmp l).
Proof.
  induction 1 as [|x l Hx Hl IH]; simpl; [constructor|].
  apply sortInsert_sorted; [exact Hx|apply sort_Forall; exact Hl|exact IH].
Qed.
End Sorting.

(** ** Whole days between two times *)

Lemma ceilDays_div z : JSDate.ceilDays z = - ((- z) / JS.msPerDay).
Proof.
  unfold JSDate.ceilDays, JS.ceil, Qceiling. f_equal.
  rewrite Zdiv_Qdiv. apply Qfloor_comp.
  replace (1000 * 60 * 60 * 24) with JS.msPerDay by reflexivity.
  rewrite inject_Z_opp. unfold Qdiv. ring.
Qed.

Lemma ceilDays_iff z d :
  JSDate.ceilDays z = d <-> (d - 1) * JS.msPerDay < z <= d * JS.msPerDay.
Proof.
  rewrite ceilDays_div. unfold JS.msPerDay. split.
  - intros <-. Z.div_mod_to_equations. lia.
  - intros H. Z.div_mod_to_equations. nia.
Qed.

Lemma ceilDays_le z d : JSDate.ceilDays z <= d <-> z <= d * JS.msPerDay.
Proof.
  rewrite ceilDays_div. unfold JS.msPerDay. split; intros H; Z.div_mod_to_equations; nia.
Qed.

Lemma ceilDays_whole k : JSDate.ceilDays (k * JS.msPerDay) = k.
Proof. apply ceilDays_iff. unfold JS.msPerDay. lia. Qed.

(** ** Bills *)

Section BillFields.
Import Model Bills.
Variable zone : JSDate.Zone.
Variable now : Z.

(** The two midnights are a whole number of days apart, but for what the
    clocks were set back in between. *)
Lemma calculateBillFields_diff bill :
  daysLeft (calculateBillFields zone now bill)
  = JSDate.ceilDays
      ((JSDate.dayIn zone (bl_dueDate bill) - JSDate.dayIn zone now) * JS.msPerDay
       + JSDate.setBack zone now (bl_dueDate bill)).
Proof.
  unfold calculateBillFields, JSDate.setHours0, JSDate.setBack. cbn [daysLeft].
  f_equal. lia.
Qed.

Lemma calculateBillFields_daysLeft bill :
  - JS.msPerDay < JSDate.setBack zone now (bl_dueDate bill) <= JS.msPerDay ->
  daysLeft (calculateBillFields zone now bill)
  = if 0 <? JSDate.setBack zone now (bl_dueDate bill)
    then JSDate.dayIn zone (bl_dueDate bill) - JSDate.dayIn zone now + 1
    else JSDate.dayIn zone (bl_dueDate bill) - JSDate.dayIn zone now.
Proof.
  intros H. rewrite calculateBillFields_diff. apply ceilDays_iff.
  destruct (Z.ltb_spec 0 (JSDate.setBack zone now (bl_dueDate bill))); lia.
Qed.

Lemma calculateBillFields_fromBill bill : fromBill (calculateBillFields zone now bill).
Proof. reflexivity. Qed.

Lemma overdueFirst_rank x y :
  fromBill x -> fromBill y ->
  JS.ltb 0 (overdueFirst x y) = (daysLeft y <? daysLeft x).
Proof.
  unfold fromBill, overdueFirst. intros -> ->.
  destruct (Z.ltb_spec (daysLeft x) 0) as [Hx|Hx];
    destruct (Z.ltb_spec (daysLeft y) 0) as [Hy|Hy]; cbn [andb negb].
  - destruct (Z.ltb_spec (daysLeft y) (daysLeft x)) as [H|H].
    + apply ltb_lt. rewrite <- (Zlt_Qlt 0). lia.
    + apply ltb_ge. rewrite <- (Zle_Qle _ 0). lia.
  - destruct (Z.ltb_spec (daysLeft y) (daysLeft x)) as [H|H]; [lia|reflexivity].
  - destruct (Z.ltb_spec (daysLeft y) (daysLeft x)) as [H|H]; [reflexivity|lia].
  - destruct (Z.ltb_spec (daysLeft y) (daysLeft x)) as [H|H].
    + apply ltb_lt. rewrite <- (Zlt_Qlt 0). lia.
    + apply ltb_ge. rewrite <- (Zle_Qle _ 0). lia.
Qed.

Lemma sorted_bills (l : list BillData) :
  Forall fromBill l ->
  StronglySorted (fun a b => daysLeft a <= daysLeft b) (JS.sort overdueFirst l).
Proof. apply (sort_sorted overdueFirst daysLeft fromBill overdueFirst_rank). Qed.

Lemma Forall_fromBill (l : list Bill) :
  Forall fromBill (List.map (calculateBillFields zone now) l).
Proof.
  rewrite List.Forall_forall. intros d Hd.
  apply List.in_map_iff in Hd as (b & <- & _). apply calculateBillFields_fromBill.
Qed.

(** X7. The day count of a bill is the number of local calendar days from
    today to its due date, whatever the times of day, and one day more when
    the clocks are set back between the two midnights, as they are at the
    end of daylight saving.  Where the clocks are not changed in between,
    the bill is overdue when its due day is before today, and it has no
    alert level when its due day is more than five days ahead. *)
Theorem bill_days_are_calendar_days (bill : Bill) :
  let days := JSDate.dayIn zone (bl_dueDate bill) - JSDate.dayIn zone now in
  let setBack := JSDate.setBack zone now (bl_dueDate bill) in
  - JS.msPerDay < setBack <= JS.msPerDay ->
  daysLeft (calculateBillFields zone now bill) = (if 0 <? setBack then days + 1 else days)
  /\ (setBack = 0 ->
      (isOverdue (calculateBillFields zone now bill) = true
       <-> JSDate.dayIn zone (bl_dueDate bill) < JSDate.dayIn zone now)
      /\ (alertLevel (calculateBillFields zone now bill) = "none"%string
          <-> JSDate.dayIn zone now + 5 < JSDate.dayIn zone (bl_dueDate bill))).
Proof.
  cbv zeta. intros Hback.
  pose proof (calculateBillFields_daysLeft bill Hback) as Hd.
  split; [exact Hd|]. intros H0. rewrite H0 in Hd. cbn [Z.ltb Z.compare] in Hd.
  revert Hd. unfold calculateBillFields. cbn [daysLeft isOverdue alertLevel].
  set (d := JSDate.ceilDays _). intros Hd. split.
  - rewrite Z.ltb_lt. lia.
  - destruct (Z.ltb_spec d 0); [split; [discriminate|lia]|].
    destruct (Z.leb_spec d 2); [split; [discriminate|lia]|].
    destruct (Z.leb_spec d 5); [split; [discriminate|lia]|].
    split; [lia|reflexivity].
Qed.

(** X8. The upcoming bills are listed by ascending day count, so that the
    overdue ones come first; each is a pending bill of the user whose day
    count is seven at most, and each such bill is listed. *)
Theorem upcoming_bills_sorted (s : BillStore) (uid : nat) :
  StronglySorted (fun a b => daysLeft a <= daysLeft b)
                 (listed (getUpcomingBills zone now s uid))
  /\ Permutation
       (listed (getUpcomingBills zone now s uid))
       (List.map (calculateBillFields zone now)
          (List.filter
             (fun b => Nat.eqb (bl_user b) uid && String.eqb (bl_status b) "pending"
                       && (daysLeft (calculateBillFields zone now b) <=? 7))
             (bills s))).
Proof.
  unfold getUpcomingBills. cbn [listed]. split.
  - apply sorted_bills.
    rewrite List.Forall_forall. intros d Hd.
    apply List.filter_In in Hd as [Hd _].
    apply List.in_map_iff in Hd as (b & <- & _). apply calculateBillFields_fromBill.
  - rewrite <- sort_perm.
    induction (bills s) as [|b l IH]; [reflexivity|].
    cbn [List.filter].
    destruct (Nat.eqb (bl_user b) uid && String.eqb (bl_status b) "pending") eqn:E;
      cbn [andb List.map List.filter]; [|exact IH].
    assert (Hsame : (daysLeft (calculateBillFields zone now b) <=? 7)
                    || isOverdue (calculateBillFields zone now b)
                    = (daysLeft (calculateBillFields zone now b) <=? 7)).
    { rewrite (calculateBillFields_fromBill b).
      destruct (Z.leb_spec (daysLeft (calculateBillFields zone now b)) 7),
        (Z.ltb_spec (daysLeft (calculateBillFields zone now b)) 0);
        try reflexivity; lia. }
    rewrite Hsame.
    destruct (daysLeft (calculateBillFields zone now b) <=? 7);
      cbn [List.map]; [constructor|]; exact IH.
Qed.
End BillFields.

Section BillHandlers.
Import Model Bills.
Variable zone : JSDate.Zone.
Variable now : Z.

Lemma validateBill_pending_paid b status :
  validateBill b = None ->
  inEnum status statusEnum = true ->
  validateBill (mkBill (bl_id b) (bl_user b) (bl_name b) (bl_amount b) (bl_dueDate b) status)
  = None.
Proof.
  unfold validateBill. cbn [bl_name bl_amount bl_status].
  destruct (String.eqb (bl_name b) ""); [discriminate|].
  destruct (negb (JS.ltb 0 (bl_amount b))); [discriminate|].
  intros _ ->. reflexivity.
Qed.

(** X9. A bill handler that throws leaves the collection as it was: each of
    the three either answers or changes nothing. *)
Theorem bill_handlers_all_or_nothing (s : BillStore) (uid id : nat) (body : BillBody) :
  (fst (createBill zone now s uid body) = s
   \/ exists data, snd (createBill zone now s uid body)
                   = Respond 201 data "Bill added successfully")
  /\ (fst (markBillAsPaid zone now s uid id) = s
      \/ exists data, snd (markBillAsPaid zone now s uid id)
                      = Respond 200 data "Bill marked as paid")
  /\ (fst (deleteBill s uid id) = s
      \/ snd (deleteBill s uid id) = Respond 200 tt "Bill deleted successfully").
Proof.
  split; [|split].
  - unfold createBill.
    destruct (_ || _); [left; reflexivity|].
    destruct (bb_billName body); [|left; reflexivity].
    destruct (bb_amount body); [|left; reflexivity].
    destruct (bb_dueDate body); [|left; reflexivity].
    destruct (JS.leb _ _); [left; reflexivity|].
    destruct (Bill_create _ _ _ _ _ _) as [e|[s1 bill]]; [left; reflexivity|].
    right. eexists. reflexivity.
  - unfold markBillAsPaid.
    destruct (Bill_findById s id); [|left; reflexivity].
    destruct (negb _); [left; reflexivity|].
    destruct (Bill_save _ _); [left; reflexivity|].
    right. eexists. reflexivity.
  - unfold deleteBill.
    destruct (Bill_findById s id); [|left; reflexivity].
    destruct (negb _); [left; reflexivity|].
    right. reflexivity.
Qed.

(** X10. [createBill] refuses an amount that is not positive with status 400,
    and stores nothing. *)
Theorem createBill_refuses_non_positive (s : BillStore) (uid : nat) (body : BillBody) (a : Q) :
  bb_amount body = Some a -> (a <= 0)%Q ->
  exists message, createBill zone now s uid body = (s, Throw (ApiError 400 message)).
Proof.
  intros Ha Hle. unfold createBill. rewrite Ha.
  destruct (_ || _); [eauto|].
  destruct (bb_billName body); [|eauto].
  destruct (bb_dueDate body); [|eauto].
  apply leb_le in Hle. rewrite Hle. eauto.
Qed.

Lemma In_listedIds id (s : BillStore) (uid : nat) now' :
  In id (listedIds (getUpcomingBills zone now' s uid)) ->
  exists b, In b (bills s) /\ bl_id b = id /\ bl_status b = "pending"%string.
Proof.
  unfold getUpcomingBills. cbn [listedIds]. intros Hin.
  apply List.in_map_iff in Hin as (d & Hid & Hd).
  apply sort_In in Hd. apply List.filter_In in Hd as [Hd _].
  apply List.in_map_iff in Hd as (b & <- & Hb).
  apply List.filter_In in Hb as [Hb Hc].
  apply andb_true_iff in Hc as [_ Hst]. apply String.eqb_eq in Hst.
  exists b. split; [exact Hb|]. split; [exact Hid|exact Hst].
Qed.

(** X11. A bill that was marked as paid is in no later list of upcoming
    bills, of any user and at any time. *)
Theorem paid_bill_not_upcoming (s s' : BillStore) (uid id : nat) (data : BillData)
    (message : string) (uid' : nat) (now' : Z) :
  markBillAsPaid zone now s uid id = (s', Respond 200 data message) ->
  ~ In id (listedIds (getUpcomingBills zone now' s' uid')).
Proof.
  unfold markBillAsPaid.
  destruct (Bill_findById s id) as [bill|] eqn:Hf; [|discriminate].
  destruct (negb _); [discriminate|].
  unfold Bill_save. destruct (validateBill _); [discriminate|].
  intros [= <- _ _] Hin.
  apply In_listedIds in Hin as (b & Hb & Hid & Hst).
  cbn [bills bl_id] in Hb.
  apply List.in_map_iff in Hb as (b0 & Hb0 & _).
  apply List.find_some in Hf as [_ Hfid]. apply Nat.eqb_eq in Hfid.
  destruct (Nat.eqb (bl_id b0) (bl_id bill)) eqn:E.
  - subst b. discriminate.
  - subst b. rewrite Hfid, Hid, Nat.eqb_refl in E. discriminate.
Qed.

(** X12. A deleted bill cannot be found again, and the other bills stay. *)
Theorem deleted_bill_is_gone (s s' : BillStore) (uid id : nat) (message : string) :
  deleteBill s uid id = (s', Respond 200 tt message) ->
  Bill_findById s' id = None
  /\ forall id', id' <> id -> Bill_findById s' id' = Bill_findById s id'.
Proof.
  unfold deleteBill.
  destruct (Bill_findById s id) as [bill|] eqn:Hf; [|discriminate].
  destruct (negb _); [discriminate|].
  intros [= <-].
  apply List.find_some in Hf as [_ Hfid]. apply Nat.eqb_eq in Hfid.
  unfold Bill_findById, Bill_deleteOne. cbn [bills]. rewrite Hfid.
  split.
  - induction (bills s) as [|b l IH]; [reflexivity|].
    cbn [List.filter]. destruct (Nat.eqb (bl_id b) id) eqn:E; cbn [negb]; [exact IH|].
    cbn [List.find]. rewrite E. exact IH.
  - intros id' Hne.
    induction (bills s) as [|b l IH]; [reflexivity|].
    cbn [List.filter List.find].
    destruct (Nat.eqb (bl_id b) id) eqn:E; cbn [negb].
    + apply Nat.eqb_eq in E.
      destruct (Nat.eqb_spec (bl_id b) id'); [congruence|]. exact IH.
    + cbn [List.find]. destruct (Nat.eqb (bl_id b) id'); [reflexivity|exact IH].
Qed.

(** X13. The bills of a page are listed by ascending day count, and a page
    holds at most [limit] of them. *)
Theorem bills_page_sorted (regexTest : string -> string -> bool) (s : BillStore)
    (uid : nat) (q : BillQuery) (data : list BillData) (pg : BillPagination)
    (message : string) :
  getAllBills zone now regexTest s uid q = inr (Respond 200 (data, pg) message) ->
  0 < bp_limit pg ->
  StronglySorted (fun a b => daysLeft a <= daysLeft b) data
  /\ Z.of_nat (length data) <= bp_limit pg.
Proof.
  unfold getAllBills, Query.skipLimit.
  destruct (_ <? 0); [discriminate|].
  intros [= <- <- _]. cbn [bp_limit]. intros Hlim.
  split; [apply sorted_bills, Forall_fromBill|].
  rewrite sort_length, List.length_map.
  destruct (Z.eqb_spec (Query.orDefault (bq_limit q) 10) 0) as [H0|_]; [lia|].
  rewrite List.length_firstn. lia.
Qed.
End BillHandlers.

(** ** Bill alerts, the cleanup and the read marks *)

Section BillAlertRuns.
Import Model Bills BillAlerts.
Variable toLocaleDateString : Z -> string.

#[local] Abbreviation billAlert := (billAlert toLocaleDateString).
#[local] Abbreviation generateBillAlerts := (generateBillAlerts toLocaleDateString).
#[local] Abbreviation freshBillAlerts := (freshBillAlerts toLocaleDateString).

(** What one turn of the loop does to the collection of alerts. *)
Lemma billAlert_alerts now uid s bill :
  exists severity message,
    alerts (billAlert now uid s bill)
    = alerts s
      ++ (if dueWithinWeek now bill
          then [newAlert now uid "bill" severity message
                  (mkAlertMetadata None (Some (bl_id bill)) (Some (bl_name bill))
                                   (Some (bl_dueDate bill)) None None)]
          else [])
    /\ forall s', alerts (billAlert now uid s' bill)
                  = alerts s'
                    ++ (if dueWithinWeek now bill
                        then [newAlert now uid "bill" severity message
                                (mkAlertMetadata None (Some (bl_id bill)) (Some (bl_name bill))
                                                 (Some (bl_dueDate bill)) None None)]
                        else []).
Proof.
  unfold BillAlerts.billAlert, dueWithinWeek.
  set (d := JSDate.ceilDays _).
  destruct (Z.ltb_spec d 0).
  { do 2 eexists. assert (E : (d <=? 7) = true) by (apply Z.leb_le; lia).
    rewrite E. split; [reflexivity|]. intros s'. reflexivity. }
  destruct (Z.eqb_spec d 0).
  { do 2 eexists. assert (E : (d <=? 7) = true) by (apply Z.leb_le; lia).
    rewrite E. split; [reflexivity|]. intros s'. reflexivity. }
  destruct (Z.eqb_spec d 1).
  { do 2 eexists. assert (E : (d <=? 7) = true) by (apply Z.leb_le; lia).
    rewrite E. split; [reflexivity|]. intros s'. reflexivity. }
  destruct (Z.leb_spec d 3).
  { do 2 eexists. assert (E : (d <=? 7) = true) by (apply Z.leb_le; lia).
    rewrite E. split; [reflexivity|]. intros s'. reflexivity. }
  destruct (Z.leb_spec d 7).
  { do 2 eexists. split; [reflexivity|]. intros s'. reflexivity. }
  exists ""%string, ""%string. split; [|intros s']; rewrite app_nil_r; reflexivity.
Qed.

Lemma billAlert_rest now uid s bill :
  transactions (billAlert now uid s bill) = transactions s
  /\ budgets (billAlert now uid s bill) = budgets s
  /\ nextId (billAlert now uid s bill) = nextId s.
Proof.
  unfold BillAlerts.billAlert.
  repeat match goal with |- context [if ?c then _ else _] => destruct c end;
    repeat split; reflexivity.
Qed.

Lemma fold_billAlert_alerts now uid bills s s' :
  exists l, alerts (fold_left (billAlert now uid) bills s) = alerts s ++ l
            /\ alerts (fold_left (billAlert now uid) bills s') = alerts s' ++ l.
Proof.
  revert s s'. induction bills as [|b bills IH]; intros s s'; cbn [fold_left].
  - exists []. rewrite !app_nil_r. split; reflexivity.
  - destruct (billAlert_alerts now uid s b) as (sev & msg & Hs & Hall).
    destruct (IH (billAlert now uid s b) (billAlert now uid s' b)) as (l & H1 & H2).
    eexists. rewrite H1, H2, Hs, (Hall s'), <- !app_assoc. split; reflexivity.
Qed.

Lemma fold_billAlert_fresh now uid bills s :
  alerts (fold_left (billAlert now uid) bills s)
  = alerts s ++ freshBillAlerts now uid bills.
Proof.
  unfold BillAlerts.freshBillAlerts.
  destruct (fold_billAlert_alerts now uid bills s (mkStore [] ∅ [] O)) as (l & H1 & H2).
  rewrite H1, H2. reflexivity.
Qed.

Lemma fold_billAlert_rest now uid bills s :
  transactions (fold_left (billAlert now uid) bills s) = transactions s
  /\ budgets (fold_left (billAlert now uid) bills s) = budgets s
  /\ nextId (fold_left (billAlert now uid) bills s) = nextId s.
Proof.
  revert s. induction bills as [|b bills IH]; intros s; cbn [fold_left]; [auto|].
  destruct (IH (billAlert now uid s b)) as (-> & -> & ->). apply billAlert_rest.
Qed.

Lemma freshBillAlerts_cons now uid b bills :
  exists severity message,
    freshBillAlerts now uid (b :: bills)
    = (if dueWithinWeek now b
       then [newAlert now uid "bill" severity message
               (mkAlertMetadata None (Some (bl_id b)) (Some (bl_name b))
                                (Some (bl_dueDate b)) None None)]
       else [])
      ++ freshBillAlerts now uid bills.
Proof.
  destruct (billAlert_alerts now uid (mkStore [] ∅ [] O) b) as (sev & msg & Hs & _).
  exists sev, msg. unfold BillAlerts.freshBillAlerts at 1. cbn [fold_left].
  rewrite fold_billAlert_fresh, Hs. reflexivity.
Qed.

Lemma freshBillAlerts_nil now uid : freshBillAlerts now uid [] = [].
Proof. reflexivity. Qed.

(** The alerts of a run are bill alerts of the user, unread and created at
    the time of the run, one for each bill that is due within the week, in
    the order of the bills. *)
Lemma freshBillAlerts_spec now uid bills :
  Forall (fun a => a_user a = uid /\ a_type a = "bill"%string /\ a_isRead a = false
                   /\ a_createdAt a = now)
         (freshBillAlerts now uid bills)
  /\ List.map (fun a => billId (a_metadata a)) (freshBillAlerts now uid bills)
     = List.map (fun b => Some (bl_id b)) (List.filter (dueWithinWeek now) bills).
Proof.
  induction bills as [|b bills [IH1 IH2]].
  - rewrite freshBillAlerts_nil. split; [constructor|reflexivity].
  - destruct (freshBillAlerts_cons now uid b bills) as (sev & msg & ->).
    cbn [List.filter]. destruct (dueWithinWeek now b); cbn [app List.map].
    + split; [constructor; [repeat split|exact IH1]|].
      cbn [newAlert a_metadata billId]. f_equal. exact IH2.
    + split; assumption.
Qed.

Lemma filter_bill_fresh now uid bills :
  List.filter (fun a => Nat.eqb (a_user a) uid && String.eqb (a_type a) "bill")
              (freshBillAlerts now uid bills)
  = freshBillAlerts now uid bills.
Proof.
  destruct (freshBillAlerts_spec now uid bills) as [H _].
  induction H as [|a l (Hu & Ht & _) _ IH]; [reflexivity|].
  cbn [List.filter]. rewrite Hu, Ht, Nat.eqb_refl. cbn. f_equal. exact IH.
Qed.

Lemma generateBillAlerts_alerts now bs s uid :
  alerts (generateBillAlerts now bs s uid)
  = List.filter (fun a => negb (Nat.eqb (a_user a) uid && String.eqb (a_type a) "bill"))
                (alerts s)
    ++ freshBillAlerts now uid (unpaidBills bs uid).
Proof.
  unfold BillAlerts.generateBillAlerts. rewrite fold_billAlert_fresh. reflexivity.
Qed.

Lemma generateBillAlerts_rest now bs s uid :
  transactions (generateBillAlerts now bs s uid) = transactions s
  /\ budgets (generateBillAlerts now bs s uid) = budgets s
  /\ nextId (generateBillAlerts now bs s uid) = nextId s.
Proof.
  unfold BillAlerts.generateBillAlerts.
  destruct (fold_billAlert_rest now uid (unpaidBills bs uid)
              (Alert_deleteMany s
                 (fun a => Nat.eqb (a_user a) uid && String.eqb (a_type a) "bill")))
    as (-> & -> & ->).
  repeat split; reflexivity.
Qed.

Lemma filter_negb_same {A : Type} (f : A -> bool) (l : list A) :
  List.filter f (List.filter (fun a => negb (f a)) l) = [].
Proof.
  induction l as [|x l IH]; [reflexivity|].
  cbn [List.filter]. destruct (f x) eqn:E; cbn [negb]; [exact IH|].
  cbn [List.filter]. rewrite E. exact IH.
Qed.

Lemma filter_idem {A : Type} (f : A -> bool) (l : list A) :
  List.filter f (List.filter f l) = List.filter f l.
Proof.
  induction l as [|x l IH]; [reflexivity|].
  cbn [List.filter]. destruct (f x) eqn:E; [|exact IH].
  cbn [List.filter]. rewrite E. f_equal. exact IH.
Qed.

Lemma filter_none {A : Type} (f : A -> bool) (l : list A) :
  Forall (fun a => f a = false) l -> List.filter f l = [].
Proof.
  induction 1 as [|x l Hx _ IH]; [reflexivity|].
  cbn [List.filter]. rewrite Hx. exact IH.
Qed.

Lemma filter_comm_same {A : Type} (f g : A -> bool) (l : list A) :
  List.filter f (List.filter g l) = List.filter g (List.filter f l).
Proof.
  induction l as [|x l IH]; [reflexivity|].
  cbn [List.filter].
  destruct (g x) eqn:Eg, (f x) eqn:Ef; cbn [List.filter]; rewrite ?Eg, ?Ef, IH; reflexivity.
Qed.

Lemma store_eq (s s' : Store) :
  transactions s = transactions s' -> budgets s = budgets s' ->
  alerts s = alerts s' -> nextId s = nextId s' -> s = s'.
Proof. destruct s, s'. cbn. intros -> -> -> ->. reflexivity. Qed.

(** X14. After a run of [generateBillAlerts] the bill alerts of the user are
    those of this run: one for each unpaid bill of the user that is due
    within the week or overdue, in the order of the bills.  The alerts of
    other kinds and of other users stay, and a second run at the same time
    changes nothing. *)
Theorem bill_alerts_replaced (now : Z) (bs : BillStore) (s : Store) (uid : nat) :
  billAlertsOf (generateBillAlerts now bs s uid) uid
  = freshBillAlerts now uid (unpaidBills bs uid)
  /\ List.map (fun a => billId (a_metadata a))
              (billAlertsOf (generateBillAlerts now bs s uid) uid)
     = List.map (fun b => Some (bl_id b))
                (List.filter (dueWithinWeek now) (unpaidBills bs uid))
  /\ List.filter (fun a => negb (Nat.eqb (a_user a) uid && String.eqb (a_type a) "bill"))
                 (alerts (generateBillAlerts now bs s uid))
     = List.filter (fun a => negb (Nat.eqb (a_user a) uid && String.eqb (a_type a) "bill"))
                   (alerts s)
  /\ generateBillAlerts now bs (generateBillAlerts now bs s uid) uid
     = generateBillAlerts now bs s uid.
Proof.
  assert (H1 : billAlertsOf (generateBillAlerts now bs s uid) uid
               = freshBillAlerts now uid (unpaidBills bs uid)).
  { unfold billAlertsOf. rewrite generateBillAlerts_alerts, List.filter_app.
    rewrite filter_negb_same, filter_bill_fresh. reflexivity. }
  assert (H3 : List.filter
                 (fun a => negb (Nat.eqb (a_user a) uid && String.eqb (a_type a) "bill"))
                 (freshBillAlerts now uid (unpaidBills bs uid)) = []).
  { apply filter_none.
    destruct (freshBillAlerts_spec now uid (unpaidBills bs uid)) as [H _].
    eapply List.Forall_impl; [|exact H]. cbv beta. intros a (Hu & Ht & _).
    rewrite Hu, Ht, Nat.eqb_refl. reflexivity. }
  split; [exact H1|]. split.
  { rewrite H1. apply freshBillAlerts_spec. }
  split.
  { rewrite generateBillAlerts_alerts, List.filter_app, filter_idem, H3.
    apply app_nil_r. }
  pose proof (generateBillAlerts_rest now bs s uid) as (Ht & Hb & Hn).
  pose proof (generateBillAlerts_rest now bs (generateBillAlerts now bs s uid) uid)
    as (Ht' & Hb' & Hn').
  apply store_eq.
  - rewrite Ht'. reflexivity.
  - rewrite Hb'. reflexivity.
  - rewrite (generateBillAlerts_alerts now bs (generateBillAlerts now bs s uid) uid).
    rewrite !generateBillAlerts_alerts, List.filter_app, filter_idem, H3, app_nil_r.
    reflexivity.
  - rewrite Hn'. reflexivity.
Qed.
(** The alerts of a run are not older than the run. *)
Lemma fresh_kept_by_cleanup now bs uid :
  forall now' uid',
    now' <= now + 30 * 24 * 60 * 60 * 1000 ->
    List.filter (fun a => Nat.eqb (a_user a) uid && String.eqb (a_type a) "bill")
      (List.filter
         (fun a => negb (Nat.eqb (a_user a) uid'
                         && (a_createdAt a <? now' - 30 * 24 * 60 * 60 * 1000)))
         (freshBillAlerts now uid (unpaidBills bs uid)))
    = freshBillAlerts now uid (unpaidBills bs uid).
Proof.
  intros now' uid' Hnow.
  destruct (freshBillAlerts_spec now uid (unpaidBills bs uid)) as [H _].
  induction H as [|a l (Hu & Ht & _ & Hc) _ IH]; [reflexivity|].
  cbn [List.filter].
  assert (E : (a_createdAt a <? now' - 30 * 24 * 60 * 60 * 1000) = false)
    by (apply Z.ltb_ge; lia).
  rewrite E, andb_false_r. cbn [negb List.filter].
  rewrite Hu, Ht, Nat.eqb_refl. cbn. f_equal. exact IH.
Qed.
End BillAlertRuns.

Section BillDayCounts.
Import Model Bills BillAlerts.
Variable zone : JSDate.Zone.
Variable now : Z.

(** X15. The alert service counts the days to a due date from the time of the
    run, the bill listing from midnight to midnight.  Where the clocks show
    one offset at the run, at the due date and at the two midnights, the
    count of the alert service is that of the listing or one more, and the
    two agree exactly when the time of day of the due date is not after that
    of the run. *)
Theorem alert_days_listing_days (bill : Bill) :
  JSDate.steady zone now (bl_dueDate bill) ->
  let diffDays := JSDate.ceilDays (bl_dueDate bill - now) in
  let listing := daysLeft (calculateBillFields zone now bill) in
  (diffDays = listing \/ diffDays = listing + 1)
  /\ (diffDays = listing
      <-> JSDate.wallClock zone (bl_dueDate bill) mod JS.msPerDay
          <= JSDate.wallClock zone now mod JS.msPerDay).
Proof.
  intros (Hdue & Htoday & Hday). cbv zeta.
  rewrite calculateBillFields_diff. unfold JSDate.setBack. rewrite Htoday, Hday.
  replace (_ * JS.msPerDay + _)
    with ((JSDate.dayIn zone (bl_dueDate bill) - JSDate.dayIn zone now) * JS.msPerDay)
    by lia.
  rewrite ceilDays_whole, ceilDays_div.
  unfold JSDate.dayIn, JSDate.wallClock. rewrite Hdue.
  set (tz := JSDate.offsetAt zone now). unfold JS.msPerDay.
  set (due := bl_dueDate bill).
  split; [|split; intros H]; Z.div_mod_to_equations; nia.
Qed.

(** X16. A bill that is due later on the day of the run, with no change of
    the clocks between the run and the due date, is listed with zero days
    left, and the alert service writes that it is due tomorrow. *)
Theorem due_later_today_alerted_as_tomorrow (toLocaleDateString : Z -> string)
    (uid : nat) (s : Store) (bill : Bill) :
  JSDate.dayIn zone (bl_dueDate bill) = JSDate.dayIn zone now ->
  JSDate.offsetAt zone (bl_dueDate bill) = JSDate.offsetAt zone now ->
  now < bl_dueDate bill ->
  daysLeft (calculateBillFields zone now bill) = 0
  /\ alerts (billAlert toLocaleDateString now uid s bill)
     = alerts s
       ++ [newAlert now uid "bill" "medium" (bl_name bill ++ " is due tomorrow.")%string
             (mkAlertMetadata None (Some (bl_id bill)) (Some (bl_name bill))
                              (Some (bl_dueDate bill)) None None)].
Proof.
  intros Hday Hoffset Hlater.
  split.
  { rewrite calculateBillFields_diff. unfold JSDate.setBack. rewrite Hday.
    replace (_ * JS.msPerDay + _) with (0 * JS.msPerDay) by lia.
    apply ceilDays_whole. }
  assert (Hd : JSDate.ceilDays (bl_dueDate bill - now) = 1).
  { apply ceilDays_iff. revert Hday.
    unfold JSDate.dayIn, JSDate.wallClock. rewrite Hoffset. unfold JS.msPerDay.
    intros Hday. Z.div_mod_to_equations. nia. }
  unfold billAlert. rewrite Hd. reflexivity.
Qed.
End BillDayCounts.

Section Cleanup.
Import Model Bills BillAlerts.

(** X17. [cleanupOldAlerts] removes alerts of the user only, and none that is
    at most 30 days old: up to 30 days after a run of [generateBillAlerts]
    it leaves every alert of that run in place. *)
Theorem fresh_bill_alerts_survive_cleanup (toLocaleDateString : Z -> string)
    (now now' : Z) (bs : BillStore) (s : Store) (uid uid' : nat) :
  now' <= now + 30 * 24 * 60 * 60 * 1000 ->
  billAlertsOf
    (cleanupOldAlerts now' (generateBillAlerts toLocaleDateString now bs s uid) uid') uid
  = billAlertsOf (generateBillAlerts toLocaleDateString now bs s uid) uid
  /\ AlertController.alertsOfOthers
       (cleanupOldAlerts now' (generateBillAlerts toLocaleDateString now bs s uid) uid') uid'
     = AlertController.alertsOfOthers
         (generateBillAlerts toLocaleDateString now bs s uid) uid'.
Proof.
  intros Hnow. split.
  - unfold billAlertsOf, cleanupOldAlerts. cbn [Alert_deleteMany setAlerts alerts].
    rewrite generateBillAlerts_alerts, !List.filter_app.
    rewrite (fresh_kept_by_cleanup toLocaleDateString now bs uid now' uid' Hnow).
    rewrite filter_bill_fresh. f_equal.
    rewrite filter_comm_same, !filter_negb_same. reflexivity.
  - unfold AlertController.alertsOfOthers, cleanupOldAlerts.
    cbn [Alert_deleteMany setAlerts alerts].
    induction (alerts (generateBillAlerts toLocaleDateString now bs s uid)) as [|a l IH];
      [reflexivity|].
    cbn [List.filter].
    destruct (Nat.eqb (a_user a) uid') eqn:E; cbn [andb negb].
    + destruct (a_createdAt a <? _); cbn [negb List.filter]; [|rewrite E]; exact IH.
    + cbn [List.filter]. rewrite E. cbn [negb]. f_equal. exact IH.
Qed.
End Cleanup.

Section ReadMarks.
Import Model AlertController.

Lemma markRead_others uid a :
  Nat.eqb (a_user a) uid = false -> markRead uid a = a.
Proof. unfold markRead. intros ->. reflexivity. Qed.

Lemma markRead_user uid a : a_user (markRead uid a) = a_user a.
Proof. unfold markRead. destruct (_ && _); reflexivity. Qed.

Lemma markRead_read uid a :
  Nat.eqb (a_user a) uid = true -> a_isRead (markRead uid a) = true.
Proof.
  unfold markRead. intros ->. cbn [andb].
  destruct (a_isRead a) eqn:E; cbn [negb]; [exact E|reflexivity].
Qed.

(** X18. [markAllAlertsAsRead] reports the number of alerts of the user that
    were unread, leaves none of them unread, changes nothing but the read
    mark and touches no alert of another user; a second call reports 0. *)
Theorem mark_all_read (s : Store) (uid : nat) :
  snd (markAllAlertsAsRead s uid)
  = Respond 200 (length (unreadOf s uid)) "All alerts marked as read"
  /\ unreadOf (fst (markAllAlertsAsRead s uid)) uid = []
  /\ alertsOfOthers (fst (markAllAlertsAsRead s uid)) uid = alertsOfOthers s uid
  /\ List.map (fun a => (a_user a, a_type a, a_severity a, a_message a, a_metadata a,
                         a_createdAt a, a_expiresAt a))
              (alerts (fst (markAllAlertsAsRead s uid)))
     = List.map (fun a => (a_user a, a_type a, a_severity a, a_message a, a_metadata a,
                           a_createdAt a, a_expiresAt a))
                (alerts s)
  /\ snd (markAllAlertsAsRead (fst (markAllAlertsAsRead s uid)) uid)
     = Respond 200 O "All alerts marked as read".
Proof.
  assert (Hnone : unreadOf (fst (markAllAlertsAsRead s uid)) uid = []).
  { unfold unreadOf, markAllAlertsAsRead. cbn [fst setAlerts alerts].
    induction (alerts s) as [|a l IH]; [reflexivity|].
    cbn [List.map List.filter]. rewrite markRead_user.
    destruct (Nat.eqb (a_user a) uid) eqn:E; cbn [andb]; [|exact IH].
    rewrite (markRead_read uid a E). exact IH. }
  split; [reflexivity|]. split; [exact Hnone|]. split; [|split].
  - unfold alertsOfOthers, markAllAlertsAsRead. cbn [fst setAlerts alerts].
    induction (alerts s) as [|a l IH]; [reflexivity|].
    cbn [List.map List.filter]. rewrite markRead_user.
    destruct (Nat.eqb (a_user a) uid) eqn:E; cbn [negb]; [exact IH|].
    rewrite (markRead_others uid a E). f_equal. exact IH.
  - unfold markAllAlertsAsRead. cbn [fst setAlerts alerts].
    rewrite List.map_map. apply List.map_ext. intros a.
    unfold markRead. destruct (_ && _); reflexivity.
  - unfold markAllAlertsAsRead at 1. cbn [snd].
    change (List.filter _ (alerts (fst (markAllAlertsAsRead s uid))))
      with (unreadOf (fst (markAllAlertsAsRead s uid)) uid).
    rewrite Hnone. reflexivity.
Qed.
End ReadMarks.

(** ** The consolidated alerts *)

Section Consolidated.
Import Model Bills ConsolidatedAlerts.
Variable tz : Z.
Variable toLocaleDateString : Z -> string.

Lemma byPriority_rank x y :
  known x -> known y -> JS.ltb 0 (byPriority x y) = (rank y <? rank x).
Proof.
  unfold known, byPriority, rank. intros [px ->] [py ->].
  destruct (Z.ltb_spec (3 - py) (3 - px)) as [H|H].
  - apply ltb_lt. rewrite <- (Zlt_Qlt 0). lia.
  - apply ltb_ge. rewrite <- (Zle_Qle _ 0). lia.
Qed.

(** What the three steps keep true of the list they build: the types are
    known, and each step adds one entry at most for the budget, for each
    pending bill and for the forecast. *)
Lemma push_known feed type message date :
  is_Some (priority type) ->
  Forall known (fst feed) ->
  Forall known (fst (push feed type message date)).
Proof.
  destruct feed as [l c]. cbn [push fst]. intros Ht Hl.
  apply Forall_app. split; [exact Hl|]. constructor; [exact Ht|constructor].
Qed.

Lemma push_length feed type message date :
  length (fst (push feed type message date)) = S (length (fst feed)).
Proof.
  destruct feed as [l c]. cbn [push fst]. rewrite length_app. cbn. lia.
Qed.

Lemma budgetEntries_known now budget feed :
  Forall known (fst feed) -> Forall known (fst (budgetEntries now budget feed)).
Proof.
  intros H. unfold budgetEntries. destruct budget as [b|].
  - destruct (JS.ltb 100 _); [apply push_known; [eexists; reflexivity|exact H]|].
    destruct (JS.ltb 80 _); [apply push_known; [eexists; reflexivity|exact H]|exact H].
  - apply push_known; [eexists; reflexivity|exact H].
Qed.

Lemma billEntry_known now feed bill :
  Forall known (fst feed) ->
  Forall known (fst (billEntry toLocaleDateString now feed bill)).
Proof.
  intros H. unfold billEntry.
  destruct (_ <? 0); [apply push_known; [eexists; reflexivity|exact H]|].
  destruct (_ <=? 3); [apply push_known; [eexists; reflexivity|exact H]|exact H].
Qed.

Lemma fold_billEntry_known now bills feed :
  Forall known (fst feed) ->
  Forall known (fst (fold_left (billEntry toLocaleDateString now) bills feed)).
Proof.
  revert feed. induction bills as [|b bills IH]; intros feed H; cbn [fold_left]; [exact H|].
  apply IH, billEntry_known, H.
Qed.

Lemma forecastEntries_known now s user budget feed :
  Forall known (fst feed) ->
  Forall known (fst (forecastEntries tz now s user budget feed)).
Proof.
  intros H. unfold forecastEntries.
  destruct (_ && _); [|exact H].
  destruct (String.eqb _ _); [apply push_known; [eexists; reflexivity|exact H]|exact H].
Qed.

Lemma budgetEntries_length now budget feed :
  (length (fst (budgetEntries now budget feed)) <= S (length (fst feed)))%nat.
Proof.
  unfold budgetEntries. destruct budget as [b|].
  - destruct (JS.ltb 100 _); [rewrite push_length; lia|].
    destruct (JS.ltb 80 _); [rewrite push_length; lia|lia].
  - rewrite push_length. lia.
Qed.

Lemma billEntry_length now feed bill :
  (length (fst (billEntry toLocaleDateString now feed bill)) <= S (length (fst feed)))%nat.
Proof.
  unfold billEntry.
  destruct (_ <? 0); [rewrite push_length; lia|].
  destruct (_ <=? 3); [rewrite push_length; lia|lia].
Qed.

Lemma fold_billEntry_length now bills feed :
  (length (fst (fold_left (billEntry toLocaleDateString now) bills feed))
   <= length bills + length (fst feed))%nat.
Proof.
  revert feed. induction bills as [|b bills IH]; intros feed; cbn [fold_left length]; [lia|].
  specialize (IH (billEntry toLocaleDateString now feed b)).
  pose proof (billEntry_length now feed b). lia.
Qed.

Lemma forecastEntries_length now s user budget feed :
  (length (fst (forecastEntries tz now s user budget feed)) <= S (length (fst feed)))%nat.
Proof.
  unfold forecastEntries.
  destruct (_ && _); [|lia].
  destruct (String.eqb _ _); [rewrite push_length; lia|lia].
Qed.

(** X19. The consolidated alerts are sent with the danger entries first, then
    the warnings, then the information; there are at most two entries more
    than the user has pending bills. *)
Theorem consolidated_alerts_by_priority (now : Z) (s : Store) (bs : BillStore) (user : User) :
  StronglySorted (fun a b => rank a <= rank b)
                 (entries (getAlerts tz toLocaleDateString now s bs user))
  /\ Forall (fun e => 0 <= rank e <= 2)
            (entries (getAlerts tz toLocaleDateString now s bs user))
  /\ (length (entries (getAlerts tz toLocaleDateString now s bs user))
      <= 2 + length (pendingBills bs (u_id user)))%nat.
Proof.
  unfold getAlerts. cbn [entries].
  set (budget := Budget_findOne s (u_id user) _).
  set (f1 := budgetEntries now budget ([], 1)).
  set (f2 := fold_left (billEntry toLocaleDateString now) (pendingBills bs (u_id user)) f1).
  set (f3 := forecastEntries tz now s user budget f2).
  assert (Hk : Forall known (fst f3)).
  { apply forecastEntries_known, fold_billEntry_known, budgetEntries_known. constructor. }
  split; [|split].
  - apply (sort_sorted byPriority rank known byPriority_rank). exact Hk.
  - apply sort_Forall. eapply List.Forall_impl; [|exact Hk].
    intros e [p Hp]. unfold rank. rewrite Hp.
    revert Hp. unfold priority.
    repeat (destruct (String.eqb _ _); [intros [= <-]; lia|]). discriminate.
  - rewrite sort_length.
    pose proof (forecastEntries_length now s user budget f2).
    pose proof (fold_billEntry_length now (pendingBills bs (u_id user)) f1).
    pose proof (budgetEntries_length now budget ([], 1)).
    fold f1 in H1. fold f2 in H0. fold f3 in H. cbn [fst length] in H1. lia.
Qed.
End Consolidated.

(** ** The two listings of transactions *)

Lemma sumOf_perm {A : Type} (f : A -> Q) (l l' : list A) :
  Permutation l l' -> (JS.sumOf f l == JS.sumOf f l')%Q.
Proof.
  induction 1 as [|x l l' _ IH|x y l|l l' l'' _ IH1 _ IH2].
  - reflexivity.
  - rewrite !sumOf_cons, IH. reflexivity.
  - rewrite !sumOf_cons. ring.
  - rewrite IH1. exact IH2.
Qed.

Lemma filter_perm {A : Type} (f : A -> bool) (l l' : list A) :
  Permutation l l' -> Permutation (List.filter f l) (List.filter f l').
Proof.
  induction 1 as [|x l l' _ IH|x y l|l l' l'' _ IH1 _ IH2]; cbn [List.filter].
  - reflexivity.
  - destruct (f x); [constructor|]; exact IH.
  - destruct (f x), (f y); try reflexivity. apply perm_swap.
  - rewrite IH1. exact IH2.
Qed.

Lemma filter_filter_and {A : Type} (f g : A -> bool) (l : list A) :
  List.filter f (List.filter g l) = List.filter (fun x => g x && f x) l.
Proof.
  induction l as [|x l IH]; [reflexivity|].
  cbn [List.filter]. destruct (g x); cbn [andb List.filter]; [|exact IH].
  destruct (f x); [f_equal|]; exact IH.
Qed.

Section MonthlyListing.
Import Model TransactionController TransactionQueries.
Variable tz : Z.

#[local] Abbreviation monthStart := BudgetController.monthStart.

(** The window of [getMonthlyTransactions] holds the times whose month key,
    in local time, is the month asked for. *)
Lemma monthWindow_is_month year month t :
  1 <= month <= 12 -> ~ 0 <= year <= 99 ->
  monthWindow tz year month t
  = bool_decide (monthOf tz (t_date t) = (year, month)).
Proof.
  intros Hm Hy. unfold monthWindow, JSDate.newDate.
  assert (E : (0 <=? year) && (year <=? 99) = false).
  { destruct (Z.leb_spec 0 year), (Z.leb_spec year 99); try reflexivity. lia. }
  rewrite E. unfold JS.mkDate. rewrite !MakeDay_monthStart.
  unfold monthOf, JS.getFullYear, JS.getMonth, JS.localTime.
  destruct (JS.civil_from_days ((t_date t + tz) / JS.msPerDay)) as [[y m] d] eqn:Et.
  cbn [fst snd].
  destruct (civil_in_month _ _ _ _ Et) as (Hm' & _ & Hin).
  replace (12 * year + month) with (12 * year + (month - 1) + 1) by lia.
  set (k := 12 * year + (month - 1)) in *.
  assert (Hwin : monthStart k * JS.msPerDay <= t_date t + tz
                 <= (monthStart (k + 1) - 1) * JS.msPerDay + 86399999
                 <-> monthStart k <= (t_date t + tz) / JS.msPerDay < monthStart (k + 1))
    by apply day_bounds.
  case_bool_decide as Heq; [|rename Heq into Hne].
  - injection Heq as Hyy Hmm.
    assert (Hk : 12 * y + (m - 1) = k) by (unfold k; lia).
    rewrite Hk in Hin. apply Hwin in Hin.
    apply andb_true_iff. rewrite !Z.leb_le. lia.
  - apply andb_false_iff.
    destruct (Z.leb_spec ((monthStart k + 1 - 1) * JS.msPerDay
                          + (((0 * 60 + 0) * 60 + 0) * 1000 + 0) - tz) (t_date t))
      as [H1|H1]; [|left; reflexivity].
    right. apply Z.leb_gt. apply Z.lt_nge. intros H2. apply Hne.
    assert (Hk : k = 12 * y + (m - 1)).
    { apply (monthStart_unique _ _ ((t_date t + tz) / JS.msPerDay)); [|exact Hin].
      apply Hwin. lia. }
    unfold k in Hk. f_equal; lia.
Qed.

Lemma addBreakdown_sum cat a l :
  (JS.sumOf snd (addBreakdown cat a l) == JS.sumOf snd l + a)%Q.
Proof.
  induction l as [|[c v] l IH]; cbn [addBreakdown].
  - rewrite sumOf_cons, !sumOf_nil. cbn [snd]. ring.
  - destruct (String.eqb c cat).
    + rewrite !sumOf_cons. cbn [snd].
      unfold JS.eqb. destruct (Qeq_bool v 0) eqn:E; [|ring].
      apply Qeq_bool_iff in E. rewrite E. ring.
    + rewrite !sumOf_cons, IH. cbn [snd]. ring.
Qed.

Lemma fold_tally l income expenses breakdown :
  let '(income', expenses', breakdown') :=
    fold_left tally l (income, expenses, breakdown) in
  (income' == income
              + JS.sumOf t_amount (List.filter (fun t => String.eqb (t_type t) "income") l))%Q
  /\ (expenses' == expenses
                   + JS.sumOf t_amount
                       (List.filter (fun t => negb (String.eqb (t_type t) "income")) l))%Q
  /\ (JS.sumOf snd breakdown' - JS.sumOf snd breakdown == expenses' - expenses)%Q.
Proof.
  revert income expenses breakdown.
  induction l as [|t l IH]; intros income expenses breakdown; cbn [fold_left List.filter].
  - rewrite !sumOf_nil. repeat split; ring.
  - unfold tally at 2.
    destruct (String.eqb (t_type t) "income") eqn:E; cbn [negb].
    + specialize (IH (income + t_amount t)%Q expenses breakdown).
      destruct (fold_left tally l _) as [[i e] b]. destruct IH as (Hi & He & Hb).
      rewrite sumOf_cons. repeat split; [rewrite Hi; ring|exact He|exact Hb].
    + specialize (IH income (expenses + t_amount t)%Q
                     (addBreakdown (t_category t) (t_amount t) breakdown)).
      destruct (fold_left tally l _) as [[i e] b]. destruct IH as (Hi & He & Hb).
      rewrite sumOf_cons. rewrite addBreakdown_sum in Hb.
      repeat split; [exact Hi|rewrite He; ring|lra].
Qed.

Lemma sumOf_split {A : Type} (f : A -> Q) (g : A -> bool) (l : list A) :
  (JS.sumOf f l
   == JS.sumOf f (List.filter g l) + JS.sumOf f (List.filter (fun x => negb (g x)) l))%Q.
Proof.
  induction l as [|x l IH]; cbn [List.filter].
  - rewrite !sumOf_nil. ring.
  - destruct (g x); cbn [negb]; rewrite !sumOf_cons, IH; ring.
Qed.

(** X20. Over whole amounts and categories that bear no inherited name, the
    two totals in the answer of [getMonthlyTransactions] add up to the sum
    of the transactions listed, and the entries of the category breakdown
    add up to the total of the expenses. *)
Theorem monthly_totals_add_up (s : Store) (uid : nat) (year month : Z) :
  Whole.wholeAmounts (transactions s) = true ->
  Whole.plainCategories (transactions s) = true ->
  exists data,
    getMonthlyTransactions tz s uid year month
    = Respond 200 data "Monthly transactions fetched successfully"
    /\ (totalIncome data + totalExpenses data
        == JS.sumOf t_amount (ms_transactions data))%Q
    /\ (JS.sumOf snd (categoryBreakdown data) == totalExpenses data)%Q.
Proof.
  intros _ _. unfold getMonthlyTransactions.
  set (l := latestFirst _).
  pose proof (fold_tally l 0 0 []) as H.
  destruct (fold_left tally l _) as [[i e] b]. destruct H as (Hi & He & Hb).
  eexists. split; [reflexivity|].
  cbn [totalIncome totalExpenses ms_transactions categoryBreakdown].
  rewrite sumOf_nil in Hb. split; [|lra].
  rewrite Hi, He, (sumOf_split t_amount (fun t => String.eqb (t_type t) "income") l). ring.
Qed.

(** X21. For a month from 1 to 12 of a year that is not one of 0 to 99, the
    monthly listing holds the transactions of the user whose month key, in
    the local time of the server, is the month asked for; when the stored
    types are those of the schema and the amounts are whole, its total of
    expenses is the sum that the budget aggregate of that month tracks. *)
Theorem monthly_listing_is_month_key (s : Store) (uid : nat) (year month : Z) :
  1 <= month <= 12 -> ~ 0 <= year <= 99 ->
  exists data,
    getMonthlyTransactions tz s uid year month
    = Respond 200 data "Monthly transactions fetched successfully"
    /\ Permutation (ms_transactions data)
         (List.filter
            (fun t => Nat.eqb (t_user t) uid
                      && bool_decide (monthOf tz (t_date t) = (year, month)))
            (transactions s))
    /\ (Forall (fun t => inEnum (t_type t) typeEnum = true) (transactions s) ->
        Whole.wholeAmounts (transactions s) = true ->
        (totalExpenses data == liveSum tz s uid (year, month))%Q).
Proof.
  intros Hm Hy. unfold getMonthlyTransactions.
  set (l := latestFirst _).
  pose proof (fold_tally l 0 0 []) as H.
  destruct (fold_left tally l _) as [[i e] b]. destruct H as (_ & He & _).
  eexists. split; [reflexivity|].
  cbn [totalExpenses ms_transactions].
  assert (Hl : Permutation l
                 (List.filter
                    (fun t => Nat.eqb (t_user t) uid
                              && bool_decide (monthOf tz (t_date t) = (year, month)))
                    (transactions s))).
  { unfold l, latestFirst. rewrite <- sort_perm.
    erewrite List.filter_ext; [reflexivity|].
    intros t. cbv beta. rewrite (monthWindow_is_month year month t Hm Hy). reflexivity. }
  split; [exact Hl|].
  intros Hty _. rewrite He, Qplus_0_l.
  rewrite (sumOf_perm _ _ _ (filter_perm _ _ _ Hl)).
  rewrite filter_filter_and. unfold liveSum.
  clear He Hl. clear l.
  induction Hty as [|t ts Ht _ IH]; [reflexivity|].
  cbn [List.filter]. unfold countsFor at 1.
  assert (Hexp : negb (String.eqb (t_type t) "income") = String.eqb (t_type t) "expense").
  { revert Ht. unfold inEnum, typeEnum. cbn [existsb].
    destruct (String.eqb_spec (t_type t) "income") as [->|_]; [reflexivity|].
    cbn [orb negb]. rewrite orb_false_r. intros ->. reflexivity. }
  rewrite Hexp.
  destruct (Nat.eqb (t_user t) uid); cbn [andb]; [|exact IH].
  destruct (String.eqb (t_type t) "expense"); rewrite ?andb_false_r; cbn [andb];
    [|exact IH].
  rewrite andb_true_r.
  destruct (bool_decide _); [|exact IH].
  rewrite !sumOf_cons, IH. reflexivity.
Qed.
End MonthlyListing.

Section Pagination.
Import Model TransactionQueries.
Variable regexTest : string -> string -> bool.

Lemma ceil_div a b :
  0 < b -> JS.ceil (inject_Z a / inject_Z b) = - ((- a) / b).
Proof.
  intros Hb. unfold JS.ceil, Qceiling. f_equal.
  rewrite Zdiv_Qdiv. apply Qfloor_comp.
  rewrite inject_Z_opp. unfold Qdiv. ring.
Qed.

Lemma pages_concat {A : Type} (L P : nat) (l : list A) :
  (0 < L)%nat -> (length l <= P * L)%nat ->
  List.concat (List.map (fun i => List.firstn L (List.skipn (i * L) l)) (seq 0 P)) = l.
Proof.
  intros HL. revert l. induction P as [|P IH]; intros l Hlen.
  - destruct l; [reflexivity|cbn in Hlen; lia].
  - cbn [seq List.map List.concat]. rewrite <- List.seq_shift, List.map_map.
    transitivity (List.firstn L l ++ List.skipn L l); [|apply List.firstn_skipn].
    f_equal.
    rewrite <- (IH (List.skipn L l)) at 1.
    + f_equal. apply List.map_ext. intros i.
      replace (S i * L)%nat with (i * L + L)%nat by lia.
      rewrite <- List.skipn_skipn. reflexivity.
    + rewrite List.length_skipn. lia.
Qed.

Lemma pageOf_slice s uid q page :
  0 < Query.orDefault (q_limit q) 10 -> 1 <= page ->
  pageOf regexTest s uid q page
  = List.firstn (Z.to_nat (Query.orDefault (q_limit q) 10))
      (List.skipn (Z.to_nat ((page - 1) * Query.orDefault (q_limit q) 10))
         (latestFirst (List.filter (matchesQuery regexTest uid q) (transactions s)))).
Proof.
  intros HL Hp. unfold pageOf, getTransactions, Query.skipLimit.
  cbn [q_page q_limit Query.orDefault].
  set (L := Query.orDefault (q_limit q) 10) in *.
  change (match q_limit q with Some x => x | None => 10 end) with L.
  destruct (Z.ltb_spec ((page - 1) * L) 0) as [H|_]; [nia|].
  destruct (Z.eqb_spec L 0) as [H|_]; [lia|].
  rewrite Z.abs_eq by lia. reflexivity.
Qed.

(** X22. The page count that [getTransactions] reports is the number of pages
    of the listing: for a positive [limit], and transactions that match of
    which no two bear the same date, the pages from 1 to [totalPages] put
    one after the other are the transactions that match, latest first, and
    every later page is empty. *)
Theorem pages_cover_listing (s : Store) (uid : nat) (q : ListQuery)
    (transactions' : list Transaction) (pg : Pagination) (message : string) (pages : Z) :
  List.NoDup (List.map t_date (List.filter (matchesQuery regexTest uid q) (transactions s))) ->
  getTransactions regexTest s uid q = inr (Respond 200 (transactions', pg) message) ->
  0 < pg_limit pg -> pg_totalPages pg = Some pages ->
  List.concat (List.map (fun i => pageOf regexTest s uid q (Z.of_nat i))
                        (seq 1 (Z.to_nat pages)))
  = latestFirst (List.filter (matchesQuery regexTest uid q) (transactions s))
  /\ (forall page, pages < page -> pageOf regexTest s uid q page = [])
  /\ pg_total pg = length (List.filter (matchesQuery regexTest uid q) (transactions s)).
Proof.
  intros _. unfold getTransactions.
  set (L := Query.orDefault (q_limit q) 10).
  set (found := List.filter (matchesQuery regexTest uid q) (transactions s)).
  destruct (Query.skipLimit _ _ _); [discriminate|].
  intros [= _ <-]. cbn [pg_limit pg_totalPages pg_total]. intros HL.
  unfold Query.totalPages. destruct (Z.eqb_spec L 0) as [HL0|_]; [lia|].
  rewrite (ceil_div _ _ HL). intros [= <-].
  set (n := Z.of_nat (length found)).
  assert (Hn : 0 <= n) by (unfold n; lia).
  assert (Hpages : n <= - (- n / L) * L /\ 0 <= - (- n / L)).
  { Z.div_mod_to_equations. nia. }
  split; [|split; [|reflexivity]].
  - rewrite <- (pages_concat (Z.to_nat L) (Z.to_nat (- (- n / L))) (latestFirst found)).
    + rewrite <- List.seq_shift, List.map_map. f_equal. apply List.map_ext. intros i.
      rewrite pageOf_slice by (fold L; lia). fold L. fold found.
      f_equal. f_equal. rewrite Z2Nat.inj_mul by lia.
      rewrite Nat2Z.inj_succ, Z.sub_1_r, Z.pred_succ, Nat2Z.id. reflexivity.
    + lia.
    + unfold latestFirst. rewrite sort_length. fold n in Hpages.
      rewrite <- Z2Nat.inj_mul by lia. lia.
  - intros page Hpage. rewrite pageOf_slice by (fold L; lia). fold L. fold found.
    rewrite List.skipn_all2; [destruct (Z.to_nat L); reflexivity|].
    unfold latestFirst. rewrite sort_length. fold n in Hpages. nia.
Qed.
End Pagination.

(** ** The days that remain in the month *)

Section RemainingDays.
Import Model BudgetController.

Ltac civil_solve :=
  repeat first [rewrite days_from_civil_early by lia
               |rewrite days_from_civil_late by lia];
  Z.div_mod_to_equations; lia.

(** No month has more than 31 days. *)
Lemma monthStart_step_max k : monthStart (k + 1) <= monthStart k + 31.
Proof.
  rewrite !monthStart_eq.
  pose proof (Z.mod_pos_bound k 12 ltac:(lia)) as Hr.
  pose proof (Z.div_mod k 12 ltac:(lia)) as Hk.
  set (q := k / 12) in *. set (r := k mod 12) in *.
  destruct (Z.eq_dec r 11) as [Hr11|Hr11].
  - replace (k + 1) with (12 * (q + 1) + 0) by lia.
    destruct (index_div (q + 1) 0 ltac:(lia)) as [-> ->]. rewrite Hr11.
    civil_solve.
  - replace (k + 1) with (12 * q + (r + 1)) by lia.
    destruct (index_div q (r + 1) ltac:(lia)) as [-> ->].
    assert (Hc : r = 0 \/ r = 1 \/ r = 2 \/ r = 3 \/ r = 4 \/ r = 5 \/ r = 6
                 \/ r = 7 \/ r = 8 \/ r = 9 \/ r = 10) by lia.
    clearbody q r.
    destruct Hc as [->|[->|[->|[->|[->|[->|[->|[->|[->|[->| ->]]]]]]]]]];
      civil_solve.
Qed.

(** The day of the month read off a day number counts from the first day of
    the month that holds the day. *)
Lemma civil_day z y m d :
  JS.civil_from_days z = (y, m, d) ->
  d = z - monthStart (12 * y + (m - 1)) + 1.
Proof.
  unfold JS.civil_from_days.
  set (z' := z + 719468).
  set (era := z' / 146097).
  set (doe := z' - era * 146097).
  assert (Hdoe : 0 <= doe < 146097).
  { unfold doe, era. pose proof (Z.div_mod z' 146097 ltac:(lia)).
    pose proof (Z.mod_pos_bound z' 146097 ltac:(lia)). lia. }
  set (yoe := (doe - doe / 1460 + doe / 36524 - doe / 146096) / 365).
  set (doy := doe - (365 * yoe + yoe / 4 - yoe / 100)).
  assert (Hyoe : 0 <= yoe < 400 /\ 0 <= doy < 366).
  { unfold doy, yoe. clearbody doe. Z.div_mod_to_equations; lia. }
  set (mp := (5 * doy + 2) / 153).
  assert (Hmp : 0 <= mp <= 11) by (unfold mp; Z.div_mod_to_equations; lia).
  assert (Hz : z = era * 146097 + doe - 719468) by (unfold doe, z'; lia).
  assert (Hdoy : doy = doe - (365 * yoe + yoe / 4 - yoe / 100)) by reflexivity.
  assert (Hmpd : mp = (5 * doy + 2) / 153) by reflexivity.
  set (m0 := if mp <? 10 then mp + 3 else mp - 9).
  assert (Hm0 : (mp < 10 /\ m0 = mp + 3) \/ (10 <= mp /\ m0 = mp - 9))
    by (unfold m0; destruct (Z.ltb_spec mp 10); lia).
  set (y0 := if m0 <=? 2 then yoe + era * 400 + 1 else yoe + era * 400).
  assert (Hy0 : (m0 <= 2 /\ y0 = yoe + era * 400 + 1)
                \/ (2 < m0 /\ y0 = yoe + era * 400))
    by (unfold y0; destruct (Z.leb_spec m0 2); lia).
  clearbody doy yoe era doe mp m0 y0. clear z'. subst z.
  intros [= <- <- <-].
  rewrite monthStart_index by lia.
  destruct Hm0 as [[? Hm0]|[? Hm0]];
    destruct Hy0 as [[? Hy0]|[? Hy0]]; try lia; subst m0 y0; civil_solve.
Qed.

Section Zone.
Variable tz : Z.

(** The remaining days count from the local day of [now] to the last day of
    its month. *)
Lemma getRemainingDays_eq now y m d :
  JS.civil_from_days (JSDate.localDay tz now) = (y, m, d) ->
  AIController.getRemainingDays tz now
  = monthStart (12 * y + (m - 1) + 1) - 1 - JSDate.localDay tz now.
Proof.
  intros Hnow. unfold AIController.getRemainingDays.
  destruct (civil_in_month _ _ _ _ Hnow) as (Hm & _ & Hin).
  pose proof (civil_day _ _ _ _ Hnow) as Hd.
  unfold JS.getDate, JS.getFullYear, JS.getMonth, JS.mkDate.
  change (JS.localTime tz now / JS.msPerDay) with (JSDate.localDay tz now).
  rewrite Hnow. cbn [fst snd].
  rewrite MakeDay_monthStart.
  replace (12 * y + (m - 1 + 1)) with (12 * y + (m - 1) + 1) by lia.
  set (k := 12 * y + (m - 1)) in *.
  assert (Hlast : JS.localTime tz
                    ((monthStart (k + 1) + 0 - 1) * JS.msPerDay
                     + (((0 * 60 + 0) * 60 + 0) * 1000 + 0) - tz) / JS.msPerDay
                  = monthStart (k + 1) - 1).
  { unfold JS.localTime, JS.msPerDay. Z.div_mod_to_equations. lia. }
  rewrite Hlast.
  destruct (JS.civil_from_days (monthStart (k + 1) - 1)) as [[y' m'] d'] eqn:Elast.
  cbn [snd].
  destruct (civil_in_month _ _ _ _ Elast) as (Hm' & _ & Hin').
  pose proof (civil_day _ _ _ _ Elast) as Hd'.
  pose proof (monthStart_step k) as Hstep.
  assert (Hk : 12 * y' + (m' - 1) = k).
  { apply (monthStart_unique _ _ (monthStart (k + 1) - 1)); [exact Hin'|lia]. }
  rewrite Hk in Hd'. lia.
Qed.

(** X23. The forecast never counts a negative number of remaining days, and
    never more than 30; the count is 0 on the last day of the month, and
    then only.  ([now] is a current time: its year is past 99, and the year
    given to [new Date(year, month, 0)] is read as it is.) *)
Theorem remaining_days_bounds (now : Z) :
  0 <= AIController.getRemainingDays tz now <= 30
  /\ (AIController.getRemainingDays tz now = 0
      <-> AIController.getCurrentMonth tz (now + JS.msPerDay)
          <> AIController.getCurrentMonth tz now).
Proof.
  destruct (JS.civil_from_days (JSDate.localDay tz now)) as [[y m] d] eqn:Hnow.
  rewrite (getRemainingDays_eq now y m d Hnow).
  destruct (civil_in_month _ _ _ _ Hnow) as (Hm & _ & Hin).
  set (k := 12 * y + (m - 1)) in *.
  pose proof (monthStart_step_max k) as Hmax.
  split; [lia|].
  unfold AIController.getCurrentMonth, JS.getFullYear, JS.getMonth.
  change (JS.localTime tz now / JS.msPerDay) with (JSDate.localDay tz now).
  rewrite Hnow. cbn [fst snd].
  assert (Hnext : JS.localTime tz (now + JS.msPerDay) / JS.msPerDay
                  = JSDate.localDay tz now + 1).
  { unfold JSDate.localDay, JS.localTime, JS.msPerDay. Z.div_mod_to_equations. lia. }
  rewrite Hnext.
  destruct (JS.civil_from_days (JSDate.localDay tz now + 1)) as [[y' m'] d'] eqn:Enext.
  cbn [fst snd].
  destruct (civil_in_month _ _ _ _ Enext) as (Hm' & _ & Hin').
  split.
  - intros Hzero Heq. injection Heq as Hy' Hm''.
    assert (Hk : 12 * y' + (m' - 1) = k) by (unfold k; lia).
    rewrite Hk in Hin'. lia.
  - intros Hne.
    destruct (Z.eq_dec (monthStart (k + 1) - 1 - JSDate.localDay tz now) 0) as [|Hpos];
      [assumption|].
    exfalso. apply Hne.
    assert (Hk : 12 * y' + (m' - 1) = k).
    { apply (monthStart_unique _ _ (JSDate.localDay tz now + 1)); [exact Hin'|lia]. }
    unfold k in Hk. f_equal; lia.
Qed.
End Zone.
End RemainingDays.

(** ** Reading the budget back *)

Section BudgetReads.
Import Model BudgetController BudgetQueries.
Variable tz : Z.

(** X24. After a budget-set of a positive limit, [getCurrentBudget] at the
    same time answers with the very data that the budget-set answered, and
    [getBudgetStatus] with the same data and its colour. *)
Theorem budget_read_back (now : Z) (s : Store) (uid : nat) (limit : Q) :
  (0 < limit)%Q ->
  exists data,
    snd (setBudget tz now s uid (Some limit))
    = Respond 200 data "Budget set successfully"
    /\ getCurrentBudget tz now (fst (setBudget tz now s uid (Some limit))) uid
       = Respond 200 data "Budget fetched successfully"
    /\ bd_monthlyBudget data = limit
    /\ exists alert,
         getBudgetStatus tz now (fst (setBudget tz now s uid (Some limit))) uid
         = Respond 200 (mkBudgetStatus alert (bd_statusColor data) data)
                   "Budget status fetched successfully".
Proof.
  intros Hpos.
  destruct (setBudget_scans tz now s uid limit Hpos) as [Hfind _].
  unfold getCurrentBudget, getBudgetStatus. rewrite Hfind. clear Hfind.
  unfold setBudget.
  assert (E : JS.eqb limit 0 || JS.leb limit 0 = false).
  { apply orb_false_iff. split.
    - unfold JS.eqb. destruct (Qeq_bool limit 0) eqn:E; [|reflexivity].
      apply Qeq_bool_iff in E. lra.
    - apply leb_gt. exact Hpos. }
  rewrite E. cbn [snd].
  eexists. split.
  { destruct (Budget_findOne s uid _); reflexivity. }
  split; [reflexivity|]. split; [reflexivity|].
  eexists. reflexivity.
Qed.
End BudgetReads.

(** ** The personality answer and the suggestions *)

Section Insights.
Import Model Bills AIController Suggestions.

Lemma In_firstn {A : Type} (n : nat) (l : list A) (y : A) :
  In y (firstn n l) -> In y l.
Proof.
  revert n. induction l as [|x l IH]; intros [|n]; cbn [firstn]; try (intros []).
  - left. assumption.
  - right. eapply IH. eassumption.
Qed.

Lemma sorted_firstn {A : Type} (R : A -> A -> Prop) (n : nat) (l : list A) :
  StronglySorted R l -> StronglySorted R (firstn n l).
Proof.
  intros H. revert n. induction H as [|x l _ IH Hx]; intros [|n]; cbn [firstn];
    try constructor.
  - apply IH.
  - rewrite List.Forall_forall in Hx |- *. intros y Hy.
    apply Hx. exact (In_firstn _ _ _ Hy).
Qed.

Lemma sorted_impl {A : Type} (R R' : A -> A -> Prop) (l : list A) :
  (forall a b, R a b -> R' a b) -> StronglySorted R l -> StronglySorted R' l.
Proof.
  intros HR. induction 1 as [|x l _ IH Hx]; constructor; [exact IH|].
  eapply List.Forall_impl; [|exact Hx]. exact (HR x).
Qed.

Lemma percentages_sorted l :
  StronglySorted (fun a b => snd b <= snd a) (percentages l).
Proof.
  unfold percentages.
  apply (sorted_impl (fun a b : string * Z => - snd a <= - snd b)); [intros a b; lia|].
  apply (sort_sorted _ (fun e : string * Z => - snd e) (fun _ => True)).
  - intros x y _ _.
    destruct (Z.ltb_spec (- snd y) (- snd x)) as [Hlt|Hge].
    + apply ltb_lt. unfold Qminus.
      rewrite <- inject_Z_opp, <- inject_Z_plus, <- (Zlt_Qlt 0). lia.
    + apply ltb_ge. unfold Qminus.
      rewrite <- inject_Z_opp, <- inject_Z_plus, <- (Zle_Qle _ 0). lia.
  - rewrite List.Forall_forall. intros; exact I.
Qed.

(** X25. When the stored transactions pass the schema validators and the
    categories of the expenses of the last 90 days bear no inherited name,
    the top categories that [getPersonality] sends are at most three and are
    listed from the largest share of the spending to the smallest. *)
Theorem top_categories_descend (tz now : Z) (s : Store) (user : User) (p : Personality)
    (message : string) :
  Whole.allValid (transactions s) = true ->
  Whole.plainCategories (expensesSince s (u_id user) (daysAgo tz now 90)) = true ->
  getPersonality tz now s user = Respond 200 (Some p) message ->
  StronglySorted (fun a b => snd b <= snd a) (topCategories p)
  /\ (length (topCategories p) <= 3)%nat.
Proof.
  intros _ _. unfold getPersonality.
  set (l := expensesSince s (u_id user) (daysAgo tz now 90)).
  assert (Hs : StronglySorted (fun a b => snd b <= snd a) (firstn 3 (percentages l)))
    by apply sorted_firstn, percentages_sorted.
  assert (Hl : (length (firstn 3 (percentages l)) <= 3)%nat)
    by (rewrite List.length_firstn; lia).
  destruct (negb _); [discriminate|].
  destruct (_ <? 5)%nat; [discriminate|].
  repeat match goal with
         | |- context [if ?c then _ else _] => destruct c
         | |- context [match head ?c with _ => _ end] => destruct (head c)
         end;
    try discriminate; intros [= <- _]; cbn [topCategories]; split; assumption.
Qed.

Lemma addTotal_sum cat a l :
  (JS.sumOf snd (addTotal cat a l) == JS.sumOf snd l + a)%Q.
Proof.
  induction l as [|[c v] l IH]; cbn [addTotal].
  - rewrite sumOf_cons, !sumOf_nil. cbn [snd]. ring.
  - destruct (String.eqb c cat); rewrite !sumOf_cons; [|rewrite IH]; cbn [snd]; ring.
Qed.

Lemma addTotal_pos cat a l :
  (0 < a)%Q -> Forall (fun e => (0 < snd e)%Q) l ->
  Forall (fun e => (0 < snd e)%Q) (addTotal cat a l).
Proof.
  intros Ha. induction 1 as [|[c v] l Hv Hl IH]; cbn [addTotal].
  - constructor; [cbn [snd]; lra|constructor].
  - cbn [snd] in Hv.
    destruct (String.eqb c cat); constructor; try assumption; cbn [snd]; lra.
Qed.

Lemma categoryTotals_sum_pos l :
  Forall (fun t => (0 < t_amount t)%Q) l ->
  (JS.sumOf snd (categoryTotals l) == JS.sumOf t_amount l)%Q
  /\ Forall (fun e => (0 < snd e)%Q) (categoryTotals l).
Proof.
  unfold categoryTotals. intros Hl.
  assert (H : forall acc,
             Forall (fun e => (0 < snd e)%Q) acc ->
             (JS.sumOf snd
                (fold_left (fun totals t => addTotal (t_category t) (t_amount t) totals) l acc)
              == JS.sumOf snd acc + JS.sumOf t_amount l)%Q
             /\ Forall (fun e => (0 < snd e)%Q)
                  (fold_left (fun totals t => addTotal (t_category t) (t_amount t) totals)
                             l acc)).
  { induction Hl as [|t l Ht _ IH]; intros acc Hacc; cbn [fold_left].
    - rewrite sumOf_nil. split; [ring|exact Hacc].
    - destruct (IH (addTotal (t_category t) (t_amount t) acc)
                   (addTotal_pos _ _ _ Ht Hacc)) as [Hsum Hpos].
      split; [|exact Hpos].
      rewrite Hsum, addTotal_sum, sumOf_cons. ring. }
  destruct (H [] ltac:(constructor)) as [Hsum Hpos].
  split; [|exact Hpos]. rewrite Hsum, sumOf_nil. ring.
Qed.

Lemma sumOf_above {A : Type} (f : A -> Q) (c : Q) (l : list A) :
  Forall (fun x => (c < f x)%Q) l ->
  l = [] \/ (inject_Z (Z.of_nat (length l)) * c < JS.sumOf f l)%Q.
Proof.
  induction 1 as [|x l Hx _ IH]; [left; reflexivity|right].
  rewrite sumOf_cons. cbn [length]. rewrite Nat2Z.inj_succ, <- Z.add_1_l, inject_Z_plus.
  destruct IH as [->|IH].
  - rewrite sumOf_nil. cbn [length]. change (inject_Z (Z.of_nat 0)) with 0%Q.
    change (inject_Z 1) with 1%Q. lra.
  - change (inject_Z 1) with 1%Q. lra.
Qed.

Lemma sumOf_filter_le {A : Type} (f : A -> Q) (g : A -> bool) (l : list A) :
  Forall (fun x => (0 <= f x)%Q) l ->
  (JS.sumOf f (List.filter g l) <= JS.sumOf f l)%Q.
Proof.
  induction 1 as [|x l Hx _ IH]; cbn [List.filter]; [lra|].
  destruct (g x); rewrite !sumOf_cons; lra.
Qed.

(** No more than three categories take more than a quarter of the total. *)
Lemma categorySuggestions_length l :
  Forall (fun t => (0 < t_amount t)%Q) l ->
  (length (categorySuggestions l) <= 3)%nat.
Proof.
  intros Hl. unfold categorySuggestions. rewrite List.length_map.
  destruct (categoryTotals_sum_pos l Hl) as [Hsum Hpos].
  set (T := JS.sumOf t_amount l) in *.
  set (big := List.filter _ _).
  assert (HT : (0 <= T)%Q).
  { apply sumOf_nonneg. eapply List.Forall_impl; [|exact Hl]. cbv beta. intros; lra. }
  assert (Hbig : Forall (fun e => (T * (1 # 4) < snd e)%Q) big).
  { rewrite List.Forall_forall. intros e He.
    apply List.filter_In in He as [Hin He]. apply ltb_lt in He.
    rewrite List.Forall_forall in Hpos. specialize (Hpos e Hin). cbv beta in Hpos.
    destruct (Qlt_le_dec 0 T) as [HTpos|HT0].
    - assert (Hq : (snd e == snd e / T * T)%Q) by (field; lra).
      set (q := (snd e / T)%Q) in *. rewrite Hq. nra.
    - assert (T == 0)%Q by lra. lra. }
  assert (Hle : (JS.sumOf snd big <= T)%Q).
  { rewrite <- Hsum. apply sumOf_filter_le.
    eapply List.Forall_impl; [|exact Hpos]. cbv beta. intros; lra. }
  destruct (sumOf_above snd (T * (1 # 4))%Q big Hbig) as [->|Hsumbig]; [cbn; lia|].
  destruct (Qlt_le_dec 0 T) as [HTpos|HT0].
  - assert (Hn : (inject_Z (Z.of_nat (length big)) < 4)%Q).
    { apply Qnot_le_lt. intros Hge.
      assert (Hprod : (0 <= (inject_Z (Z.of_nat (length big)) - 4) * (T * (1 # 4)))%Q)
        by (apply Qmult_le_0_compat; lra).
      lra. }
    change 4%Q with (inject_Z 4) in Hn. rewrite <- Zlt_Qlt in Hn. lia.
  - (* a total of zero: there is no transaction, and no category *)
    destruct l as [|t l']; [cbn; lia|].
    exfalso. apply Forall_cons in Hl as [Ht Hl'].
    assert (0 <= JS.sumOf t_amount l')%Q.
    { apply sumOf_nonneg. eapply List.Forall_impl; [|exact Hl']. cbv beta. intros; lra. }
    unfold T in HT0. rewrite sumOf_cons in HT0. lra.
Qed.

Section Handler.
Variable tz : Z.
Variable showNumber : Q -> string.

(** X26. The suggestions for upcoming bills are for the pending bills of the
    user that fall due within four days of the run, the run included; the
    test that the days left are not negative excludes nothing. *)
Theorem bill_suggestions_window (now : Z) (bs : BillStore) (uid : nat) :
  billSuggestions showNumber now bs uid
  = List.map (billSuggestion showNumber now)
      (List.filter
         (fun b => Nat.eqb (bl_user b) uid && String.eqb (bl_status b) "pending"
                   && (now <=? bl_dueDate b)
                   && (bl_dueDate b <=? now + 4 * 24 * 60 * 60 * 1000))
         (bills bs)).
Proof.
  unfold billSuggestions, upcomingBills. f_equal.
  rewrite filter_filter_and. apply List.filter_ext. intros b.
  destruct (Nat.eqb (bl_user b) uid && String.eqb (bl_status b) "pending");
    cbn [andb]; [|reflexivity].
  pose proof (ceilDays_le (bl_dueDate b - now) 4) as H4.
  pose proof (ceilDays_le (bl_dueDate b - now) (-1)) as Hneg.
  unfold JS.msPerDay in *.
  destruct (Z.leb_spec now (bl_dueDate b)), (Z.leb_spec (bl_dueDate b) (now + 4 * 24 * 60 * 60 * 1000)),
    (Z.leb_spec (bl_dueDate b) (now + 7 * 24 * 60 * 60 * 1000)),
    (Z.leb_spec (JSDate.ceilDays (bl_dueDate b - now)) 4),
    (Z.leb_spec 0 (JSDate.ceilDays (bl_dueDate b - now))); cbn [andb]; try reflexivity; lia.
Qed.

(** X27. When the stored transactions pass the schema validators, their
    amounts are whole and the categories of the expenses of the last 30 days
    bear no inherited name, at most three of the suggestions are about a
    category, and the answer holds at most seven suggestions besides those
    for upcoming bills. *)
Theorem suggestions_bounded (now : Z) (s : Store) (bs : BillStore) (user : User)
    (suggestions : list Suggestion) (message : string) :
  Forall (fun t => validateTransaction t = None) (transactions s) ->
  Whole.wholeAmounts (transactions s) = true ->
  Whole.plainCategories (expensesSince s (u_id user) (daysAgo tz now 30)) = true ->
  getSuggestions tz showNumber now s bs user = Respond 200 (Some suggestions) message ->
  (length (categorySuggestions
             (expensesSince s (u_id user) (daysAgo tz now 30))) <= 3)%nat
  /\ (length suggestions <= 7 + length (upcomingBills now bs (u_id user)))%nat.
Proof.
  intros Hval _ _. unfold getSuggestions.
  destruct (suggestionsOff user); [discriminate|].
  set (l := expensesSince s (u_id user) (daysAgo tz now 30)).
  destruct (Nat.eqb (length l) 0); [discriminate|].
  intros [= <- _].
  assert (Hcat : (length (categorySuggestions l) <= 3)%nat).
  { apply categorySuggestions_length. unfold l, expensesSince.
    rewrite List.Forall_forall in Hval |- *. intros t Ht.
    apply List.filter_In in Ht as [Ht _]. apply validate_amount_pos, Hval, Ht. }
  split; [exact Hcat|].
  rewrite !length_app.
  assert (Hb : (length (budgetSuggestions
                          (Budget_findOne s (u_id user) (getCurrentMonth tz now))) <= 1)%nat).
  { unfold budgetSuggestions. destruct (Budget_findOne _ _ _); [|cbn; lia].
    destruct (JS.ltb 100 _); [cbn; lia|]. destruct (JS.ltb 80 _); cbn; lia. }
  assert (Hp : (length (personalitySuggestions
                          (determinePersonality tz now s (u_id user))) <= 1)%nat).
  { unfold personalitySuggestions. destruct (determinePersonality _ _ _ _); [|cbn; lia].
    repeat (destruct (String.eqb _ _); [cbn; lia|]). cbn; lia. }
  assert (Hf : (length (frequencySuggestions l) <= 1)%nat).
  { unfold frequencySuggestions. destruct (JS.ltb 4 _); cbn; lia. }
  assert (Hh : (length (highValueSuggestions showNumber l) <= 1)%nat).
  { unfold highValueSuggestions. destruct (_ <? _)%nat; cbn; lia. }
  assert (Hbill : (length (billSuggestions showNumber now bs (u_id user))
                   <= length (upcomingBills now bs (u_id user)))%nat).
  { unfold billSuggestions. rewrite List.length_map. apply List.filter_length_le. }
  lia.
Qed.
End Handler.
End Insights.

(** ** Trend alerts and challenges, run after run *)

Section TrendRuns.
Import Model AlertService Runs.

Lemma checkIncrease_appends now userId lastWeekMap cat :
  exists l,
    (length l <= 1)%nat
    /\ Forall (fun a => a_user a = castUser userId /\ a_type a = "trend"%string) l
    /\ forall s, alerts (checkIncrease now userId lastWeekMap s cat) = alerts s ++ l.
Proof.
  unfold checkIncrease.
  destruct (lastWeekAmountOf lastWeekMap (fst cat)) as [lastWeekAmount|].
  2: { exists []. split; [cbn; lia|]. split; [constructor|]. intros s. symmetry. apply app_nil_r. }
  destruct (JS.eqb lastWeekAmount 0).
  { exists []. split; [cbn; lia|]. split; [constructor|]. intros s. symmetry. apply app_nil_r. }
  destruct (JS.leb 20 _).
  - eexists [_]. split; [cbn; lia|]. split; [|intros s; reflexivity].
    constructor; [split; reflexivity|constructor].
  - exists []. split; [cbn; lia|]. split; [constructor|]. intros s. symmetry. apply app_nil_r.
Qed.

Lemma checkIncrease_rest now userId lastWeekMap s cat :
  transactions (checkIncrease now userId lastWeekMap s cat) = transactions s
  /\ budgets (checkIncrease now userId lastWeekMap s cat) = budgets s
  /\ nextId (checkIncrease now userId lastWeekMap s cat) = nextId s.
Proof.
  unfold checkIncrease.
  destruct (lastWeekAmountOf lastWeekMap (fst cat)); [|repeat split; reflexivity].
  repeat match goal with |- context [if ?c then _ else _] => destruct c end;
    repeat split; reflexivity.
Qed.

Lemma fold_checkIncrease_appends now userId lastWeekMap cats :
  exists l,
    (length l <= length cats)%nat
    /\ Forall (fun a => a_user a = castUser userId /\ a_type a = "trend"%string) l
    /\ forall s, alerts (fold_left (checkIncrease now userId lastWeekMap) cats s)
                 = alerts s ++ l.
Proof.
  induction cats as [|cat cats (l & Hlen & Hl & IH)]; cbn [fold_left].
  - exists []. split; [cbn; lia|]. split; [constructor|]. intros s. symmetry. apply app_nil_r.
  - destruct (checkIncrease_appends now userId lastWeekMap cat) as (l1 & Hlen1 & Hl1 & H1).
    exists (l1 ++ l). split; [rewrite length_app; cbn [length]; lia|].
    split; [apply Forall_app; split; assumption|].
    intros s. rewrite IH, H1, app_assoc. reflexivity.
Qed.

Lemma fold_checkIncrease_rest now userId lastWeekMap cats s :
  transactions (fold_left (checkIncrease now userId lastWeekMap) cats s) = transactions s
  /\ budgets (fold_left (checkIncrease now userId lastWeekMap) cats s) = budgets s
  /\ nextId (fold_left (checkIncrease now userId lastWeekMap) cats s) = nextId s.
Proof.
  revert s. induction cats as [|cat cats IH]; intros s; cbn [fold_left]; [auto|].
  destruct (IH (checkIncrease now userId lastWeekMap s cat)) as (-> & -> & ->).
  apply checkIncrease_rest.
Qed.

Lemma generateTrendAlerts_rest now s userId :
  transactions (generateTrendAlerts now s userId) = transactions s
  /\ budgets (generateTrendAlerts now s userId) = budgets s
  /\ nextId (generateTrendAlerts now s userId) = nextId s.
Proof.
  unfold generateTrendAlerts.
  destruct (fold_checkIncrease_rest now userId (toMap (lastWeekExpenses now s userId))
              (thisWeekExpenses now s userId)
              (Alert_deleteMany s
                 (fun a => Nat.eqb (a_user a) (castUser userId) && String.eqb (a_type a) "trend")))
    as (-> & -> & ->).
  repeat split; reflexivity.
Qed.

Lemma generateTrendAlerts_alerts now s userId :
  alerts (generateTrendAlerts now s userId)
  = List.filter (fun a => negb (Nat.eqb (a_user a) (castUser userId) && String.eqb (a_type a) "trend"))
                (alerts s)
    ++ freshTrendAlerts now userId (toMap (lastWeekExpenses now s userId))
                        (thisWeekExpenses now s userId).
Proof.
  unfold generateTrendAlerts, freshTrendAlerts.
  destruct (fold_checkIncrease_appends now userId (toMap (lastWeekExpenses now s userId))
              (thisWeekExpenses now s userId)) as (l & _ & _ & H).
  rewrite !H. reflexivity.
Qed.

Lemma freshTrendAlerts_spec now userId lastWeekMap cats :
  (length (freshTrendAlerts now userId lastWeekMap cats) <= length cats)%nat
  /\ Forall (fun a => a_user a = castUser userId /\ a_type a = "trend"%string)
            (freshTrendAlerts now userId lastWeekMap cats).
Proof.
  unfold freshTrendAlerts.
  destruct (fold_checkIncrease_appends now userId lastWeekMap cats) as (l & Hlen & Hl & H).
  rewrite H. cbn [alerts app]. split; assumption.
Qed.

Lemma weeks_of_same_ledger now s s' userId :
  transactions s' = transactions s ->
  thisWeekExpenses now s' userId = thisWeekExpenses now s userId
  /\ lastWeekExpenses now s' userId = lastWeekExpenses now s userId.
Proof.
  intros H. unfold thisWeekExpenses, lastWeekExpenses, matchThisWeek, matchLastWeek.
  rewrite H. split; reflexivity.
Qed.

(** X28. After a run of [generateTrendAlerts] the trend alerts of the user are
    those of this run, at most one for each category of this week's
    expenses; the other alerts stay, and a second run at the same time
    changes nothing. *)
Theorem trend_alerts_replaced (now : Z) (s : Store) (userId : UserRef) :
  trendAlertsOf (generateTrendAlerts now s userId) (castUser userId)
  = freshTrendAlerts now userId (toMap (lastWeekExpenses now s userId))
                     (thisWeekExpenses now s userId)
  /\ (length (trendAlertsOf (generateTrendAlerts now s userId) (castUser userId))
      <= length (thisWeekExpenses now s userId))%nat
  /\ List.filter (fun a => negb (Nat.eqb (a_user a) (castUser userId) && String.eqb (a_type a) "trend"))
                 (alerts (generateTrendAlerts now s userId))
     = List.filter (fun a => negb (Nat.eqb (a_user a) (castUser userId) && String.eqb (a_type a) "trend"))
                   (alerts s)
  /\ generateTrendAlerts now (generateTrendAlerts now s userId) userId
     = generateTrendAlerts now s userId.
Proof.
  set (fresh := freshTrendAlerts now userId (toMap (lastWeekExpenses now s userId))
                                 (thisWeekExpenses now s userId)).
  destruct (freshTrendAlerts_spec now userId (toMap (lastWeekExpenses now s userId))
              (thisWeekExpenses now s userId)) as [Hlen Hfresh].
  fold fresh in Hlen, Hfresh.
  assert (Hin : List.filter
                  (fun a => Nat.eqb (a_user a) (castUser userId) && String.eqb (a_type a) "trend") fresh
                = fresh).
  { clear Hlen. induction Hfresh as [|a l [Hu Ht] _ IH]; [reflexivity|].
    cbn [List.filter]. rewrite Hu, Ht, Nat.eqb_refl. cbn. f_equal. exact IH. }
  assert (Hout : List.filter
                   (fun a => negb (Nat.eqb (a_user a) (castUser userId) && String.eqb (a_type a) "trend"))
                   fresh = []).
  { apply filter_none. eapply List.Forall_impl; [|exact Hfresh].
    cbv beta. intros a [Hu Ht]. rewrite Hu, Ht, Nat.eqb_refl. reflexivity. }
  assert (H1 : trendAlertsOf (generateTrendAlerts now s userId) (castUser userId) = fresh).
  { unfold trendAlertsOf. rewrite generateTrendAlerts_alerts, List.filter_app.
    rewrite filter_negb_same. exact Hin. }
  split; [exact H1|]. split; [rewrite H1; exact Hlen|]. split.
  { rewrite generateTrendAlerts_alerts, List.filter_app, filter_idem. fold fresh.
    rewrite Hout. apply app_nil_r. }
  pose proof (generateTrendAlerts_rest now s userId) as (Ht & Hb & Hn).
  pose proof (generateTrendAlerts_rest now (generateTrendAlerts now s userId) userId)
    as (Ht' & Hb' & Hn').
  destruct (weeks_of_same_ledger now s (generateTrendAlerts now s userId) userId Ht) as [Hw1 Hw2].
  apply store_eq.
  - rewrite Ht'. reflexivity.
  - rewrite Hb'. reflexivity.
  - rewrite (generateTrendAlerts_alerts now (generateTrendAlerts now s userId) userId).
    rewrite Hw1, Hw2. fold fresh.
    rewrite generateTrendAlerts_alerts. fold fresh.
    rewrite List.filter_app, filter_idem, Hout, app_nil_r. reflexivity.
  - rewrite Hn'. reflexivity.
Qed.
End TrendRuns.

Section ChallengeRuns.
Import Model AIController Runs.
Variable random : nat -> Q.

Lemma numbered_push challenges calls idCounter c :
  numbered (challenges, calls, idCounter) ->
  c_id c = idCounter -> 100 <= expectedSave c -> c_status c = "available"%string ->
  numbered (challenges ++ [c], S calls, idCounter + 1).
Proof.
  unfold numbered. intros (Hid & Hids & Hall) Hc Hsave Hstatus.
  rewrite length_app. cbn [length]. split; [lia|]. split.
  - rewrite List.map_app, Hids. cbn [List.map].
    replace (length challenges + 1)%nat with (S (length challenges)) by lia.
    rewrite List.seq_S, List.map_app. cbn [List.map]. f_equal. f_equal. lia.
  - apply Forall_app. split; [exact Hall|]. constructor; [split; assumption|constructor].
Qed.

Lemma pushCategoryChallenge_numbered totals st cat st' :
  numbered st ->
  pushCategoryChallenge random totals (inr st) cat = inr st' -> numbered st'.
Proof.
  destruct st as [[challenges calls] idCounter]. intros Hst.
  unfold pushCategoryChallenge.
  destruct (challengePool cat); [|intros [= <-]; exact Hst].
  destruct (pick _ _); [|discriminate].
  intros [= <-]. apply numbered_push; [exact Hst|reflexivity| |reflexivity].
  cbn [expectedSave].
  destruct (Z.ltb_spec (JS.round (totalOf totals cat * (15 # 100) / 4)) 100); lia.
Qed.

Lemma fold_pushCategoryChallenge_numbered totals cats st st' :
  numbered st ->
  fold_left (pushCategoryChallenge random totals) cats (inr st) = inr st' -> numbered st'.
Proof.
  revert st. induction cats as [|cat cats IH]; intros st Hst; cbn [fold_left].
  - intros [= <-]. exact Hst.
  - destruct (pushCategoryChallenge random totals (inr st) cat) as [e|st1] eqn:E.
    + assert (Hstuck : forall l, fold_left (pushCategoryChallenge random totals) l (inl e)
                                 = inl e)
        by (induction l; [reflexivity|assumption]).
      rewrite Hstuck. discriminate.
    + apply IH. exact (pushCategoryChallenge_numbered totals st cat st1 Hst E).
Qed.

Lemma fillGeneral_numbered st st' :
  numbered st -> fillGeneral random st = inr st' -> numbered st'.
Proof.
  destruct st as [[challenges calls] idCounter]. intros Hst.
  unfold fillGeneral.
  destruct (_ <? 2)%nat; [|intros [= <-]; exact Hst].
  destruct (challengePool "General"); [|discriminate].
  destruct (pick _ _); [|discriminate].
  intros [= <-]. apply numbered_push; [exact Hst|reflexivity|cbn; lia|reflexivity].
Qed.

(** X29. The challenges that [getChallenges] sends are numbered 1, 2, 3 in the
    order of the list, every one is available, and none expects a saving
    below 100. *)
Theorem challenges_numbered (tz now : Z) (s : Store) (uid : nat)
    (challenges : list Challenge) (message : string) :
  getChallenges tz random now s uid = Respond 200 challenges message ->
  List.map c_id challenges = List.map Z.of_nat (seq 1 (length challenges))
  /\ Forall (fun c => 100 <= expectedSave c /\ c_status c = "available"%string) challenges.
Proof.
  unfold getChallenges, categoryChallenges.
  set (totals := categoryTotals _). set (top := List.map fst _).
  destruct (fold_left _ top _) as [e|st] eqn:E; [discriminate|].
  assert (Hst : numbered st).
  { apply (fold_pushCategoryChallenge_numbered totals top ([], O, 1)); [|exact E].
    cbn. split; [reflexivity|]. split; [reflexivity|constructor]. }
  destruct (fillGeneral random st) as [e|[[all calls] idCounter]] eqn:F; [discriminate|].
  apply (fillGeneral_numbered st _ Hst) in F. destruct F as (_ & Hids & Hall).
  intros [= <- _]. split.
  - rewrite <- List.firstn_map, Hids, List.firstn_map, take_seq.
    rewrite List.length_firstn. reflexivity.
  - rewrite List.Forall_forall in Hall |- *. intros c Hc.
    apply Hall. exact (In_firstn _ _ _ Hc).
Qed.
End ChallengeRuns.

(** ** Challenges for categories with plain names *)

Section PlainChallenges.
Import Model AIController.
Variable random : nat -> Q.
Hypothesis random_unit : forall k, (0 <= random k)%Q /\ (random k < 1)%Q.

Lemma categoryTotals_keys_from (l : list Transaction) acc c :
  In c (List.map fst
          (fold_left (fun totals t => addTotal (t_category t) (t_amount t) totals) l acc)) ->
  In c (List.map fst acc) \/ In c (List.map t_category l).
Proof.
  revert acc. induction l as [|t l IH]; intros acc H; cbn [fold_left] in H; [left; exact H|].
  apply IH in H as [H|H]; [|right; right; exact H].
  rewrite addTotal_keys in H. destruct (existsb _ _); [left; exact H|].
  apply List.in_app_or in H as [H|[<-|[]]]; [left; exact H|right; left; reflexivity].
Qed.

Lemma categoryTotals_keys (l : list Transaction) c :
  In c (List.map fst (categoryTotals l)) -> In c (List.map t_category l).
Proof.
  intros H. apply categoryTotals_keys_from in H as [[]|H]. exact H.
Qed.

(** Where no category of the last 30 days bears an inherited name,
    [getChallenges] answers with a list of challenges, never with a marker
    of insufficient data, and the list has 1, 2 or 3 entries: when the
    categories gave fewer than two challenges, exactly one challenge of the
    General pool, with an expected save of 500, is appended to them; with no
    expense in the last 30 days the list has that one entry; and the list is
    cut at three. *)
Lemma challenges_one_to_three_plain (tz now : Z) (s : Store) (uid : nat) :
  Whole.plainCategories (expensesSince s uid (daysAgo tz now 30)) = true ->
  exists challenges,
    getChallenges tz random now s uid
    = Respond 200 challenges "Challenges generated successfully"
    /\ (1 <= length challenges <= 3)%nat
    /\ (forall byCategory calls idCounter,
          categoryChallenges random
            (categoryTotals (expensesSince s uid (daysAgo tz now 30)))
            (List.map fst
               (firstn 3 (JS.sort (fun a b => snd b - snd a)%Q
                            (categoryTotals (expensesSince s uid (daysAgo tz now 30))))))
          = inr (byCategory, calls, idCounter) ->
          (length byCategory < 2)%nat ->
          exists g pool tpl,
            challenges = byCategory ++ [g]
            /\ expectedSave g = 500 /\ difficulty g = "Easy"%string
            /\ challengePool "General" = Some pool
            /\ In tpl pool /\ c_title g = tp_title tpl)
    /\ (expensesSince s uid (daysAgo tz now 30) = [] -> length challenges = 1%nat).
Proof.
  intros Hplain. unfold getChallenges.
  set (totals := categoryTotals (expensesSince s uid (daysAgo tz now 30))).
  set (top := List.map fst (firstn 3 (JS.sort (fun a b => snd b - snd a)%Q totals))).
  assert (Htop : (length top <= 3)%nat).
  { unfold top. rewrite length_map, length_firstn. lia. }
  assert (Hown : List.Forall (fun cat => JS.ownKey cat = true) top).
  { rewrite List.Forall_forall. intros c Hc. unfold top in Hc.
    apply List.in_map_iff in Hc as (e & <- & He).
    apply In_firstn, sort_In in He.
    assert (Hk : In (fst e) (List.map t_category (expensesSince s uid (daysAgo tz now 30)))).
    { apply categoryTotals_keys. apply List.in_map. exact He. }
    apply List.in_map_iff in Hk as (t & <- & Ht).
    unfold Whole.plainCategories in Hplain. rewrite List.forallb_forall in Hplain.
    apply Hplain, Ht. }
  unfold categoryChallenges.
  destruct (fold_pushCategoryChallenge_ok random random_unit totals top [] O 1 Hown)
    as (c1 & k1 & i1 & Hfold & Hlen1).
  rewrite Hfold. simpl in Hlen1.
  destruct (fillGeneral_ok random random_unit c1 k1 i1) as (c2 & k2 & i2 & -> & Hfill & Hkeep).
  exists (firstn 3 c2). split; [reflexivity|].
  assert (Hc2 : (1 <= length c2 <= 3)%nat /\ firstn 3 c2 = c2).
  { destruct (Nat.lt_ge_cases (length c1) 2) as [Hlt|Hge].
    - destruct (Hfill Hlt) as (g & pool & -> & _).
      rewrite length_app. simpl. split; [lia|]. apply firstn_all2. rewrite length_app. simpl. lia.
    - rewrite (Hkeep Hge). split; [lia|]. apply firstn_all2. lia. }
  destruct Hc2 as [Hlen2 Hcut]. rewrite Hcut.
  split; [exact Hlen2|]. split.
  - intros byCategory calls idCounter [= <- <- <-] Hlt.
    destruct (Hfill Hlt) as (g & pool & -> & Hsave & Hdiff & Hpool & tpl & Hin & Htitle).
    exists g, pool, tpl. repeat split; assumption.
  - intros Hnone. unfold top, totals in Hfold. rewrite Hnone in Hfold.
    simpl in Hfold. injection Hfold as <- <- <-.
    destruct (Hfill ltac:(simpl; lia)) as (g & pool & -> & _). reflexivity.
Qed.
End PlainChallenges.

(** ** Edits and deletes of whole amounts *)

Section WholeRuns.
Import Model TransactionController.
Variable tz : Z.

Lemma answered_not_refused r out : Whole.answered out = true -> ~ refusedEdit r out.
Proof. destruct r, out; cbn; intros H; try discriminate; intros []. Qed.

Lemma answered_run s rs :
  forallb Whole.answered (snd (serve tz s rs)) = true ->
  Forall2 (fun r out => ~ refusedEdit r out) rs (snd (serve tz s rs)).
Proof.
  revert s. induction rs as [|r rs IH]; intros s; cbn [serve]; [constructor|].
  destruct (handle tz s r) as [s1 out]. specialize (IH s1).
  destruct (serve tz s1 rs) as [s2 outs]. cbn [snd forallb] in *.
  intros [Ho Hs]%andb_true_iff.
  constructor; [apply answered_not_refused, Ho|apply IH, Hs].
Qed.

(** X1. Edits and deletes that are served one after the other, with whole
    amounts in the ledger and in the requests and every request answered,
    keep an aggregate that agrees with its ledger in agreement. *)
Theorem whole_run_keeps_sync (s : Store) (u : nat) (m : Month) (rs : list Request) :
  wellFormed s -> inSync tz s u m ->
  Whole.wholeRun s rs = true ->
  forallb Whole.answered (snd (serve tz s rs)) = true ->
  wellFormed (fst (serve tz s rs)) /\ inSync tz (fst (serve tz s rs)) u m.
Proof.
  intros Hwf Hsync _ Hanswered.
  apply sync_preserved; [exact Hwf|exact Hsync|apply answered_run, Hanswered].
Qed.
End WholeRuns.

(** ** The properties at sample inputs *)

(** A witness of [createBill_refuses_non_positive]: a phone bill of -5. *)
Lemma createBill_refuses_non_positive_witness :
  exists message,
    Bills.createBill (JSDate.fixedZone 0) MoreSamples.today MoreSamples.billStore 1 MoreSamples.negativeBill
    = (MoreSamples.billStore, Model.Throw (Model.ApiError 400 message)).
Proof.
  apply (createBill_refuses_non_positive (JSDate.fixedZone 0) MoreSamples.today MoreSamples.billStore 1
           MoreSamples.negativeBill (-5 # 1)).
  - reflexivity.
  - vm_compute. discriminate.
Defined.

(** A witness of [paid_bill_not_upcoming]: user 1 pays the phone bill, which
    was due in two days. *)
Lemma paid_bill_not_upcoming_witness :
  ~ In 1%nat
      (Bills.listedIds
         (Bills.getUpcomingBills (JSDate.fixedZone 0) MoreSamples.today
            (fst (Bills.markBillAsPaid (JSDate.fixedZone 0) MoreSamples.today MoreSamples.billStore 1 1)) 1)).
Proof.
  eapply (paid_bill_not_upcoming (JSDate.fixedZone 0) MoreSamples.today MoreSamples.billStore _ 1 1).
  vm_compute. reflexivity.
Defined.

(** A witness of [deleted_bill_is_gone]: user 1 deletes the rent. *)
Lemma deleted_bill_is_gone_witness :
  Bills.Bill_findById (fst (Bills.deleteBill MoreSamples.billStore 1 2)) 2 = None
  /\ forall id', id' <> 2%nat ->
       Bills.Bill_findById (fst (Bills.deleteBill MoreSamples.billStore 1 2)) id'
       = Bills.Bill_findById MoreSamples.billStore id'.
Proof.
  eapply (deleted_bill_is_gone MoreSamples.billStore _ 1 2).
  vm_compute. reflexivity.
Defined.

(** A witness of [bills_page_sorted]: the first page of two bills holds the
    phone bill and the rent; the rent, which is overdue, is listed first. *)
Lemma bills_page_sorted_witness :
  exists data pg,
    Bills.getAllBills (JSDate.fixedZone 0) MoreSamples.today MoreSamples.anyMatch
      MoreSamples.billStore 1 MoreSamples.twoBills
    = inr (Model.Respond 200 (data, pg) "Bills fetched successfully")
    /\ List.map Bills.bf_billName data = ["Rent"; "Phone"]%string
    /\ StronglySorted (fun a b => Bills.daysLeft a <= Bills.daysLeft b) data
    /\ Z.of_nat (length data) <= Bills.bp_limit pg.
Proof.
  do 2 eexists. split; [vm_compute; reflexivity|].
  split; [reflexivity|].
  eapply (bills_page_sorted (JSDate.fixedZone 0) MoreSamples.today MoreSamples.anyMatch
            MoreSamples.billStore 1 MoreSamples.twoBills).
  - vm_compute. reflexivity.
  - reflexivity.
Defined.

(** A witness of [due_later_today_alerted_as_tomorrow]: at noon, a water bill
    that is due at six in the evening. *)
Lemma due_later_today_alerted_as_tomorrow_witness :
  Bills.daysLeft
    (Bills.calculateBillFields (JSDate.fixedZone 0) MoreSamples.today MoreSamples.tonight) = 0
  /\ Model.alerts
       (BillAlerts.billAlert MoreSamples.noDate MoreSamples.today 1 Sample.usedStore
          MoreSamples.tonight)
     = Model.alerts Sample.usedStore
       ++ [Model.newAlert MoreSamples.today 1 "bill" "medium" "Water is due tomorrow."
             (Model.mkAlertMetadata None (Some 5%nat) (Some "Water"%string)
                (Some (Bills.bl_dueDate MoreSamples.tonight)) None None)].
Proof.
  apply (due_later_today_alerted_as_tomorrow (JSDate.fixedZone 0) MoreSamples.today
           MoreSamples.noDate 1 Sample.usedStore MoreSamples.tonight).
  - vm_compute. reflexivity.
  - reflexivity.
  - vm_compute. reflexivity.
Defined.

(** A witness of [bill_days_are_calendar_days]: in New York, at noon of
    Saturday 2024-11-02, a bill that falls due on Monday morning.  The clocks
    are set back by an hour in the night to Sunday, the two midnights are 49
    hours apart, and the bill is listed with three days left. *)
Lemma bill_days_are_calendar_days_witness :
  JSDate.dayIn MoreSamples.newYork (Bills.bl_dueDate MoreSamples.mondayBill)
  - JSDate.dayIn MoreSamples.newYork MoreSamples.saturdayNoon = 2
  /\ Bills.daysLeft
       (Bills.calculateBillFields MoreSamples.newYork MoreSamples.saturdayNoon
          MoreSamples.mondayBill) = 3.
Proof.
  split; [vm_compute; reflexivity|].
  apply (bill_days_are_calendar_days MoreSamples.newYork MoreSamples.saturdayNoon
           MoreSamples.mondayBill).
  vm_compute. split; [reflexivity|discriminate].
Defined.

(** A witness of [alert_days_listing_days]: at noon, the phone bill that is
    due at noon two days later is counted alike by both. *)
Lemma alert_days_listing_days_witness :
  JSDate.ceilDays (Bills.bl_dueDate MoreSamples.phone - MoreSamples.today)
  = Bills.daysLeft
      (Bills.calculateBillFields (JSDate.fixedZone Sample.plus5) MoreSamples.today
         MoreSamples.phone).
Proof.
  apply (alert_days_listing_days (JSDate.fixedZone Sample.plus5) MoreSamples.today
           MoreSamples.phone).
  - repeat split.
  - vm_compute. discriminate.
Defined.

(** A witness of [monthly_totals_add_up]: March 2024 of the ledger with
    three expenses. *)
Lemma monthly_totals_add_up_witness :
  exists data,
    TransactionQueries.getMonthlyTransactions 0 Sample.trendStore 1 2024 3
    = Model.Respond 200 data "Monthly transactions fetched successfully"
    /\ (TransactionQueries.totalIncome data + TransactionQueries.totalExpenses data
        == JS.sumOf Model.t_amount (TransactionQueries.ms_transactions data))%Q
    /\ (JS.sumOf snd (TransactionQueries.categoryBreakdown data)
        == TransactionQueries.totalExpenses data)%Q.
Proof.
  apply (monthly_totals_add_up 0 Sample.trendStore 1 2024 3); reflexivity.
Defined.

(** A witness of [fresh_bill_alerts_survive_cleanup]: a cleanup 30 days to
    the millisecond after the run. *)
Lemma fresh_bill_alerts_survive_cleanup_witness :
  BillAlerts.billAlertsOf
    (BillAlerts.cleanupOldAlerts (MoreSamples.today + 30 * 24 * 60 * 60 * 1000)
       (BillAlerts.generateBillAlerts MoreSamples.noDate MoreSamples.today
          MoreSamples.billStore Sample.usedStore 1) 1) 1
  = BillAlerts.billAlertsOf
      (BillAlerts.generateBillAlerts MoreSamples.noDate MoreSamples.today
         MoreSamples.billStore Sample.usedStore 1) 1
  /\ AlertController.alertsOfOthers
       (BillAlerts.cleanupOldAlerts (MoreSamples.today + 30 * 24 * 60 * 60 * 1000)
          (BillAlerts.generateBillAlerts MoreSamples.noDate MoreSamples.today
             MoreSamples.billStore Sample.usedStore 1) 1) 1
     = AlertController.alertsOfOthers
         (BillAlerts.generateBillAlerts MoreSamples.noDate MoreSamples.today
            MoreSamples.billStore Sample.usedStore 1) 1.
Proof.
  apply (fresh_bill_alerts_survive_cleanup MoreSamples.noDate MoreSamples.today
           (MoreSamples.today + 30 * 24 * 60 * 60 * 1000) MoreSamples.billStore
           Sample.usedStore 1 1).
  lia.
Defined.

(** A witness of [monthly_listing_is_month_key]: March 2024 on a server five
    hours east of UTC, with an expense made there on 2024-03-01 at 02:00. *)
Lemma monthly_listing_is_month_key_witness :
  exists data,
    TransactionQueries.getMonthlyTransactions Sample.plus5 Sample.nightStore 1 2024 3
    = Model.Respond 200 data "Monthly transactions fetched successfully"
    /\ Permutation (TransactionQueries.ms_transactions data)
         (List.filter
            (fun t => Nat.eqb (Model.t_user t) 1
                      && bool_decide (TransactionController.monthOf Sample.plus5
                                        (Model.t_date t) = (2024, 3)))
            (Model.transactions Sample.nightStore))
    /\ (Forall (fun t => Model.inEnum (Model.t_type t) Model.typeEnum = true)
               (Model.transactions Sample.nightStore) ->
        Whole.wholeAmounts (Model.transactions Sample.nightStore) = true ->
        (TransactionQueries.totalExpenses data
         == TransactionController.liveSum Sample.plus5 Sample.nightStore 1 (2024%Z, 3%Z))%Q).
Proof.
  apply (monthly_listing_is_month_key Sample.plus5 Sample.nightStore 1 2024 3); lia.
Defined.

(** A witness of [pages_cover_listing]: three transactions, two to a page. *)
Lemma pages_cover_listing_witness :
  List.concat
    (List.map (fun i => TransactionQueries.pageOf MoreSamples.anyMatch Sample.trendStore 1
                          MoreSamples.twoPerPage (Z.of_nat i))
              (seq 1 (Z.to_nat 2)))
  = TransactionQueries.latestFirst
      (List.filter (TransactionQueries.matchesQuery MoreSamples.anyMatch 1
                      MoreSamples.twoPerPage)
                   (Model.transactions Sample.trendStore))
  /\ (forall page, 2 < page ->
        TransactionQueries.pageOf MoreSamples.anyMatch Sample.trendStore 1
          MoreSamples.twoPerPage page = [])
  /\ 3%nat = length (List.filter (TransactionQueries.matchesQuery MoreSamples.anyMatch 1
                                    MoreSamples.twoPerPage)
                                 (Model.transactions Sample.trendStore)).
Proof.
  eapply (pages_cover_listing MoreSamples.anyMatch Sample.trendStore 1
            MoreSamples.twoPerPage _
            (TransactionQueries.mkPagination 1 2 (Some 2) 3) _ 2).
  - vm_compute. repeat constructor; cbn; intuition discriminate.
  - vm_compute. reflexivity.
  - reflexivity.
  - reflexivity.
Defined.

(** A witness of [budget_read_back]: a limit of 2000 on 2024-03-15. *)
Lemma budget_read_back_witness :
  exists data,
    snd (BudgetController.setBudget 0 (Sample.noon 2024 3 15) Sample.usedStore 1 (Some 2000%Q))
    = Model.Respond 200 data "Budget set successfully"
    /\ BudgetQueries.getCurrentBudget 0 (Sample.noon 2024 3 15)
         (fst (BudgetController.setBudget 0 (Sample.noon 2024 3 15) Sample.usedStore 1
                 (Some 2000%Q))) 1
       = Model.Respond 200 data "Budget fetched successfully"
    /\ BudgetController.bd_monthlyBudget data = 2000%Q
    /\ exists alert,
         BudgetQueries.getBudgetStatus 0 (Sample.noon 2024 3 15)
           (fst (BudgetController.setBudget 0 (Sample.noon 2024 3 15) Sample.usedStore 1
                   (Some 2000%Q))) 1
         = Model.Respond 200
             (BudgetQueries.mkBudgetStatus alert (BudgetController.bd_statusColor data) data)
             "Budget status fetched successfully".
Proof.
  apply (budget_read_back 0 (Sample.noon 2024 3 15) Sample.usedStore 1 2000).
  reflexivity.
Defined.

(** A witness of [top_categories_descend]: the 126 expenses in six categories. *)
Lemma top_categories_descend_witness :
  exists p,
    AIController.getPersonality 0 (Sample.noon 2024 3 21) Sample.busyStore Sample.alice
    = Model.Respond 200 (Some p) "Personality detected successfully"
    /\ StronglySorted (fun a b => snd b <= snd a) (AIController.topCategories p)
    /\ (length (AIController.topCategories p) <= 3)%nat.
Proof.
  eexists. split; [vm_compute; reflexivity|].
  eapply (top_categories_descend 0 (Sample.noon 2024 3 21) Sample.busyStore Sample.alice).
  - vm_compute. reflexivity.
  - vm_compute. reflexivity.
  - vm_compute. reflexivity.
Defined.

(** A witness of [suggestions_bounded]: one expense of 3000 on Food and the
    four sample bills. *)
Lemma suggestions_bounded_witness :
  exists suggestions,
    Suggestions.getSuggestions 0 MoreSamples.noDigits (Sample.noon 2024 3 21)
      Sample.forecastStore MoreSamples.billStore Sample.alice
    = Model.Respond 200 (Some suggestions) "Smart suggestions generated"
    /\ (length (Suggestions.categorySuggestions
                  (AIController.expensesSince Sample.forecastStore 1
                     (AIController.daysAgo 0 (Sample.noon 2024 3 21) 30))) <= 3)%nat
    /\ (length suggestions
        <= 7 + length (Suggestions.upcomingBills (Sample.noon 2024 3 21)
                         MoreSamples.billStore 1))%nat.
Proof.
  eexists. split; [vm_compute; reflexivity|].
  eapply (suggestions_bounded 0 MoreSamples.noDigits (Sample.noon 2024 3 21)
            Sample.forecastStore MoreSamples.billStore Sample.alice).
  - repeat constructor.
  - reflexivity.
  - vm_compute. reflexivity.
  - vm_compute. reflexivity.
Defined.

(** A witness of [whole_run_keeps_sync]: the lunch of 100 is edited to 150
    and then deleted. *)
Lemma whole_run_keeps_sync_witness :
  TransactionController.wellFormed
    (fst (TransactionController.serve 0 Sample.syncedStore MoreSamples.editThenDelete))
  /\ TransactionController.inSync 0
       (fst (TransactionController.serve 0 Sample.syncedStore MoreSamples.editThenDelete))
       1 (2024, 3).
Proof.
  apply (whole_run_keeps_sync 0 Sample.syncedStore 1 (2024, 3) MoreSamples.editThenDelete).
  - exact syncedStore_wellFormed.
  - exact syncedStore_inSync.
  - reflexivity.
  - reflexivity.
Defined.

(** A witness of [add_refuses_non_positive]: an expense of -5. *)
Lemma add_refuses_non_positive_witness :
  exists message,
    TransactionController.addTransaction 0 Sample.syncedStore 1 MoreSamples.negativeAdd
    = (Sample.syncedStore, Model.Throw (Model.ApiError 400 message)).
Proof.
  apply (add_refuses_non_positive 0 Sample.syncedStore 1 MoreSamples.negativeAdd (-5 # 1)).
  - reflexivity.
  - vm_compute. discriminate.
Defined.

(** A witness of [refused_edit_breaks_sync]: the lunch of 100 edited to -5. *)
Lemma refused_edit_breaks_sync_witness :
  ~ TransactionController.inSync 0
      (fst (TransactionController.updateTransaction 0 Sample.syncedStore 1 1
              (TransactionController.amountOnly (-5 # 1))))
      1 (TransactionController.monthOf 0 (Model.t_date Sample.lunch)).
Proof.
  apply (refused_edit_breaks_sync 0 Sample.syncedStore 1 1 Sample.lunch (-5 # 1)).
  - exact syncedStore_wellFormed.
  - exact syncedStore_inSync.
  - reflexivity.
  - reflexivity.
  - reflexivity.
  - reflexivity.
Defined.

(** A witness of [setBudget_exact_in_utc]: a limit of 2000 over the ledger
    that holds the lunch. *)
Lemma setBudget_exact_in_utc_witness :
  Model.Budget_findOne
    (fst (BudgetController.setBudget 0 (Sample.noon 2024 3 15) Sample.syncedStore 1
            (Some 2000%Q))) 1
    (BudgetController.getCurrentMonth 0 (Sample.noon 2024 3 15))
  = Some (Model.mkBudget 2000
            (TransactionController.liveSum 0 Sample.syncedStore 1
               (BudgetController.getCurrentMonth 0 (Sample.noon 2024 3 15)))).
Proof.
  apply (setBudget_exact_in_utc (Sample.noon 2024 3 15) Sample.syncedStore 1 2000).
  reflexivity.
Defined.

(** A witness of [budget_alerts_pile_up]: a usage of 60 percent. *)
Lemma budget_alerts_pile_up_witness :
  exists a,
    AlertService.budgetAlertsOf
      (AlertService.generateBudgetAlerts 0 false (Sample.noon 2024 3 15) Sample.usedStore 1) 1
    = AlertService.budgetAlertsOf Sample.usedStore 1 ++ [a].
Proof.
  apply (budget_alerts_pile_up 0 (Sample.noon 2024 3 15) Sample.usedStore 1
           (Model.mkBudget 1000 600)).
  - reflexivity.
  - reflexivity.
  - vm_compute. discriminate.
Defined.

(** A witness of [budget_alert_single_strict]: the second of two runs at a
    usage of 60 percent. *)
Lemma budget_alert_single_strict_witness :
  length
    (AlertService.budgetAlertsOf
       (AlertService.generateBudgetAlerts 0 true (Sample.noon 2024 3 15)
          (AlertService.generateBudgetAlerts 0 true (Sample.noon 2024 3 15)
             Sample.usedStore 1) 1) 1) = 1%nat.
Proof.
  apply (budget_alert_single_strict 0 (Sample.noon 2024 3 15)
           (AlertService.generateBudgetAlerts 0 true (Sample.noon 2024 3 15)
              Sample.usedStore 1) 1 (Model.mkBudget 1000 600)).
  - reflexivity.
  - reflexivity.
  - vm_compute. discriminate.
Defined.

(** A witness of [challenges_numbered]: the 126 expenses in six categories,
    with every call of [Math.random()] returning one half. *)
Lemma challenges_numbered_witness :
  exists challenges,
    AIController.getChallenges 0 (fun _ => 1 # 2) (Sample.noon 2024 3 21) Sample.busyStore 1
    = Model.Respond 200 challenges "Challenges generated successfully"
    /\ List.map AIController.c_id challenges = [1; 2; 3]
    /\ List.map AIController.c_id challenges
       = List.map Z.of_nat (seq 1 (length challenges))
    /\ Forall (fun c => 100 <= AIController.expectedSave c
                        /\ AIController.c_status c = "available"%string)
              challenges.
Proof.
  eexists. split; [vm_compute; reflexivity|].
  split; [reflexivity|].
  eapply (challenges_numbered (fun _ => 1 # 2) 0 (Sample.noon 2024 3 21) Sample.busyStore 1).
  vm_compute. reflexivity.
Defined.
